(** * EcoFootprint: the carbon-footprint calculation engine of [global.py]

    A shallow embedding of the calculation engine
    ([calculate_carbon_footprint]), of the emission-factor tables it reads,
    of the guard the script puts in front of the call ([valid_input]) and of
    the recommendation rules, followed by the properties of the
    specification that concern them.

    Numbers.  The Python program computes on [int] and [float] objects.
    The engine is embedded twice.  In the first embedding every number is
    an exact rational ([Qc], canonical fractions, so that equality of
    numbers is Leibniz equality) and a decimal literal of the source such
    as [0.31] denotes the rational 31/100: it carries the properties that
    concern the formulas, the order of the numbers, the fields read and the
    exceptions [KeyError] and [TypeError], and it has neither the rounding
    of floats nor the overflow of the conversion of an int.  In the second
    embedding, module [B64], an int is an integer and a float an IEEE 754
    binary64 number: it carries the properties of the total, which depend
    on rounding, and those of [OverflowError].

    Errors.  A Python exception is a [Raise] result; the exceptions the
    engine can raise on an input record (a mapping from field names to
    numbers or strings) are [KeyError], [TypeError] and, on an int beyond
    the floats, [OverflowError]. *)

From Stdlib Require Import QArith Qcanon String Ascii SpecFloat.
From stdpp Require Import gmap strings list fin_maps numbers sorting.

Local Open Scope Qc_scope.
Local Open Scope string_scope.

(** A numeric literal of the source, read as an exact rational. *)
Abbreviation lit := Q2Qc (only parsing).

(** ** The fragment of Python the engine runs on *)
Module Py.

(** Objects stored in an input record: a number or a string. *)
Inductive value : Type :=
| VNum (x : Qc)
| VStr (s : string).

#[global] Instance value_eq_dec : EqDecision value.
Proof. solve_decision. Defined.

Inductive exn : Type :=
| KeyError (key : value)
| TypeError.

#[global] Instance exn_eq_dec : EqDecision exn.
Proof. solve_decision. Defined.

Inductive result (A : Type) : Type :=
| Ok (a : A)
| Raise (e : exn).
Arguments Ok {A} a.
Arguments Raise {A} e.

#[global] Instance result_eq_dec `{EqDecision A} : EqDecision (result A).
Proof. solve_decision. Defined.

Definition bind {A B} (m : result A) (k : A → result B) : result B :=
  match m with
  | Ok a => k a
  | Raise e => Raise e
  end.

(** [d[k]] on a dict with string keys. *)
Definition getitem {V} (d : gmap string V) (k : string) : result V :=
  match d !! k with
  | Some v => Ok v
  | None => Raise (KeyError (VStr k))
  end.

(** [d[v]] where the key is an arbitrary object: only a string can be
    a key of the tables of this program. *)
Definition getitem_obj {V} (d : gmap string V) (v : value) : result V :=
  match v with
  | VStr k => getitem d k
  | VNum _ => Raise (KeyError v)
  end.

(** [d.get(k, dflt)]. *)
Definition get {V} (d : gmap string V) (k : string) (dflt : V) : V :=
  default dflt (d !! k).

(** [k in d]. *)
Definition contains {V} (d : gmap string V) (k : string) : bool :=
  bool_decide (is_Some (d !! k)).

(** [s * n] for a string [s] and an integer [n]: repetition. *)
Definition str_repeat (s : string) (n : Z) : string :=
  Nat.iter (Z.to_nat n) (String.append s) "".

(** [v * n] with [n] an integer literal: never fails on a number or on
    a string. *)
Definition mul_int (v : value) (n : Z) : value :=
  match v with
  | VNum x => VNum (x * lit (inject_Z n))
  | VStr s => VStr (str_repeat s n)
  end.

(** [v * f] with [f] a float: a string cannot be multiplied by a
    float.  On exact numbers the product is exact and no number is too
    large for it; [B64.mul_float] is the product of the interpreter. *)
Definition mul_float (v : value) (f : Qc) : result Qc :=
  match v with
  | VNum x => Ok (x * f)
  | VStr _ => Raise TypeError
  end.

(** An insertion-ordered dict from category labels to numbers, as the
    list of its items. *)
Definition odict : Type := list (string * Qc).

(** [d[k] = v]: replaces the value of an existing key in place, appends
    a new key at the end. *)
Fixpoint setitem (k : string) (v : Qc) (d : odict) : odict :=
  match d with
  | [] => [(k, v)]
  | (k', v') :: d' =>
      if String.eqb k' k then (k', v) :: d' else (k', v') :: setitem k v d'
  end.

Fixpoint lookup (k : string) (d : odict) : option Qc :=
  match d with
  | [] => None
  | (k', v') :: d' => if String.eqb k' k then Some v' else lookup k d'
  end.

Definition values (d : odict) : list Qc := d.*2.

(** [sum(xs)]: starts from 0 and adds the elements from left to
    right, exactly on exact numbers; [B64.sum] is the sum of the
    interpreter. *)
Definition sum (xs : list Qc) : Qc := fold_left Qcplus xs 0.

(** [sub in s] on strings. *)
Fixpoint str_contains (sub s : string) : bool :=
  if String.prefix sub s then true
  else match s with
       | EmptyString => false
       | String _ s' => str_contains sub s'
       end.

(** [s.lower()] on ASCII letters. *)
Definition lower_ascii (c : ascii) : ascii :=
  let n := nat_of_ascii c in
  if (65 <=? n)%nat && (n <=? 90)%nat then ascii_of_nat (n + 32) else c.

Fixpoint lower (s : string) : string :=
  match s with
  | EmptyString => EmptyString
  | String c s' => String (lower_ascii c) (lower s')
  end.

End Py.
Import Py.

Notation "'let*' x := m 'in' k" := (Py.bind m (λ x, k))
  (at level 10, x name, m at level 100, k at level 200, only parsing).

(** ** Emission factors *)

(** African grid emission factors, kg CO2e per kWh. *)
Definition COUNTRY_GRID_MIX : gmap string Qc :=
  list_to_map [
    ("Select Country", lit 0.0);
    ("Nigeria (Gas-dominated)", lit 0.55);
    ("South Africa (Coal-dominated)", lit 0.9);
    ("Kenya (Geothermal/Hydro)", lit 0.3);
    ("Ghana (Hydro/Gas)", lit 0.45);
    ("Egypt (Gas-dominated)", lit 0.6);
    ("Ethiopia (Hydro-dominated)", lit 0.05);
    ("General Sub-Saharan Africa Avg", lit 0.48)
  ].

(** Global emission factors. *)
Definition GLOBAL_EMISSION_FACTORS : gmap string Qc :=
  list_to_map [
    (* Housing *)
    ("electricity", lit 0.5);
    ("natural_gas", lit 2.0);
    ("heating_oil", lit 2.68);
    ("propane", lit 1.5);
    (* Transport *)
    ("car_gasoline", lit 0.31);
    ("car_diesel", lit 0.27);
    ("motorcycle", lit 0.11);
    ("bus", lit 0.11);
    ("train", lit 0.06);
    ("plane_short", lit 0.24);
    (* Diet *)
    ("diet_meat_heavy", lit 3.3);
    ("diet_typical", lit 1.8);
    ("diet_meat_regular", lit 2.7);
    ("diet_average", lit 2.5);
    ("diet_vegetarian", lit 1.5);
    ("diet_vegan", lit 1.2);
    (* LPG *)
    ("lpg_per_kg", lit 3.0)
  ].

(** The local table of [calculate_carbon_footprint] from diet labels to
    keys of the factor table; one table for both regions. *)
Definition diet_map : gmap string string :=
  list_to_map [
    ("Typical (Staples + some meat)", "diet_typical");
    ("Meat regularly", "diet_meat_regular");
    ("Meat-Heavy", "diet_meat_heavy");
    ("Average", "diet_average");
    ("Vegetarian", "diet_vegetarian");
    ("Vegan", "diet_vegan")
  ].

(** ** Calculation engine *)

(** The engine in an environment of module globals: Python looks the two
    tables up when the function runs, so they are parameters here. *)
Section Engine.

Variable GRID : gmap string Qc.
Variable FACTORS : gmap string Qc.

Definition housing (data : gmap string value) (region : string)
    (breakdown : odict) : result odict :=
  if String.eqb region "africa" then
    let* country := getitem data "country" in
    let* grid_factor := getitem_obj GRID country in
    let* kwh := getitem data "electricity_kwh" in
    let* e := mul_float kwh grid_factor in
    let breakdown := setitem "Housing: Electricity" (e * lit 12) breakdown in
    if contains data "lpg_kg_per_month" then
      let* kg := getitem data "lpg_kg_per_month" in
      let* f := getitem FACTORS "lpg_per_kg" in
      let* c := mul_float kg f in
      Ok (setitem "Housing: Cooking (LPG)" (c * lit 12) breakdown)
    else Ok breakdown
  else
    let* kwh := getitem data "electricity_kwh" in
    let* f := getitem FACTORS "electricity" in
    let* e := mul_float kwh f in
    let breakdown := setitem "Housing: Electricity" (e * lit 12) breakdown in
    let* f := getitem FACTORS "natural_gas" in
    let* g := mul_float (get data "natural_gas_therms" (VNum (lit 0))) f in
    let breakdown := setitem "Housing: Natural Gas" (g * lit 12) breakdown in
    let* f := getitem FACTORS "heating_oil" in
    let* o := mul_float (get data "heating_oil_liters" (VNum (lit 0))) f in
    let breakdown := setitem "Housing: Heating Oil" (o * lit 12) breakdown in
    let* f := getitem FACTORS "propane" in
    let* p := mul_float (get data "propane_liters" (VNum (lit 0))) f in
    Ok (setitem "Housing: Propane" (p * lit 12) breakdown).

Definition transport (data : gmap string value) (region : string)
    (breakdown : odict) : result odict :=
  if String.eqb region "africa" then
    let km := mul_int (get data "car_km_week" (VNum (lit 0))) 52 in
    let* f := getitem FACTORS "car_gasoline" in
    let* c := mul_float km f in
    let breakdown := setitem "Transport: Car" c breakdown in
    let km := mul_int (get data "moto_km_week" (VNum (lit 0))) 52 in
    let* f := getitem FACTORS "motorcycle" in
    let* m := mul_float km f in
    let breakdown := setitem "Transport: Motorcycle" m breakdown in
    let km := mul_int (get data "bus_km_week" (VNum (lit 0))) 52 in
    let* f := getitem FACTORS "bus" in
    let* b := mul_float km f in
    Ok (setitem "Transport: Bus/Minibus" b breakdown)
  else
    let* f := getitem FACTORS "car_gasoline" in
    let* c := mul_float (get data "car_miles_week" (VNum (lit 0))) f in
    let breakdown := setitem "Transport: Car" (c * lit 52) breakdown in
    let* f := getitem FACTORS "bus" in
    let* b := mul_float (get data "bus_miles_week" (VNum (lit 0))) f in
    let breakdown := setitem "Transport: Bus" (b * lit 52) breakdown in
    let* f := getitem FACTORS "train" in
    let* t := mul_float (get data "train_miles_week" (VNum (lit 0))) f in
    Ok (setitem "Transport: Train" (t * lit 52) breakdown).

Definition flights (data : gmap string value) (breakdown : odict)
    : result odict :=
  let* hours := getitem data "flight_hours" in
  let miles := mul_int hours 500 in
  let* f := getitem FACTORS "plane_short" in
  let* v := mul_float miles f in
  Ok (setitem "Transport: Flights" v breakdown).

Definition diet (data : gmap string value) (breakdown : odict)
    : result odict :=
  let* label := getitem data "diet" in
  let* diet_key := getitem_obj diet_map label in
  let* f := getitem FACTORS diet_key in
  Ok (setitem "Diet" (f * lit 365) breakdown).

(** [calculate_carbon_footprint(data, region)]: the statements of the
    body in order (housing, transport, flights, diet, total). *)
Definition calculate_carbon_footprint_in (data : gmap string value)
    (region : string) : result (Qc * odict) :=
  let breakdown : odict := [] in
  let* breakdown := housing data region breakdown in
  let* breakdown := transport data region breakdown in
  let* breakdown := flights data breakdown in
  let* breakdown := diet data breakdown in
  let total_kg_co2 := sum (values breakdown) in
  Ok (total_kg_co2, breakdown).

End Engine.

(** The engine on the tables of the program. *)
Definition calculate_carbon_footprint (data : gmap string value)
    (region : string) : result (Qc * odict) :=
  calculate_carbon_footprint_in COUNTRY_GRID_MIX GLOBAL_EMISSION_FACTORS
    data region.

(** ** The calling script *)

(** The guard of the script; [region] is the label chosen in the radio
    widget, ["Global"] or ["Africa"]. *)
Definition valid_input (region : string) (input_data : gmap string value)
    : bool :=
  if negb (String.eqb region "Africa")
     || (String.eqb region "Africa"
         && negb (bool_decide
                    (input_data !! "country" = Some (VStr "Select Country"))))
  then true else false.

(** The rules of the reduction plan, in the order in which the script
    appends to [recommendations]; a recommendation is a text and its
    estimated savings. *)
Definition emitted_recommendations (breakdown_dict : odict)
    (region : string) (input_data : gmap string value)
    : result (list (string * Z)) :=
  let recommendations : list (string * Z) := [] in
  let recommendations :=
    if bool_decide (lit 2000 < default (lit 0) (lookup "Transport: Car" breakdown_dict))
    then (recommendations ++ [("**🚗 Reduce car travel by 20%.** Use public transport, bike, or carpool just one day a week.", 400%Z)])%list
    else recommendations in
  let recommendations :=
    if bool_decide (lit 1500 < default (lit 0) (lookup "Housing: Electricity" breakdown_dict))
    then (recommendations ++ [("**💡 Switch to energy-efficient appliances** and LED bulbs. Consider solar if available.", 500%Z)])%list
    else recommendations in
  let recommendations :=
    if String.eqb (lower region) "africa"
       && bool_decide (lit 500 < default (lit 0) (lookup "Housing: Cooking (LPG)" breakdown_dict))
    then (recommendations ++ [("**🔥 Improve cooking efficiency.** Use a pressure cooker or hotbox to reduce LPG consumption.", 100%Z)])%list
    else recommendations in
  if bool_decide (lit 2000 < default (lit 0) (lookup "Diet" breakdown_dict)) then
    let* label := getitem input_data "diet" in
    match label with
    | VStr s =>
        if str_contains "Meat" s
        then Ok (recommendations ++ [("**🍽️ Reduce meat consumption.** Try having one meat-free day per week.", 200%Z)])%list
        else Ok recommendations
    | VNum _ => Raise TypeError
    end
  else Ok recommendations.

(** [l.sort(key=lambda x: x[1], reverse=True)]: Python's sort is stable,
    also with [reverse=True]; a stable insertion sort computes the same
    list. *)
Fixpoint insert_desc (x : string * Z) (l : list (string * Z))
    : list (string * Z) :=
  match l with
  | [] => [x]
  | y :: l' =>
      if (y.2 <=? x.2)%Z then x :: y :: l' else y :: insert_desc x l'
  end.

Definition sort_desc (l : list (string * Z)) : list (string * Z) :=
  foldr insert_desc [] l.

(** The sorted reduction plan the script displays. *)
Definition recommendations (breakdown_dict : odict) (region : string)
    (input_data : gmap string value) : result (list (string * Z)) :=
  let* recommendations :=
    emitted_recommendations breakdown_dict region input_data in
  Ok (sort_desc recommendations).

(** One run of the script body below the button: nothing happens ([None])
    unless the button was pressed and the guard lets the call through. *)
Definition on_calculate (calculate_button : bool) (region : string)
    (input_data : gmap string value)
    : option (result (Qc * odict * list (string * Z))) :=
  if calculate_button && valid_input region input_data then
    Some (let* r := calculate_carbon_footprint input_data (lower region) in
          let* recs := recommendations r.2 region input_data in
          Ok (r.1, r.2, recs))
  else None.

(** ** Sample records *)

Definition num (q : Q) : value := VNum (lit q).

(** Scenario 3 of the specification. *)
Definition kenya_record : gmap string value :=
  list_to_map [
    ("country", VStr "Kenya (Geothermal/Hydro)");
    ("electricity_kwh", num 100);
    ("lpg_kg_per_month", num 6);
    ("car_km_week", num 0);
    ("moto_km_week", num 0);
    ("bus_km_week", num 0);
    ("flight_hours", num 0);
    ("diet", VStr "Vegan")
  ].

(** Scenario 2 of the specification. *)
Definition global_record : gmap string value :=
  list_to_map [
    ("electricity_kwh", num 300);
    ("natural_gas_therms", num 0);
    ("heating_oil_liters", num 0);
    ("propane_liters", num 0);
    ("car_miles_week", num 0);
    ("flight_hours", num 0);
    ("bus_miles_week", num 0);
    ("train_miles_week", num 0);
    ("diet", VStr "Average")
  ].


(** The breakdown of scenario 3. *)
Definition kenya_breakdown : odict :=
  [("Housing: Electricity", lit 360);
   ("Housing: Cooking (LPG)", lit 216);
   ("Transport: Car", lit 0);
   ("Transport: Motorcycle", lit 0);
   ("Transport: Bus/Minibus", lit 0);
   ("Transport: Flights", lit 0);
   ("Diet", lit 438)].

(** The breakdown of scenario 2. *)
Definition global_breakdown : odict :=
  [("Housing: Electricity", lit 1800);
   ("Housing: Natural Gas", lit 0);
   ("Housing: Heating Oil", lit 0);
   ("Housing: Propane", lit 0);
   ("Transport: Car", lit 0);
   ("Transport: Bus", lit 0);
   ("Transport: Train", lit 0);
   ("Transport: Flights", lit 0);
   ("Diet", lit 912.5)].

(** The record of scenario 3 with a weekly car distance of 100 km, and
    its breakdown. *)
Definition driver_record : gmap string value :=
  <["car_km_week" := num 100]> kenya_record.

Definition driver_breakdown : odict :=
  [("Housing: Electricity", lit 360);
   ("Housing: Cooking (LPG)", lit 216);
   ("Transport: Car", lit 1612);
   ("Transport: Motorcycle", lit 0);
   ("Transport: Bus/Minibus", lit 0);
   ("Transport: Flights", lit 0);
   ("Diet", lit 438)].

(** The record of scenario 3 with the placeholder entry of the country
    list selected. *)
Definition sentinel_record : gmap string value :=
  <["country" := VStr "Select Country"]> kenya_record.

(** The diet labels offered by the select box of the script in each
    region. *)
Definition africa_diets : list string :=
  ["Typical (Staples + some meat)"; "Meat regularly"; "Vegetarian"; "Vegan"].

Definition global_diets : list string :=
  ["Meat-Heavy"; "Average"; "Vegetarian"; "Vegan"].

(** The record of scenario 3 with a diet of the global region. *)
Definition meat_heavy_record : gmap string value :=
  <["diet" := VStr "Meat-Heavy"]> kenya_record.

(** The record of scenario 2 with a diet no table knows. *)
Definition pescatarian_record : gmap string value :=
  <["diet" := VStr "Pescatarian"]> global_record.


(** The record of scenario 2 without its electricity field, and without
    its natural gas field. *)
Definition no_electricity_record : gmap string value :=
  delete "electricity_kwh" global_record.

Definition no_gas_record : gmap string value :=
  delete "natural_gas_therms" global_record.

(** A breakdown on which the car rule and the electricity rule fire, the
    recommendations the two rules emit, in this order, and the plan. *)
Definition heavy_breakdown : odict :=
  [("Housing: Electricity", lit 1800); ("Transport: Car", lit 3224);
   ("Diet", lit 912.5)].

Definition heavy_emitted : list (string * Z) :=
  [("**🚗 Reduce car travel by 20%.** Use public transport, bike, or carpool just one day a week.", 400%Z);
   ("**💡 Switch to energy-efficient appliances** and LED bulbs. Consider solar if available.", 500%Z)].

Definition heavy_plan : list (string * Z) :=
  [("**💡 Switch to energy-efficient appliances** and LED bulbs. Consider solar if available.", 500%Z);
   ("**🚗 Reduce car travel by 20%.** Use public transport, bike, or carpool just one day a week.", 400%Z)].

(** ** Notions used to state the properties *)


(** The fields the engine reads with [data.get(field, 0)]. *)
Definition defaulted_fields : list string :=
  ["natural_gas_therms"; "heating_oil_liters"; "propane_liters";
   "car_miles_week"; "bus_miles_week"; "train_miles_week";
   "car_km_week"; "moto_km_week"; "bus_km_week"].

(** The numeric fields the engine reads with [data[field]] in both
    regions. *)
Definition required_fields : list string := ["electricity_kwh"; "flight_hours"].

(** The breakdown with a cooking category of value 0 written right after
    the electricity category, where the africa region writes it. *)
Definition with_zero_lpg (breakdown : odict) : odict :=
  match breakdown with
  | [] => []
  | electricity :: rest =>
      electricity :: ("Housing: Cooking (LPG)", lit 0) :: rest
  end.

(** Descending savings: [a] may stand before [b]. *)
Definition desc (a b : string * Z) : Prop := (b.2 ≤ a.2)%Z.

(** Two records, two breakdowns and two outcomes related through a
    relation [R] on numbers: the same fields and categories, equal
    strings, numbers related by [R]. *)
Definition value_rel (R : Qc → Qc → Prop) (v v' : value) : Prop :=
  match v, v' with
  | VNum x, VNum y => R x y
  | VStr s, VStr s' => s = s'
  | _, _ => False
  end.

Definition data_rel (R : Qc → Qc → Prop) (d d' : gmap string value) : Prop :=
  ∀ k, option_Forall2 (value_rel R) (d !! k) (d' !! k).

Definition item_rel (R : Qc → Qc → Prop) (a b : string * Qc) : Prop :=
  a.1 = b.1 ∧ R a.2 b.2.

Definition breakdown_rel (R : Qc → Qc → Prop) : odict → odict → Prop :=
  Forall2 (item_rel R).

Definition outcome_rel (R : Qc → Qc → Prop) (r r' : Qc * odict) : Prop :=
  R r.1 r'.1 ∧ breakdown_rel R r.2 r'.2.

(** If the first computation returns, the second returns a related
    value. *)
Definition result_rel {A} (RA : A → A → Prop) (m m' : result A) : Prop :=
  match m with
  | Ok a => ∃ a', m' = Ok a' ∧ RA a a'
  | Raise _ => True
  end.

(** ** The rest of the script: input forms and displayed figures *)

(** An integer widget value as an object of the record. *)
Definition int (n : Z) : value := VNum (lit (inject_Z n)).

(** The state of the widgets of the Africa form. *)
Record africa_widgets : Type := {
  aw_country : string;
  aw_electricity_kwh : Z;
  aw_cylinder_size : Z;
  aw_cylinder_quantity : Qc;
  aw_car_km_week : Z;
  aw_moto_km_week : Z;
  aw_bus_km_week : Z;
  aw_flight_hours : Z;
  aw_diet : string
}.

(** The state of the widgets of the Global form. *)
Record global_widgets : Type := {
  gw_electricity_kwh : Z;
  gw_natural_gas_therms : Z;
  gw_heating_oil_liters : Z;
  gw_propane_liters : Z;
  gw_car_miles_week : Z;
  gw_flight_hours : Z;
  gw_bus_miles_week : Z;
  gw_train_miles_week : Z;
  gw_diet : string
}.

(** [input_data] as the Africa branch of the script fills it; the LPG
    use is the product of the cylinder size and the number of cylinders. *)
Definition africa_input_data (w : africa_widgets) : gmap string value :=
  let input_data : gmap string value := ∅ in
  let input_data := <["country" := VStr (aw_country w)]> input_data in
  let input_data :=
    <["electricity_kwh" := int (aw_electricity_kwh w)]> input_data in
  let input_data :=
    <["lpg_kg_per_month" :=
        VNum (lit (inject_Z (aw_cylinder_size w)) * aw_cylinder_quantity w)]>
      input_data in
  let input_data := <["car_km_week" := int (aw_car_km_week w)]> input_data in
  let input_data := <["moto_km_week" := int (aw_moto_km_week w)]> input_data in
  let input_data := <["bus_km_week" := int (aw_bus_km_week w)]> input_data in
  let input_data := <["flight_hours" := int (aw_flight_hours w)]> input_data in
  <["diet" := VStr (aw_diet w)]> input_data.

(** [input_data] as the Global branch of the script fills it. *)
Definition global_input_data (w : global_widgets) : gmap string value :=
  let input_data : gmap string value := ∅ in
  let input_data :=
    <["electricity_kwh" := int (gw_electricity_kwh w)]> input_data in
  let input_data :=
    <["natural_gas_therms" := int (gw_natural_gas_therms w)]> input_data in
  let input_data :=
    <["heating_oil_liters" := int (gw_heating_oil_liters w)]> input_data in
  let input_data :=
    <["propane_liters" := int (gw_propane_liters w)]> input_data in
  let input_data :=
    <["car_miles_week" := int (gw_car_miles_week w)]> input_data in
  let input_data := <["flight_hours" := int (gw_flight_hours w)]> input_data in
  let input_data :=
    <["bus_miles_week" := int (gw_bus_miles_week w)]> input_data in
  let input_data :=
    <["train_miles_week" := int (gw_train_miles_week w)]> input_data in
  <["diet" := VStr (gw_diet w)]> input_data.

(** The options of the country select box, [list(COUNTRY_GRID_MIX.keys())]. *)
Definition country_options : list string :=
  ["Select Country"; "Nigeria (Gas-dominated)";
   "South Africa (Coal-dominated)"; "Kenya (Geothermal/Hydro)";
   "Ghana (Hydro/Gas)"; "Egypt (Gas-dominated)";
   "Ethiopia (Hydro-dominated)"; "General Sub-Saharan Africa Avg"].

(** The options of the cylinder select box. *)
Definition cylinder_sizes : list Z := [3; 6; 12; 15; 45]%Z.

(** What the widgets can return: a select box one of its options, a
    slider a value between its bounds (the cylinder slider a multiple of
    its step 0.5). *)
Definition in_range (lo hi n : Z) : Prop := (lo ≤ n ≤ hi)%Z.

Definition africa_widgets_ok (w : africa_widgets) : Prop :=
  aw_country w ∈ country_options
  ∧ in_range 0 600 (aw_electricity_kwh w)
  ∧ aw_cylinder_size w ∈ cylinder_sizes
  ∧ (∃ steps : Z, in_range 0 20 steps
       ∧ aw_cylinder_quantity w = (lit (inject_Z steps) * lit 0.5)%Qc)
  ∧ in_range 0 400 (aw_car_km_week w)
  ∧ in_range 0 200 (aw_moto_km_week w)
  ∧ in_range 0 300 (aw_bus_km_week w)
  ∧ in_range 0 50 (aw_flight_hours w)
  ∧ aw_diet w ∈ africa_diets.

Definition global_widgets_ok (w : global_widgets) : Prop :=
  in_range 0 2000 (gw_electricity_kwh w)
  ∧ in_range 0 200 (gw_natural_gas_therms w)
  ∧ in_range 0 500 (gw_heating_oil_liters w)
  ∧ in_range 0 500 (gw_propane_liters w)
  ∧ in_range 0 500 (gw_car_miles_week w)
  ∧ in_range 0 100 (gw_flight_hours w)
  ∧ in_range 0 500 (gw_bus_miles_week w)
  ∧ in_range 0 500 (gw_train_miles_week w)
  ∧ gw_diet w ∈ global_diets.

(** The third metric of the results: the label and the difference, in
    tons, between a reference average and the footprint. *)
Definition comparison (region : string) (total_emissions : Qc)
    : string * Qc :=
  if String.eqb (lower region) "africa" then
    let global_avg_kg := lit 4800 in
    let african_avg_kg := lit 1000 in
    let comparison_to_global :=
      ((global_avg_kg - total_emissions) / lit 1000)%Qc in
    let comparison_to_africa :=
      ((african_avg_kg - total_emissions) / lit 1000)%Qc in
    let delta_text := "Global Avg" in
    let delta_val := comparison_to_global in
    let '(delta_text, delta_val) :=
      if bool_decide (total_emissions < lit 3000)%Qc
      then ("African Avg", comparison_to_africa)
      else (delta_text, delta_val) in
    ("Vs. " ++ delta_text, delta_val)
  else
    let us_avg_kg := lit 16000 in
    let comparison := ((us_avg_kg - total_emissions) / lit 1000)%Qc in
    ("Vs. US Average", comparison).

(** The script shows the message of a low footprint in place of a plan
    when the plan is empty ([if not recommendations]). *)
Definition shows_low_footprint (plan : list (string * Z)) : bool :=
  match plan with
  | [] => true
  | _ :: _ => false
  end.

(** ** Closed forms *)

(** The three recommendations an engine result can trigger. *)
Definition car_recommendation : string * Z :=
  ("**🚗 Reduce car travel by 20%.** Use public transport, bike, or carpool just one day a week.", 400%Z).

Definition electricity_recommendation : string * Z :=
  ("**💡 Switch to energy-efficient appliances** and LED bulbs. Consider solar if available.", 500%Z).

Definition cooking_recommendation : string * Z :=
  ("**🔥 Improve cooking efficiency.** Use a pressure cooker or hotbox to reduce LPG consumption.", 100%Z).

(** The value of a category, 0 when the breakdown has no such category:
    [breakdown_dict.get(category, 0)]. *)
Definition category (name : string) (breakdown : odict) : Qc :=
  default (lit 0) (lookup name breakdown).

(** The plan in terms of the three thresholds, best savings first. *)
Definition plan_of (breakdown : odict) (region : string)
    : list (string * Z) :=
  ((if bool_decide (lit 1500 < category "Housing: Electricity" breakdown)%Qc
    then [electricity_recommendation] else [])
   ++ (if bool_decide (lit 2000 < category "Transport: Car" breakdown)%Qc
       then [car_recommendation] else [])
   ++ (if String.eqb (lower region) "africa"
          && bool_decide
               (lit 500 < category "Housing: Cooking (LPG)" breakdown)%Qc
       then [cooking_recommendation] else []))%list.

(** The breakdown of the global region as a function of the nine numbers
    the engine reads. *)
Definition global_breakdown_of
    (kwh gas oil propane car bus train hours diet_factor : Qc) : odict :=
  [("Housing: Electricity", kwh * lit 0.5 * lit 12);
   ("Housing: Natural Gas", gas * lit 2.0 * lit 12);
   ("Housing: Heating Oil", oil * lit 2.68 * lit 12);
   ("Housing: Propane", propane * lit 1.5 * lit 12);
   ("Transport: Car", car * lit 0.31 * lit 52);
   ("Transport: Bus", bus * lit 0.11 * lit 52);
   ("Transport: Train", train * lit 0.06 * lit 52);
   ("Transport: Flights", hours * lit 500 * lit 0.24);
   ("Diet", diet_factor * lit 365)].

(** The breakdown of the africa region as a function of the grid factor
    and of the numbers the engine reads; the cooking category exists when
    the record has the LPG field. *)
Definition africa_breakdown_of (grid_factor kwh : Qc) (lpg : option Qc)
    (car moto bus hours diet_factor : Qc) : odict :=
  (("Housing: Electricity", kwh * grid_factor * lit 12)
   :: match lpg with
      | Some kg => [("Housing: Cooking (LPG)", kg * lit 3.0 * lit 12)]
      | None => []
      end
   ++ [("Transport: Car", car * lit 52 * lit 0.31);
       ("Transport: Motorcycle", moto * lit 52 * lit 0.11);
       ("Transport: Bus/Minibus", bus * lit 52 * lit 0.11);
       ("Transport: Flights", hours * lit 500 * lit 0.24);
       ("Diet", diet_factor * lit 365)])%list.

(** The factor of a diet label: through [diet_map] into the factor
    table. *)
Definition diet_factor (label : string) : option Qc :=
  match diet_map !! label with
  | Some diet_key => GLOBAL_EMISSION_FACTORS !! diet_key
  | None => None
  end.

(** The fields each region reads. *)
Definition global_fields : list string :=
  ["electricity_kwh"; "natural_gas_therms"; "heating_oil_liters";
   "propane_liters"; "car_miles_week"; "bus_miles_week"; "train_miles_week";
   "flight_hours"; "diet"].

Definition africa_fields : list string :=
  ["country"; "electricity_kwh"; "lpg_kg_per_month"; "car_km_week";
   "moto_km_week"; "bus_km_week"; "flight_hours"; "diet"].

(** The numeric fields of each region. *)
Definition global_numeric_fields : list string :=
  ["electricity_kwh"; "natural_gas_therms"; "heating_oil_liters";
   "propane_liters"; "car_miles_week"; "bus_miles_week"; "train_miles_week";
   "flight_hours"].

Definition africa_numeric_fields : list string :=
  ["electricity_kwh"; "lpg_kg_per_month"; "car_km_week"; "moto_km_week";
   "bus_km_week"; "flight_hours"].

(** The fields each region reads with [data[field]]. *)
Definition global_subscripted_fields : list string :=
  ["electricity_kwh"; "flight_hours"; "diet"].

Definition africa_subscripted_fields : list string :=
  ["country"; "electricity_kwh"; "flight_hours"; "diet"].

(** Sample widget states. *)
Definition kenya_widgets : africa_widgets :=
  {| aw_country := "Kenya (Geothermal/Hydro)";
     aw_electricity_kwh := 100;
     aw_cylinder_size := 6;
     aw_cylinder_quantity := lit 1;
     aw_car_km_week := 0;
     aw_moto_km_week := 0;
     aw_bus_km_week := 0;
     aw_flight_hours := 0;
     aw_diet := "Vegan" |}.

Definition default_global_widgets : global_widgets :=
  {| gw_electricity_kwh := 300;
     gw_natural_gas_therms := 40;
     gw_heating_oil_liters := 0;
     gw_propane_liters := 0;
     gw_car_miles_week := 100;
     gw_flight_hours := 5;
     gw_bus_miles_week := 20;
     gw_train_miles_week := 10;
     gw_diet := "Meat-Heavy" |}.

(** What the engine reads from a record in each region: the numbers of
    the fields, 0 for an absent field read with a default, the grid factor
    of the country and the factor of the diet. *)
Definition reads_global (data : gmap string value)
    (kwh gas oil propane car bus train hours factor : Qc) : Prop :=
  data !! "electricity_kwh" = Some (VNum kwh)
  ∧ get data "natural_gas_therms" (VNum (lit 0)) = VNum gas
  ∧ get data "heating_oil_liters" (VNum (lit 0)) = VNum oil
  ∧ get data "propane_liters" (VNum (lit 0)) = VNum propane
  ∧ get data "car_miles_week" (VNum (lit 0)) = VNum car
  ∧ get data "bus_miles_week" (VNum (lit 0)) = VNum bus
  ∧ get data "train_miles_week" (VNum (lit 0)) = VNum train
  ∧ data !! "flight_hours" = Some (VNum hours)
  ∧ ∃ label, data !! "diet" = Some (VStr label)
      ∧ diet_factor label = Some factor.

Definition reads_africa (data : gmap string value)
    (grid_factor kwh : Qc) (lpg : option Qc)
    (car moto bus hours factor : Qc) : Prop :=
  (∃ country, data !! "country" = Some (VStr country)
     ∧ COUNTRY_GRID_MIX !! country = Some grid_factor)
  ∧ data !! "electricity_kwh" = Some (VNum kwh)
  ∧ data !! "lpg_kg_per_month" = VNum <$> lpg
  ∧ get data "car_km_week" (VNum (lit 0)) = VNum car
  ∧ get data "moto_km_week" (VNum (lit 0)) = VNum moto
  ∧ get data "bus_km_week" (VNum (lit 0)) = VNum bus
  ∧ data !! "flight_hours" = Some (VNum hours)
  ∧ ∃ label, data !! "diet" = Some (VStr label)
      ∧ diet_factor label = Some factor.

(** ** The engine on the numbers of the interpreter *)

(** The engine once more, on the numbers Python computes with.  An [int]
    is an integer of any size and arithmetic on ints is exact.  A [float]
    is an IEEE 754 binary64 number ([spec_float] with precision 53 and
    maximal exponent 1024); a product or a sum of floats is the exact
    result rounded to the nearest float, ties to even, and never raises.
    An int that meets a float is converted first, to the nearest float;
    the conversion raises [OverflowError] when the int lies beyond the
    largest float. *)
Module B64.

Definition prec : Z := 53.
Definition emax : Z := 1024.

Definition fmul : spec_float → spec_float → spec_float := SFmul prec emax.
Definition fadd : spec_float → spec_float → spec_float := SFadd prec emax.
Definition fdiv : spec_float → spec_float → spec_float := SFdiv prec emax.

(** The float nearest to an integer; an infinity beyond the largest
    float. *)
Definition of_Z (n : Z) : spec_float := binary_normalize prec emax n 0 false.

Definition is_finite (x : spec_float) : bool :=
  match x with
  | S754_zero _ | S754_finite _ _ _ => true
  | S754_infinity _ | S754_nan => false
  end.

(** A decimal literal of the source such as [0.31]: the float nearest to
    the fraction 31/100, here the rounded quotient of two small
    integers. *)
Definition literal (q : Q) : spec_float :=
  fdiv (of_Z (Qnum q)) (of_Z (Zpos (Qden q))).

(** Objects stored in an input record: an int, a float or a string.
    The floats of Python are the [spec_float]s in canonical form; what
    follows holds of every [spec_float]. *)
Inductive value : Type :=
| VInt (n : Z)
| VFloat (x : spec_float)
| VStr (s : string).

Inductive exn : Type :=
| KeyError (key : value)
| TypeError
| OverflowError.

Inductive result (A : Type) : Type :=
| Ok (a : A)
| Raise (e : exn).
Arguments Ok {A} a.
Arguments Raise {A} e.

Definition bind {A B} (m : result A) (k : A → result B) : result B :=
  match m with
  | Ok a => k a
  | Raise e => Raise e
  end.

Declare Scope b64_scope.
Notation "'let*' x := m 'in' k" := (bind m (λ x, k))
  (at level 10, x name, m at level 100, k at level 200, only parsing)
  : b64_scope.
Local Open Scope b64_scope.

(** [d[k]] on a dict with string keys. *)
Definition getitem {V} (d : gmap string V) (k : string) : result V :=
  match d !! k with
  | Some v => Ok v
  | None => Raise (KeyError (VStr k))
  end.

(** [d[v]] where the key is an arbitrary object: only a string can be
    a key of the tables of this program. *)
Definition getitem_obj {V} (d : gmap string V) (v : value) : result V :=
  match v with
  | VStr k => getitem d k
  | VInt _ | VFloat _ => Raise (KeyError v)
  end.

(** [d.get(k, dflt)]. *)
Definition get {V} (d : gmap string V) (k : string) (dflt : V) : V :=
  default dflt (d !! k).

(** [k in d]. *)
Definition contains {V} (d : gmap string V) (k : string) : bool :=
  bool_decide (is_Some (d !! k)).

(** The conversion of an int that meets a float. *)
Definition float_of_int (n : Z) : result spec_float :=
  if is_finite (of_Z n) then Ok (of_Z n) else Raise OverflowError.

(** [x * n] for a float [x] and an int [n]. *)
Definition float_mul_int (x : spec_float) (n : Z) : result spec_float :=
  let* y := float_of_int n in
  Ok (fmul x y).

(** [v * n] with [n] an int: exact on an int, a float product on a
    float, repetition on a string. *)
Definition mul_int (v : value) (n : Z) : result value :=
  match v with
  | VInt a => Ok (VInt (a * n))
  | VFloat x =>
      let* p := float_mul_int x n in
      Ok (VFloat p)
  | VStr s => Ok (VStr (Py.str_repeat s n))
  end.

(** [v * f] with [f] a float: the result is a float; a string cannot be
    multiplied by a float. *)
Definition mul_float (v : value) (f : spec_float) : result spec_float :=
  match v with
  | VInt a =>
      let* x := float_of_int a in
      Ok (fmul x f)
  | VFloat x => Ok (fmul x f)
  | VStr _ => Raise TypeError
  end.

(** An insertion-ordered dict from category labels to floats. *)
Definition odict : Type := list (string * spec_float).

Fixpoint setitem (k : string) (v : spec_float) (d : odict) : odict :=
  match d with
  | [] => [(k, v)]
  | (k', v') :: d' =>
      if String.eqb k' k then (k', v) :: d' else (k', v') :: setitem k v d'
  end.

Definition values (d : odict) : list spec_float := d.*2.

(** [sum(xs)] on floats: starts from the int 0, which the first addition
    converts, and adds the elements from left to right, rounding after
    each addition.  This is the summation of CPython up to version 3.11;
    from version 3.12 on, [sum] carries a correction for the rounding of
    its additions along. *)
Definition sum (xs : list spec_float) : spec_float :=
  fold_left fadd xs (of_Z 0).

Definition COUNTRY_GRID_MIX : gmap string spec_float :=
  list_to_map [
    ("Select Country", literal 0.0);
    ("Nigeria (Gas-dominated)", literal 0.55);
    ("South Africa (Coal-dominated)", literal 0.9);
    ("Kenya (Geothermal/Hydro)", literal 0.3);
    ("Ghana (Hydro/Gas)", literal 0.45);
    ("Egypt (Gas-dominated)", literal 0.6);
    ("Ethiopia (Hydro-dominated)", literal 0.05);
    ("General Sub-Saharan Africa Avg", literal 0.48)
  ].

Definition GLOBAL_EMISSION_FACTORS : gmap string spec_float :=
  list_to_map [
    (* Housing *)
    ("electricity", literal 0.5);
    ("natural_gas", literal 2.0);
    ("heating_oil", literal 2.68);
    ("propane", literal 1.5);
    (* Transport *)
    ("car_gasoline", literal 0.31);
    ("car_diesel", literal 0.27);
    ("motorcycle", literal 0.11);
    ("bus", literal 0.11);
    ("train", literal 0.06);
    ("plane_short", literal 0.24);
    (* Diet *)
    ("diet_meat_heavy", literal 3.3);
    ("diet_typical", literal 1.8);
    ("diet_meat_regular", literal 2.7);
    ("diet_average", literal 2.5);
    ("diet_vegetarian", literal 1.5);
    ("diet_vegan", literal 1.2);
    (* LPG *)
    ("lpg_per_kg", literal 3.0)
  ].

Definition housing (data : gmap string value) (region : string)
    (breakdown : odict) : result odict :=
  if String.eqb region "africa" then
    let* country := getitem data "country" in
    let* grid_factor := getitem_obj COUNTRY_GRID_MIX country in
    let* kwh := getitem data "electricity_kwh" in
    let* e := mul_float kwh grid_factor in
    let* e := float_mul_int e 12 in
    let breakdown := setitem "Housing: Electricity" e breakdown in
    if contains data "lpg_kg_per_month" then
      let* kg := getitem data "lpg_kg_per_month" in
      let* f := getitem GLOBAL_EMISSION_FACTORS "lpg_per_kg" in
      let* c := mul_float kg f in
      let* c := float_mul_int c 12 in
      Ok (setitem "Housing: Cooking (LPG)" c breakdown)
    else Ok breakdown
  else
    let* kwh := getitem data "electricity_kwh" in
    let* f := getitem GLOBAL_EMISSION_FACTORS "electricity" in
    let* e := mul_float kwh f in
    let* e := float_mul_int e 12 in
    let breakdown := setitem "Housing: Electricity" e breakdown in
    let* f := getitem GLOBAL_EMISSION_FACTORS "natural_gas" in
    let* g := mul_float (get data "natural_gas_therms" (VInt 0)) f in
    let* g := float_mul_int g 12 in
    let breakdown := setitem "Housing: Natural Gas" g breakdown in
    let* f := getitem GLOBAL_EMISSION_FACTORS "heating_oil" in
    let* o := mul_float (get data "heating_oil_liters" (VInt 0)) f in
    let* o := float_mul_int o 12 in
    let breakdown := setitem "Housing: Heating Oil" o breakdown in
    let* f := getitem GLOBAL_EMISSION_FACTORS "propane" in
    let* p := mul_float (get data "propane_liters" (VInt 0)) f in
    let* p := float_mul_int p 12 in
    Ok (setitem "Housing: Propane" p breakdown).

Definition transport (data : gmap string value) (region : string)
    (breakdown : odict) : result odict :=
  if String.eqb region "africa" then
    let* km := mul_int (get data "car_km_week" (VInt 0)) 52 in
    let* f := getitem GLOBAL_EMISSION_FACTORS "car_gasoline" in
    let* c := mul_float km f in
    let breakdown := setitem "Transport: Car" c breakdown in
    let* km := mul_int (get data "moto_km_week" (VInt 0)) 52 in
    let* f := getitem GLOBAL_EMISSION_FACTORS "motorcycle" in
    let* m := mul_float km f in
    let breakdown := setitem "Transport: Motorcycle" m breakdown in
    let* km := mul_int (get data "bus_km_week" (VInt 0)) 52 in
    let* f := getitem GLOBAL_EMISSION_FACTORS "bus" in
    let* b := mul_float km f in
    Ok (setitem "Transport: Bus/Minibus" b breakdown)
  else
    let* f := getitem GLOBAL_EMISSION_FACTORS "car_gasoline" in
    let* c := mul_float (get data "car_miles_week" (VInt 0)) f in
    let* c := float_mul_int c 52 in
    let breakdown := setitem "Transport: Car" c breakdown in
    let* f := getitem GLOBAL_EMISSION_FACTORS "bus" in
    let* b := mul_float (get data "bus_miles_week" (VInt 0)) f in
    let* b := float_mul_int b 52 in
    let breakdown := setitem "Transport: Bus" b breakdown in
    let* f := getitem GLOBAL_EMISSION_FACTORS "train" in
    let* t := mul_float (get data "train_miles_week" (VInt 0)) f in
    let* t := float_mul_int t 52 in
    Ok (setitem "Transport: Train" t breakdown).

Definition flights (data : gmap string value) (breakdown : odict)
    : result odict :=
  let* hours := getitem data "flight_hours" in
  let* miles := mul_int hours 500 in
  let* f := getitem GLOBAL_EMISSION_FACTORS "plane_short" in
  let* v := mul_float miles f in
  Ok (setitem "Transport: Flights" v breakdown).

Definition diet (data : gmap string value) (breakdown : odict)
    : result odict :=
  let* label := getitem data "diet" in
  let* diet_key := getitem_obj diet_map label in
  let* f := getitem GLOBAL_EMISSION_FACTORS diet_key in
  let* d := float_mul_int f 365 in
  Ok (setitem "Diet" d breakdown).

(** [calculate_carbon_footprint(data, region)]. *)
Definition calculate_carbon_footprint (data : gmap string value)
    (region : string) : result (spec_float * odict) :=
  let breakdown : odict := [] in
  let* breakdown := housing data region breakdown in
  let* breakdown := transport data region breakdown in
  let* breakdown := flights data breakdown in
  let* breakdown := diet data breakdown in
  let total_kg_co2 := sum (values breakdown) in
  Ok (total_kg_co2, breakdown).




(** Scenario 3 of the specification, and the same record with the
    country Nigeria. *)
Definition kenya_record : gmap string value :=
  list_to_map [
    ("country", VStr "Kenya (Geothermal/Hydro)");
    ("electricity_kwh", VInt 100);
    ("lpg_kg_per_month", VInt 6);
    ("car_km_week", VInt 0);
    ("moto_km_week", VInt 0);
    ("bus_km_week", VInt 0);
    ("flight_hours", VInt 0);
    ("diet", VStr "Vegan")
  ].


(** The breakdowns of the two records; the electricity category of the
    second is the float 660.0000000000001, one unit in the last place
    above 660. *)
Definition kenya_breakdown : odict :=
  [("Housing: Electricity", of_Z 360);
   ("Housing: Cooking (LPG)", of_Z 216);
   ("Transport: Car", of_Z 0);
   ("Transport: Motorcycle", of_Z 0);
   ("Transport: Bus/Minibus", of_Z 0);
   ("Transport: Flights", of_Z 0);
   ("Diet", of_Z 438)].


(** An int within the floats: its conversion does not raise. *)
Definition in_float_range (n : Z) : Prop := is_finite (of_Z n) = true.

(** What the engine needs of a quantity [v] it multiplies by a float: a
    float, or an int within the floats. *)
Definition number (v : value) : Prop :=
  match v with
  | VInt n => in_float_range n
  | VFloat _ => True
  | VStr _ => False
  end.

(** What it needs of a quantity it multiplies by the int [k] first: a
    float, or an int whose exact product by [k] is within the floats. *)
Definition scaled_number (k : Z) (v : value) : Prop :=
  match v with
  | VInt n => in_float_range (n * k)
  | VFloat _ => True
  | VStr _ => False
  end.

Definition known_diet (data : gmap string value) : Prop :=
  ∃ label, data !! "diet" = Some (VStr label) ∧ is_Some (diet_map !! label).

Definition known_country (data : gmap string value) : Prop :=
  ∃ country, data !! "country" = Some (VStr country)
    ∧ is_Some (COUNTRY_GRID_MIX !! country).

(** The records a region accepts. *)
Definition accepted_global (data : gmap string value) : Prop :=
  (∃ kwh, data !! "electricity_kwh" = Some kwh ∧ number kwh)
  ∧ number (get data "natural_gas_therms" (VInt 0))
  ∧ number (get data "heating_oil_liters" (VInt 0))
  ∧ number (get data "propane_liters" (VInt 0))
  ∧ number (get data "car_miles_week" (VInt 0))
  ∧ number (get data "bus_miles_week" (VInt 0))
  ∧ number (get data "train_miles_week" (VInt 0))
  ∧ (∃ hours, data !! "flight_hours" = Some hours ∧ scaled_number 500 hours)
  ∧ known_diet data.

Definition accepted_africa (data : gmap string value) : Prop :=
  known_country data
  ∧ (∃ kwh, data !! "electricity_kwh" = Some kwh ∧ number kwh)
  ∧ (∀ kg, data !! "lpg_kg_per_month" = Some kg → number kg)
  ∧ scaled_number 52 (get data "car_km_week" (VInt 0))
  ∧ scaled_number 52 (get data "moto_km_week" (VInt 0))
  ∧ scaled_number 52 (get data "bus_km_week" (VInt 0))
  ∧ (∃ hours, data !! "flight_hours" = Some hours ∧ scaled_number 500 hours)
  ∧ known_diet data.

(** The opposite of a number. *)
Definition neg (v : value) : value :=
  match v with
  | VInt n => VInt (- n)
  | VFloat x => VFloat (SFopp x)
  | VStr s => VStr s
  end.

(** The record of scenario 3 with a monthly electricity use of 10^400
    kWh, an int beyond the floats. *)
Definition huge_record : gmap string value :=
  <["electricity_kwh" := VInt (10 ^ 400)]> kenya_record.

(** The float a quantity stands for when it meets a float: an int is
    converted, a string stands for none. *)
Definition as_float (v : value) : option spec_float :=
  match v with
  | VInt n => if is_finite (of_Z n) then Some (of_Z n) else None
  | VFloat x => Some x
  | VStr _ => None
  end.

(** The float [v * k] stands for, with [k] an int: the product of two
    ints is exact and converted afterwards. *)
Definition scaled_float (k : Z) (v : value) : option spec_float :=
  match v with
  | VInt n => as_float (VInt (n * k))
  | VFloat x => Some (fmul x (of_Z k))
  | VStr _ => None
  end.

(** The factor of a diet label: through [diet_map] into the factor
    table. *)
Definition diet_factor (label : string) : option spec_float :=
  match diet_map !! label with
  | Some diet_key => GLOBAL_EMISSION_FACTORS !! diet_key
  | None => None
  end.

(** What the engine reads from a record in each region: the floats of
    the quantities, the grid factor of the country and the factor of the
    diet. *)
Definition reads_global (data : gmap string value)
    (kwh gas oil propane car bus train miles factor : spec_float) : Prop :=
  (∃ v, data !! "electricity_kwh" = Some v ∧ as_float v = Some kwh)
  ∧ as_float (get data "natural_gas_therms" (VInt 0)) = Some gas
  ∧ as_float (get data "heating_oil_liters" (VInt 0)) = Some oil
  ∧ as_float (get data "propane_liters" (VInt 0)) = Some propane
  ∧ as_float (get data "car_miles_week" (VInt 0)) = Some car
  ∧ as_float (get data "bus_miles_week" (VInt 0)) = Some bus
  ∧ as_float (get data "train_miles_week" (VInt 0)) = Some train
  ∧ (∃ v, data !! "flight_hours" = Some v ∧ scaled_float 500 v = Some miles)
  ∧ ∃ label, data !! "diet" = Some (VStr label)
      ∧ diet_factor label = Some factor.

Definition reads_optional (o : option value) (r : option spec_float)
    : Prop :=
  match o with
  | Some v => ∃ x, as_float v = Some x ∧ r = Some x
  | None => r = None
  end.

Definition reads_africa (data : gmap string value)
    (grid_factor kwh : spec_float) (lpg : option spec_float)
    (car moto bus miles factor : spec_float) : Prop :=
  (∃ country, data !! "country" = Some (VStr country)
     ∧ COUNTRY_GRID_MIX !! country = Some grid_factor)
  ∧ (∃ v, data !! "electricity_kwh" = Some v ∧ as_float v = Some kwh)
  ∧ reads_optional (data !! "lpg_kg_per_month") lpg
  ∧ scaled_float 52 (get data "car_km_week" (VInt 0)) = Some car
  ∧ scaled_float 52 (get data "moto_km_week" (VInt 0)) = Some moto
  ∧ scaled_float 52 (get data "bus_km_week" (VInt 0)) = Some bus
  ∧ (∃ v, data !! "flight_hours" = Some v ∧ scaled_float 500 v = Some miles)
  ∧ ∃ label, data !! "diet" = Some (VStr label)
      ∧ diet_factor label = Some factor.

(** The breakdown of each region as a function of what the engine
    reads; every product is a float product, rounded, in the order of the
    source. *)
Definition global_breakdown_of
    (kwh gas oil propane car bus train miles factor : spec_float) : odict :=
  [("Housing: Electricity", fmul (fmul kwh (literal 0.5)) (of_Z 12));
   ("Housing: Natural Gas", fmul (fmul gas (literal 2.0)) (of_Z 12));
   ("Housing: Heating Oil", fmul (fmul oil (literal 2.68)) (of_Z 12));
   ("Housing: Propane", fmul (fmul propane (literal 1.5)) (of_Z 12));
   ("Transport: Car", fmul (fmul car (literal 0.31)) (of_Z 52));
   ("Transport: Bus", fmul (fmul bus (literal 0.11)) (of_Z 52));
   ("Transport: Train", fmul (fmul train (literal 0.06)) (of_Z 52));
   ("Transport: Flights", fmul miles (literal 0.24));
   ("Diet", fmul factor (of_Z 365))].

Definition africa_breakdown_of (grid_factor kwh : spec_float)
    (lpg : option spec_float) (car moto bus miles factor : spec_float)
    : odict :=
  (("Housing: Electricity", fmul (fmul kwh grid_factor) (of_Z 12))
   :: match lpg with
      | Some kg =>
          [("Housing: Cooking (LPG)", fmul (fmul kg (literal 3.0)) (of_Z 12))]
      | None => []
      end
   ++ [("Transport: Car", fmul car (literal 0.31));
       ("Transport: Motorcycle", fmul moto (literal 0.11));
       ("Transport: Bus/Minibus", fmul bus (literal 0.11));
       ("Transport: Flights", fmul miles (literal 0.24));
       ("Diet", fmul factor (of_Z 365))])%list.




End B64.

(** ** Basic facts about the Python fragment *)

Lemma bind_Ok_inv {A B} (m : result A) (k : A → result B) (b : B) :
  Py.bind m k = Ok b → ∃ a, m = Ok a ∧ k a = Ok b.
Proof. destruct m as [a|e]; simpl; [eauto | discriminate]. Qed.

Lemma getitem_Ok_inv {V} (d : gmap string V) (k : string) (v : V) :
  getitem d k = Ok v → d !! k = Some v.
Proof. unfold getitem. destruct (d !! k); congruence. Qed.

Lemma getitem_obj_Ok_inv {V} (d : gmap string V) (o : value) (v : V) :
  getitem_obj d o = Ok v → ∃ k, o = VStr k ∧ d !! k = Some v.
Proof.
  destruct o as [x|k]; simpl; [discriminate|].
  intros H%getitem_Ok_inv. eauto.
Qed.

Lemma mul_float_Ok_inv (v : value) (f r : Qc) :
  mul_float v f = Ok r → ∃ x, v = VNum x ∧ r = x * f.
Proof. destruct v; simpl; [|discriminate]. intros [= <-]. eauto. Qed.

Lemma mul_int_VNum_inv (v : value) (n : Z) (y : Qc) :
  mul_int v n = VNum y → ∃ x, v = VNum x ∧ y = x * lit (inject_Z n).
Proof. destruct v; simpl; [|discriminate]. intros [= <-]. eauto. Qed.

Lemma contains_true {V} (d : gmap string V) (k : string) :
  contains d k = true ↔ is_Some (d !! k).
Proof. unfold contains. apply bool_decide_eq_true. Qed.

Lemma contains_false {V} (d : gmap string V) (k : string) :
  contains d k = false ↔ d !! k = None.
Proof.
  unfold contains. rewrite bool_decide_eq_false, eq_None_not_Some. done.
Qed.

(** Reading and writing an ordered dict. *)
Lemma lookup_setitem_eq (k : string) (v : Qc) (d : odict) :
  lookup k (setitem k v d) = Some v.
Proof.
  induction d as [|[k' v'] d IH]; simpl.
  - by rewrite String.eqb_refl.
  - destruct (String.eqb k' k) eqn:E; simpl; rewrite E; done.
Qed.

Lemma lookup_setitem_ne (k j : string) (v : Qc) (d : odict) :
  k ≠ j → lookup j (setitem k v d) = lookup j d.
Proof.
  intros Hne. induction d as [|[k' v'] d IH]; simpl.
  - destruct (String.eqb k j) eqn:E; [|done].
    by apply String.eqb_eq in E.
  - destruct (String.eqb k' k) eqn:E; simpl.
    + apply String.eqb_eq in E as ->.
      destruct (String.eqb k j) eqn:E'; [|done].
      by apply String.eqb_eq in E'.
    + by rewrite IH.
Qed.

(** Inverting a successful run, one statement at a time. *)
Ltac inv_run H :=
  repeat match type of H with
  | Py.bind _ _ = Ok _ =>
      let a := fresh "a" in
      let Ha := fresh "Hstep" in
      apply bind_Ok_inv in H as (a & Ha & H)
  | (let _ := _ in _) = Ok _ => cbv zeta in H
  end;
  repeat match goal with
  | E : getitem _ _ = Ok _ |- _ => apply getitem_Ok_inv in E
  | E : getitem_obj _ _ = Ok _ |- _ =>
      apply getitem_obj_Ok_inv in E as (? & ? & E)
  | E : mul_float _ _ = Ok _ |- _ =>
      apply mul_float_Ok_inv in E as (? & E & ?)
  | E : mul_int _ _ = VNum _ |- _ =>
      apply mul_int_VNum_inv in E as (? & E & ?)
  end;
  simplify_eq.

(** A closed equation between results is decided by running both sides. *)
Ltac by_running := apply (bool_decide_unpack _); vm_compute; exact I.

(** The factors of the program's tables. *)
Lemma factor_lpg : GLOBAL_EMISSION_FACTORS !! "lpg_per_kg" = Some (lit 3.0).
Proof. reflexivity. Qed.
Lemma factor_car : GLOBAL_EMISSION_FACTORS !! "car_gasoline" = Some (lit 0.31).
Proof. reflexivity. Qed.
Lemma factor_motorcycle :
  GLOBAL_EMISSION_FACTORS !! "motorcycle" = Some (lit 0.11).
Proof. reflexivity. Qed.
Lemma factor_bus : GLOBAL_EMISSION_FACTORS !! "bus" = Some (lit 0.11).
Proof. reflexivity. Qed.

(** ** The total *)

Lemma kenya_run :
  calculate_carbon_footprint kenya_record "africa"
  = Ok (lit 1014, kenya_breakdown).
Proof. by_running. Qed.

Lemma global_run :
  calculate_carbon_footprint global_record "global"
  = Ok (lit 2712.5, global_breakdown).
Proof. by_running. Qed.

Lemma b64_bind_Ok_inv {A B} (m : B64.result A) (k : A → B64.result B) (b : B) :
  B64.bind m k = B64.Ok b → ∃ a, m = B64.Ok a ∧ k a = B64.Ok b.
Proof. destruct m as [a|e]; simpl; [eauto | discriminate]. Qed.

Lemma b64_calculate_inv data region total breakdown :
  B64.calculate_carbon_footprint data region = B64.Ok (total, breakdown) →
  ∃ bd1 bd2 bd3,
    B64.housing data region [] = B64.Ok bd1
    ∧ B64.transport data region bd1 = B64.Ok bd2
    ∧ B64.flights data bd2 = B64.Ok bd3
    ∧ B64.diet data bd3 = B64.Ok breakdown
    ∧ total = B64.sum (B64.values breakdown).
Proof.
  unfold B64.calculate_carbon_footprint. cbv zeta. intros H.
  apply b64_bind_Ok_inv in H as (bd1 & H1 & H).
  apply b64_bind_Ok_inv in H as (bd2 & H2 & H).
  apply b64_bind_Ok_inv in H as (bd3 & H3 & H).
  apply b64_bind_Ok_inv in H as (bd4 & H4 & H).
  injection H as <- <-. by exists bd1, bd2, bd3.
Qed.


Lemma b64_kenya_run :
  B64.calculate_carbon_footprint B64.kenya_record "africa"
  = B64.Ok (B64.of_Z 1014, B64.kenya_breakdown).
Proof. vm_compute. reflexivity. Qed.




(** ** The formulas of the africa region *)

(** Later statements of the body write other keys and leave a category
    as it was written. *)
Ltac read_breakdown :=
  repeat (rewrite lookup_setitem_ne by discriminate);
  try rewrite lookup_setitem_eq;
  try reflexivity.

Lemma housing_africa_inv GRID FACTORS data bd0 bd :
  housing GRID FACTORS data "africa" bd0 = Ok bd →
  ∃ country grid_factor kwh,
    data !! "country" = Some (VStr country)
    ∧ GRID !! country = Some grid_factor
    ∧ data !! "electricity_kwh" = Some (VNum kwh)
    ∧ match data !! "lpg_kg_per_month" with
      | Some v =>
          ∃ kg f, v = VNum kg ∧ FACTORS !! "lpg_per_kg" = Some f
            ∧ bd = setitem "Housing: Cooking (LPG)" (kg * f * lit 12)
                     (setitem "Housing: Electricity"
                        (kwh * grid_factor * lit 12) bd0)
      | None =>
          bd = setitem "Housing: Electricity" (kwh * grid_factor * lit 12) bd0
      end.
Proof.
  unfold housing. simpl String.eqb. cbv iota. intros H.
  destruct (contains data "lpg_kg_per_month") eqn:Hc; inv_run H.
  - do 3 eexists. repeat split; try eassumption.
    match goal with E : data !! "lpg_kg_per_month" = _ |- _ => rewrite E end.
    eauto.
  - do 3 eexists. repeat split; try eassumption.
    apply contains_false in Hc. by rewrite Hc.
Qed.

Lemma transport_africa_inv FACTORS data bd0 bd :
  transport FACTORS data "africa" bd0 = Ok bd →
  ∃ car moto bus fc fm fb,
    get data "car_km_week" (VNum (lit 0)) = VNum car
    ∧ get data "moto_km_week" (VNum (lit 0)) = VNum moto
    ∧ get data "bus_km_week" (VNum (lit 0)) = VNum bus
    ∧ FACTORS !! "car_gasoline" = Some fc
    ∧ FACTORS !! "motorcycle" = Some fm
    ∧ FACTORS !! "bus" = Some fb
    ∧ bd = setitem "Transport: Bus/Minibus" (bus * lit 52 * fb)
             (setitem "Transport: Motorcycle" (moto * lit 52 * fm)
                (setitem "Transport: Car" (car * lit 52 * fc) bd0)).
Proof.
  unfold transport. simpl String.eqb. cbv iota. intros H. inv_run H.
  do 6 eexists. repeat split; eassumption || reflexivity.
Qed.

Lemma flights_inv FACTORS data bd0 bd :
  flights FACTORS data bd0 = Ok bd →
  ∃ hours f,
    data !! "flight_hours" = Some (VNum hours)
    ∧ FACTORS !! "plane_short" = Some f
    ∧ bd = setitem "Transport: Flights" (hours * lit 500 * f) bd0.
Proof.
  unfold flights. intros H. inv_run H.
  do 2 eexists. repeat split; eassumption || reflexivity.
Qed.

Lemma diet_inv FACTORS data bd0 bd :
  diet FACTORS data bd0 = Ok bd →
  ∃ label diet_key f,
    data !! "diet" = Some (VStr label)
    ∧ diet_map !! label = Some diet_key
    ∧ FACTORS !! diet_key = Some f
    ∧ bd = setitem "Diet" (f * lit 365) bd0.
Proof.
  unfold diet. intros H. inv_run H.
  do 3 eexists. repeat split; eassumption || reflexivity.
Qed.

Lemma calculate_inv GRID FACTORS data region total breakdown :
  calculate_carbon_footprint_in GRID FACTORS data region
    = Ok (total, breakdown) →
  ∃ bd1 bd2 bd3,
    housing GRID FACTORS data region [] = Ok bd1
    ∧ transport FACTORS data region bd1 = Ok bd2
    ∧ flights FACTORS data bd2 = Ok bd3
    ∧ diet FACTORS data bd3 = Ok breakdown
    ∧ total = sum (values breakdown).
Proof.
  unfold calculate_carbon_footprint_in. intros H.
  apply bind_Ok_inv in H as (bd1 & H1 & H).
  apply bind_Ok_inv in H as (bd2 & H2 & H).
  apply bind_Ok_inv in H as (bd3 & H3 & H).
  apply bind_Ok_inv in H as (bd4 & H4 & H).
  simplify_eq. by exists bd1, bd2, bd3.
Qed.

(** C2. In the africa region the electricity category is the monthly kWh
    times the grid factor of the selected country times 12, the LPG
    category, when [lpg_kg_per_month] is present, is the monthly kg times
    3.0 times 12, and the diet category is the factor of the diet times
    365; on the record of scenario 3 the total is 360 + 216 + 438 = 1014. *)
Theorem africa_housing_and_diet :
  (∀ (data : gmap string value) (total : Qc) (breakdown : odict),
     calculate_carbon_footprint data "africa" = Ok (total, breakdown) →
     (∃ country grid_factor kwh,
        data !! "country" = Some (VStr country)
        ∧ COUNTRY_GRID_MIX !! country = Some grid_factor
        ∧ data !! "electricity_kwh" = Some (VNum kwh)
        ∧ lookup "Housing: Electricity" breakdown
          = Some (kwh * grid_factor * lit 12))
     ∧ (∀ v, data !! "lpg_kg_per_month" = Some v →
          ∃ kg, v = VNum kg
            ∧ lookup "Housing: Cooking (LPG)" breakdown
              = Some (kg * lit 3.0 * lit 12))
     ∧ (∃ label diet_key factor,
          data !! "diet" = Some (VStr label)
          ∧ diet_map !! label = Some diet_key
          ∧ GLOBAL_EMISSION_FACTORS !! diet_key = Some factor
          ∧ lookup "Diet" breakdown = Some (factor * lit 365)))
  ∧ calculate_carbon_footprint kenya_record "africa"
    = Ok (lit 360 + lit 216 + lit 438,
          [("Housing: Electricity", lit 100 * lit 0.3 * lit 12);
           ("Housing: Cooking (LPG)", lit 6 * lit 3.0 * lit 12);
           ("Transport: Car", lit 0);
           ("Transport: Motorcycle", lit 0);
           ("Transport: Bus/Minibus", lit 0);
           ("Transport: Flights", lit 0);
           ("Diet", lit 1.2 * lit 365)])
  ∧ lit 360 + lit 216 + lit 438 = lit 1014.
Proof.
  split; [|split; by_running].
  intros data total breakdown H.
  apply calculate_inv in H as (bd1 & bd2 & bd3 & Hh & Ht & Hf & Hd & _).
  apply housing_africa_inv in Hh
    as (country & grid_factor & kwh & Hcountry & Hgrid & Hkwh & Hlpg).
  apply transport_africa_inv in Ht
    as (car & moto & bus & fc & fm & fb & _ & _ & _ & _ & _ & _ & ->).
  apply flights_inv in Hf as (hours & fp & _ & _ & ->).
  apply diet_inv in Hd as (label & diet_key & f & Hlabel & Hkey & Hf & ->).
  split; [|split].
  - exists country, grid_factor, kwh. repeat split; try done.
    destruct (data !! "lpg_kg_per_month").
    + destruct Hlpg as (kg & fl & _ & _ & ->). read_breakdown.
    + subst bd1. read_breakdown.
  - intros v Hv. rewrite Hv in Hlpg.
    destruct Hlpg as (kg & fl & -> & Hfl & ->).
    rewrite factor_lpg in Hfl. injection Hfl as <-.
    exists kg. split; [done|]. read_breakdown.
  - exists label, diet_key, f. repeat split; try done. read_breakdown.
Qed.

Lemma africa_housing_and_diet_witness :
  ∃ kg, num 6 = VNum kg
    ∧ lookup "Housing: Cooking (LPG)" kenya_breakdown
      = Some (kg * lit 3.0 * lit 12).
Proof.
  apply (proj1 (proj2 (proj1 africa_housing_and_diet
                         kenya_record _ _ kenya_run))).
  reflexivity.
Defined.

(** C3. In the africa region every transport category is the weekly
    distance in km (0 when the field is absent) times 52 times the factor
    of the table, with no conversion between miles and km; the car
    category is [car_km_week * 52 * 0.31], the factor of a gasoline car. *)
Theorem africa_transport_unconverted (data : gmap string value)
    (total : Qc) (breakdown : odict) :
  calculate_carbon_footprint data "africa" = Ok (total, breakdown) →
  ∃ car moto bus,
    get data "car_km_week" (VNum (lit 0)) = VNum car
    ∧ get data "moto_km_week" (VNum (lit 0)) = VNum moto
    ∧ get data "bus_km_week" (VNum (lit 0)) = VNum bus
    ∧ lookup "Transport: Car" breakdown = Some (car * lit 52 * lit 0.31)
    ∧ lookup "Transport: Motorcycle" breakdown
      = Some (moto * lit 52 * lit 0.11)
    ∧ lookup "Transport: Bus/Minibus" breakdown
      = Some (bus * lit 52 * lit 0.11).
Proof.
  intros H.
  apply calculate_inv in H as (bd1 & bd2 & bd3 & _ & Ht & Hf & Hd & _).
  apply transport_africa_inv in Ht
    as (car & moto & bus & fc & fm & fb & Hc & Hm & Hb & Hfc & Hfm & Hfb & ->).
  apply flights_inv in Hf as (hours & fp & _ & _ & ->).
  apply diet_inv in Hd as (label & diet_key & f & _ & _ & _ & ->).
  rewrite factor_car in Hfc. rewrite factor_motorcycle in Hfm.
  rewrite factor_bus in Hfb. simplify_eq.
  exists car, moto, bus. repeat split; try done; read_breakdown.
Qed.

Lemma driver_run :
  calculate_carbon_footprint driver_record "africa"
  = Ok (lit 2626, driver_breakdown).
Proof. by_running. Qed.

Lemma africa_transport_unconverted_witness :
  ∃ car moto bus,
    get driver_record "car_km_week" (VNum (lit 0)) = VNum car
    ∧ get driver_record "moto_km_week" (VNum (lit 0)) = VNum moto
    ∧ get driver_record "bus_km_week" (VNum (lit 0)) = VNum bus
    ∧ lookup "Transport: Car" driver_breakdown
      = Some (car * lit 52 * lit 0.31)
    ∧ lookup "Transport: Motorcycle" driver_breakdown
      = Some (moto * lit 52 * lit 0.11)
    ∧ lookup "Transport: Bus/Minibus" driver_breakdown
      = Some (bus * lit 52 * lit 0.11).
Proof.
  exact (africa_transport_unconverted driver_record _ _ driver_run).
Defined.

Lemma lit_inject_Z_nonneg (n : Z) : (0 ≤ n)%Z → (0 ≤ lit (inject_Z n))%Qc.
Proof.
  intros Hn. unfold Qcle. simpl this. rewrite !Qred_correct.
  change 0%Q with (inject_Z 0). by rewrite <-Zle_Qle.
Qed.

(** ** Two runs on related records *)

(** Two runs of the engine on records that hold the same strings under
    the same fields and numbers related by [R]: if the first run returns,
    so does the second, and the results are related by [R], category by
    category.  With [R] the order of the rationals this is monotonicity;
    with the full relation it says that, on exact numbers, whether the
    engine returns does not depend on which numbers the record holds; with [R x y := 0 ≤ y] it gives the sign of the results. *)
Section Related.

Variable R : Qc → Qc → Prop.
Hypothesis R_refl : ∀ x : Qc, (0 ≤ x)%Qc → R x x.
Hypothesis R_plus : ∀ a b c d, R a b → R c d → R (a + c) (b + d).
Hypothesis R_mult : ∀ a b f : Qc, (0 ≤ f)%Qc → R a b → R (a * f) (b * f).

Variable GRID : gmap string Qc.
Variable FACTORS : gmap string Qc.
Hypothesis GRID_nonneg : map_Forall (λ (_ : string) (f : Qc), (0 ≤ f)%Qc) GRID.
Hypothesis FACTORS_nonneg : map_Forall (λ (_ : string) (f : Qc), (0 ≤ f)%Qc) FACTORS.




Lemma bind_rel {A B} (RA : A → A → Prop) (RB : B → B → Prop)
    (m m' : result A) (k k' : A → result B) :
  result_rel RA m m' →
  (∀ a a', RA a a' → result_rel RB (k a) (k' a')) →
  result_rel RB (Py.bind m k) (Py.bind m' k').
Proof.
  intros Hm Hk. destruct m as [a|e]; simpl; [|done].
  destruct Hm as (a' & -> & Ha). simpl. by apply Hk.
Qed.

Lemma Ok_rel {A} (RA : A → A → Prop) (a a' : A) :
  RA a a' → result_rel RA (Ok a) (Ok a').
Proof. intros Ha. simpl. eauto. Qed.

Lemma getitem_data_rel d d' k :
  (data_rel R) d d' → result_rel (value_rel R) (getitem d k) (getitem d' k).
Proof.
  intros Hd. unfold getitem. destruct (Hd k) as [v v' Hv|]; simpl; eauto.
Qed.

Lemma get_data_rel d d' k :
  (data_rel R) d d' →
  (value_rel R) (get d k (VNum (lit 0))) (get d' k (VNum (lit 0))).
Proof.
  intros Hd. unfold get. destruct (Hd k) as [v v' Hv|]; simpl; [done|].
  by apply R_refl.
Qed.

Lemma contains_data_rel d d' k :
  (data_rel R) d d' → contains d' k = contains d k.
Proof.
  intros Hd. unfold contains. apply bool_decide_ext.
  destruct (Hd k); split; intros [? ?]; eauto; done.
Qed.

Lemma getitem_obj_rel {V} (T : gmap string V) v v' :
  (value_rel R) v v' → result_rel eq (getitem_obj T v) (getitem_obj T v').
Proof.
  destruct v as [x|s], v' as [y|s']; simpl; try done.
  intros <-. destruct (getitem T s); simpl; eauto.
Qed.

Lemma getitem_nonneg T k :
  map_Forall (λ (_ : string) (f : Qc), (0 ≤ f)%Qc) T →
  result_rel (λ f f' : Qc, f = f' ∧ (0 ≤ f)%Qc) (getitem T k) (getitem T k).
Proof.
  intros HT. unfold getitem. destruct (T !! k) as [f|] eqn:E; simpl; [|done].
  exists f. repeat split. by apply (HT k).
Qed.

Lemma getitem_obj_nonneg T v v' :
  map_Forall (λ (_ : string) (f : Qc), (0 ≤ f)%Qc) T →
  (value_rel R) v v' →
  result_rel (λ f f' : Qc, f = f' ∧ (0 ≤ f)%Qc)
    (getitem_obj T v) (getitem_obj T v').
Proof.
  intros HT. destruct v as [x|s], v' as [y|s']; simpl; try done.
  intros <-. by apply getitem_nonneg.
Qed.

Lemma mul_int_rel v v' n :
  (0 ≤ n)%Z → (value_rel R) v v' → (value_rel R) (mul_int v n) (mul_int v' n).
Proof.
  intros Hn. destruct v, v'; simpl; try done; [|by intros ->].
  apply R_mult. by apply lit_inject_Z_nonneg.
Qed.

Lemma mul_float_rel v v' f :
  (0 ≤ f)%Qc → (value_rel R) v v' → result_rel R (mul_float v f) (mul_float v' f).
Proof.
  intros Hf. destruct v, v'; simpl; try done. intros HR. eauto.
Qed.

Lemma setitem_rel k v v' bd bd' :
  R v v' → (breakdown_rel R) bd bd' →
  (breakdown_rel R) (setitem k v bd) (setitem k v' bd').
Proof.
  intros Hv Hbd.
  induction Hbd as [|[j x] [j' x'] bd bd' [Hj Hx] Hbd IH]; simpl.
  - by repeat constructor.
  - simpl in Hj, Hx. subst j'. destruct (String.eqb j k).
    + constructor; [done|]. exact Hbd.
    + constructor; [done|]. exact IH.
Qed.

Lemma sum_rel bd bd' :
  (breakdown_rel R) bd bd' → R (sum (values bd)) (sum (values bd')).
Proof.
  unfold sum, values. generalize (R_refl 0 (Qcle_refl 0)).
  generalize 0 at 2 4. generalize 0 at 1 2 as a.
  intros a a' Ha Hbd. revert a a' Ha.
  induction Hbd as [|x y bd bd' [_ Hxy] _ IH]; intros a a' Ha; simpl; [done|].
  apply IH. by apply R_plus.
Qed.

(** One statement of the body at a time: the two runs stay related. *)
Ltac rel_step :=
  first
    [ apply Ok_rel
    | eapply bind_rel;
      [ first [ apply getitem_data_rel; eassumption
              | apply getitem_obj_nonneg; eassumption
              | apply getitem_obj_rel; eassumption
              | apply getitem_nonneg; eassumption
              | apply mul_float_rel;
                [ eassumption
                | first [ eassumption
                        | apply mul_int_rel; [done|];
                          first [ eassumption
                                | apply get_data_rel; eassumption ]
                        | apply get_data_rel; eassumption ] ] ]
      | first [ intros ? ? [-> ?] | intros ? ? <- | intros ? ? ? ] ]
    | apply setitem_rel; [try eassumption | try eassumption] ];
  cbv zeta.

Lemma housing_rel d d' region bd bd' :
  (data_rel R) d d' → (breakdown_rel R) bd bd' →
  result_rel (breakdown_rel R)
    (housing GRID FACTORS d region bd) (housing GRID FACTORS d' region bd').
Proof.
  intros Hd Hbd. unfold housing.
  rewrite (contains_data_rel d d') by done.
  destruct (String.eqb region "africa");
    [destruct (contains d "lpg_kg_per_month")|];
    repeat rel_step;
    first [assumption | apply R_mult; [done|assumption]].
Qed.

Lemma transport_rel d d' region bd bd' :
  (data_rel R) d d' → (breakdown_rel R) bd bd' →
  result_rel (breakdown_rel R)
    (transport FACTORS d region bd) (transport FACTORS d' region bd').
Proof.
  intros Hd Hbd. unfold transport.
  destruct (String.eqb region "africa");
    repeat rel_step;
    first [assumption | apply R_mult; [done|assumption]].
Qed.

Lemma flights_rel d d' bd bd' :
  (data_rel R) d d' → (breakdown_rel R) bd bd' →
  result_rel (breakdown_rel R) (flights FACTORS d bd) (flights FACTORS d' bd').
Proof.
  intros Hd Hbd. unfold flights. repeat rel_step.
Qed.

Lemma diet_rel d d' bd bd' :
  (data_rel R) d d' → (breakdown_rel R) bd bd' →
  result_rel (breakdown_rel R) (diet FACTORS d bd) (diet FACTORS d' bd').
Proof.
  intros Hd Hbd. unfold diet. repeat rel_step.
  apply R_refl. by apply Qcmult_nonneg_nonneg.
Qed.

Lemma calculate_rel d d' region :
  (data_rel R) d d' →
  result_rel (outcome_rel R)
    (calculate_carbon_footprint_in GRID FACTORS d region)
    (calculate_carbon_footprint_in GRID FACTORS d' region).
Proof.
  intros Hd. unfold calculate_carbon_footprint_in. cbv zeta.
  eapply bind_rel; [apply housing_rel; [done|constructor]|intros bd1 bd1' H1].
  eapply bind_rel; [by apply transport_rel|intros bd2 bd2' H2].
  eapply bind_rel; [by apply flights_rel|intros bd3 bd3' H3].
  eapply bind_rel; [by apply diet_rel|intros bd4 bd4' H4].
  apply Ok_rel. split; simpl; [by apply sum_rel|done].
Qed.

End Related.

(** The factors of the program's tables are non-negative. *)
Lemma COUNTRY_GRID_MIX_nonneg :
  map_Forall (λ (_ : string) (f : Qc), (0 ≤ f)%Qc) COUNTRY_GRID_MIX.
Proof.
  intros k f Hk. apply elem_of_list_to_map_2 in Hk.
  repeat (apply elem_of_cons in Hk as [[= -> ->]|Hk]; [done|]).
  by apply elem_of_nil in Hk.
Qed.

Lemma GLOBAL_EMISSION_FACTORS_nonneg :
  map_Forall (λ (_ : string) (f : Qc), (0 ≤ f)%Qc) GLOBAL_EMISSION_FACTORS.
Proof.
  intros k f Hk. apply elem_of_list_to_map_2 in Hk.
  repeat (apply elem_of_cons in Hk as [[= -> ->]|Hk]; [done|]).
  by apply elem_of_nil in Hk.
Qed.

Lemma lookup_breakdown_rel R (bd bd' : odict) (k : string) (v : Qc) :
  breakdown_rel R bd bd' → lookup k bd = Some v →
  ∃ v', lookup k bd' = Some v' ∧ R v v'.
Proof.
  induction 1 as [|[j x] [j' x'] bd bd' [Hj Hx] _ IH]; simpl; [done|].
  simpl in Hj, Hx. subst j'. destruct (String.eqb j k); [|done].
  intros [= <-]. eauto.
Qed.

(** ** Monotonicity *)

Lemma data_rel_insert_le (data : gmap string value) (k : string) (x y : Qc) :
  data !! k = Some (VNum x) → (x ≤ y)%Qc →
  data_rel Qcle data (<[k := VNum y]> data).
Proof.
  intros Hk Hxy j. destruct (decide (k = j)) as [<-|Hne].
  - rewrite Hk, lookup_insert_eq. by constructor.
  - rewrite lookup_insert_ne by done.
    destruct (data !! j) as [[z|s]|]; constructor; simpl; done.
Qed.

(** C8. Increasing one numeric field of a record on which the engine
    returns a result, all other fields fixed, gives a record on which the
    engine returns a result again; no category of the breakdown decreases
    (in particular not the one computed from the field) and the total does
    not decrease. *)
Theorem single_field_monotone (data : gmap string value) (region : string)
    (field : string) (x y : Qc) (total : Qc) (breakdown : odict) :
  data !! field = Some (VNum x) →
  (x ≤ y)%Qc →
  calculate_carbon_footprint data region = Ok (total, breakdown) →
  ∃ total' breakdown',
    calculate_carbon_footprint (<[field := VNum y]> data) region
      = Ok (total', breakdown')
    ∧ (total ≤ total')%Qc
    ∧ breakdown.*1 = breakdown'.*1
    ∧ ∀ category v, lookup category breakdown = Some v →
        ∃ v', lookup category breakdown' = Some v' ∧ (v ≤ v')%Qc.
Proof.
  intros Hfield Hxy Hrun.
  pose proof (calculate_rel Qcle (λ x _, Qcle_refl x) Qcplus_le_compat
    (λ a b f Hf Hab, Qcmult_le_compat_r a b f Hab Hf)
    COUNTRY_GRID_MIX GLOBAL_EMISSION_FACTORS
    COUNTRY_GRID_MIX_nonneg GLOBAL_EMISSION_FACTORS_nonneg
    data (<[field := VNum y]> data) region
    (data_rel_insert_le data field x y Hfield Hxy)) as Hrel.
  unfold calculate_carbon_footprint in *. rewrite Hrun in Hrel.
  destruct Hrel as ([total' breakdown'] & Hrun' & Htotal & Hbd).
  simpl in Htotal, Hbd.
  exists total', breakdown'. repeat split; try done.
  - clear -Hbd. induction Hbd as [|a b ? ? [Hab _] _ IH]; [done|].
    rewrite !fmap_cons. by f_equal.
  - intros category v. by apply lookup_breakdown_rel.
Qed.

Lemma single_field_monotone_witness :
  ∃ total' breakdown',
    calculate_carbon_footprint
      (<["electricity_kwh" := VNum (lit 200)]> kenya_record) "africa"
      = Ok (total', breakdown')
    ∧ (lit 1014 ≤ total')%Qc
    ∧ kenya_breakdown.*1 = breakdown'.*1
    ∧ ∀ category v, lookup category kenya_breakdown = Some v →
        ∃ v', lookup category breakdown' = Some v' ∧ (v ≤ v')%Qc.
Proof.
  apply (single_field_monotone kenya_record "africa" "electricity_kwh"
           (lit 100) (lit 200) (lit 1014) kenya_breakdown).
  - reflexivity.
  - vm_compute. discriminate.
  - exact kenya_run.
Defined.

(** ** Rejected and accepted records *)

(** C4, as the claim states it, fails: called with the africa region and
    the placeholder country, [calculate_carbon_footprint] raises nothing
    and returns a numeric result, computed with the grid factor 0.0 of the
    placeholder entry. *)
Lemma sentinel_country_not_rejected :
  sentinel_record !! "country" = Some (VStr "Select Country")
  ∧ calculate_carbon_footprint sentinel_record "africa"
    = Ok (lit 654, setitem "Housing: Electricity" (lit 0) kenya_breakdown).
Proof. split; [reflexivity | by_running]. Qed.

(** C4, amended. The placeholder country is excluded by the guard of the
    calling script: with the region Africa and the country "Select
    Country", [valid_input] is false, [calculate_carbon_footprint] is not
    called and nothing is produced, neither a result nor an exception.
    With the country missing the guard lets the call through, and the engine raises
    [KeyError] on the key "country" in its first statement, before any
    arithmetic. *)
Theorem sentinel_country_guarded (input_data : gmap string value) :
  (input_data !! "country" = Some (VStr "Select Country") →
     valid_input "Africa" input_data = false
     ∧ ∀ calculate_button,
         on_calculate calculate_button "Africa" input_data = None)
  ∧ (input_data !! "country" = None →
     valid_input "Africa" input_data = true
     ∧ calculate_carbon_footprint input_data "africa"
       = Raise (KeyError (VStr "country"))
     ∧ on_calculate true "Africa" input_data
       = Some (Raise (KeyError (VStr "country")))).
Proof.
  split; intros Hcountry.
  - assert (valid_input "Africa" input_data = false) as Hguard.
    { unfold valid_input. by rewrite Hcountry. }
    split; [done|]. intros b. unfold on_calculate. rewrite Hguard.
    by destruct b.
  - assert (valid_input "Africa" input_data = true) as Hguard.
    { unfold valid_input. by rewrite Hcountry. }
    assert (calculate_carbon_footprint input_data "africa"
            = Raise (KeyError (VStr "country"))) as Hrun.
    { unfold calculate_carbon_footprint, calculate_carbon_footprint_in,
        housing, getitem. by rewrite Hcountry. }
    repeat split; try done.
    unfold on_calculate. rewrite Hguard.
    change (lower "Africa") with "africa". by rewrite Hrun.
Qed.

Lemma sentinel_country_guarded_witness :
  (valid_input "Africa" sentinel_record = false
   ∧ ∀ calculate_button,
       on_calculate calculate_button "Africa" sentinel_record = None)
  ∧ (valid_input "Africa" (delete "country" kenya_record) = true
     ∧ calculate_carbon_footprint (delete "country" kenya_record) "africa"
       = Raise (KeyError (VStr "country"))
     ∧ on_calculate true "Africa" (delete "country" kenya_record)
       = Some (Raise (KeyError (VStr "country")))).
Proof.
  split.
  - apply (proj1 (sentinel_country_guarded sentinel_record)). reflexivity.
  - apply (proj2 (sentinel_country_guarded (delete "country" kenya_record))).
    reflexivity.
Defined.



(** C5, as the claim states it, fails: "Meat-Heavy" is a diet of the
    global region and not of the africa region, and the engine accepts it
    in the africa region, with the factor 3.3 of the table shared by the
    two regions. *)
Lemma foreign_diet_not_rejected :
  ("Meat-Heavy" ∉ africa_diets)
  ∧ ("Meat-Heavy" ∈ global_diets)
  ∧ meat_heavy_record !! "diet" = Some (VStr "Meat-Heavy")
  ∧ calculate_carbon_footprint meat_heavy_record "africa"
    = Ok (lit 1780.5, setitem "Diet" (lit 3.3 * lit 365) kenya_breakdown).
Proof.
  split; [|split; [|split; [reflexivity | by_running]]].
  - unfold africa_diets. rewrite !elem_of_cons, elem_of_nil.
    intros [?|[?|[?|[?|[]]]]]; discriminate.
  - unfold global_diets. apply elem_of_cons. by left.
Qed.

(** C5, amended. A diet label that is none of the six labels of
    [diet_map], the one table of both regions, makes the engine fail in
    either region: no result is returned, no default factor is used and no
    Diet category is produced; the diet statement itself raises [KeyError]
    on the label. *)
Theorem unknown_diet_raises (data : gmap string value) (region : string)
    (label : string) :
  data !! "diet" = Some (VStr label) →
  diet_map !! label = None →
  (∃ e, calculate_carbon_footprint data region = Raise e)
  ∧ (∀ breakdown,
       diet GLOBAL_EMISSION_FACTORS data breakdown
       = Raise (KeyError (VStr label))).
Proof.
  intros Hdiet Hlabel.
  assert (∀ breakdown, diet GLOBAL_EMISSION_FACTORS data breakdown
                       = Raise (KeyError (VStr label))) as Hraise.
  { intros bd. unfold diet, getitem. rewrite Hdiet. simpl.
    unfold getitem. by rewrite Hlabel. }
  split; [|done].
  destruct (calculate_carbon_footprint data region) as [[t bd]|e] eqn:Hrun;
    [|eauto].
  apply calculate_inv in Hrun as (bd1 & bd2 & bd3 & _ & _ & _ & Hd & _).
  by rewrite Hraise in Hd.
Qed.

Lemma unknown_diet_raises_witness :
  (∃ e, calculate_carbon_footprint pescatarian_record "global" = Raise e)
  ∧ (∀ breakdown,
       diet GLOBAL_EMISSION_FACTORS pescatarian_record breakdown
       = Raise (KeyError (VStr "Pescatarian"))).
Proof.
  apply (unknown_diet_raises pescatarian_record "global" "Pescatarian");
    reflexivity.
Defined.






(** ** Absent fields *)


(** Both runs evaluate the same expression next: either both raise, or
    both go on with its value. *)
Ltac run_both :=
  match goal with
  | |- context [Py.bind ?m _] =>
      lazymatch m with
      | Py.bind _ _ => fail
      | Ok _ => fail
      | Raise _ => fail
      | _ => destruct m; [|done]
      end
  end;
  cbn [Py.bind mul_float setitem String.eqb Ascii.eqb Bool.eqb].

Section Absent.

Variable GRID : gmap string Qc.
Variable FACTORS : gmap string Qc.

Lemma get_insert_zero (data : gmap string value) (field k : string) :
  data !! field = None →
  get (<[field := VNum (lit 0)]> data) k (VNum (lit 0))
  = get data k (VNum (lit 0)).
Proof.
  intros Hnone. unfold get. destruct (decide (field = k)) as [<-|Hne].
  - by rewrite lookup_insert_eq, Hnone.
  - by rewrite lookup_insert_ne.
Qed.

Lemma getitem_insert_ne {V} (d : gmap string V) (field k : string) (v : V) :
  field ≠ k → getitem (<[field := v]> d) k = getitem d k.
Proof. intros Hne. unfold getitem. by rewrite lookup_insert_ne. Qed.

Lemma getitem_insert_eq {V} (d : gmap string V) (field : string) (v : V) :
  getitem (<[field := v]> d) field = Ok v.
Proof. unfold getitem. by rewrite lookup_insert_eq. Qed.

Lemma getitem_Some {V} (d : gmap string V) (k : string) (v : V) :
  d !! k = Some v → getitem d k = Ok v.
Proof. intros H. unfold getitem. by rewrite H. Qed.

Lemma get_insert_ne {V} (d : gmap string V) (field k : string) (v dflt : V) :
  field ≠ k → get (<[field := v]> d) k dflt = get d k dflt.
Proof. intros Hne. unfold get. by rewrite lookup_insert_ne. Qed.

Lemma contains_insert_ne {V} (d : gmap string V) (field k : string) (v : V) :
  field ≠ k → contains (<[field := v]> d) k = contains d k.
Proof. intros Hne. unfold contains. by rewrite lookup_insert_ne. Qed.

Lemma defaulted_field_zero (data : gmap string value) (region field : string) :
  field ∈ defaulted_fields →
  data !! field = None →
  calculate_carbon_footprint_in GRID FACTORS
    (<[field := VNum (lit 0)]> data) region
  = calculate_carbon_footprint_in GRID FACTORS data region.
Proof.
  intros Hfield Hnone.
  unfold calculate_carbon_footprint_in, housing, transport, flights, diet.
  rewrite !get_insert_zero by done.
  unfold defaulted_fields in Hfield.
  repeat (apply elem_of_cons in Hfield as [->|Hfield];
          [by rewrite !getitem_insert_ne, contains_insert_ne by done|]).
  by apply elem_of_nil in Hfield.
Qed.

Lemma lpg_zero (data : gmap string value) (f : Qc) :
  data !! "lpg_kg_per_month" = None →
  FACTORS !! "lpg_per_kg" = Some f →
  calculate_carbon_footprint_in GRID FACTORS
    (<["lpg_kg_per_month" := VNum (lit 0)]> data) "africa"
  = match calculate_carbon_footprint_in GRID FACTORS data "africa" with
    | Ok (total, breakdown) => Ok (total, with_zero_lpg breakdown)
    | Raise e => Raise e
    end.
Proof.
  intros Hnone Hf.
  unfold calculate_carbon_footprint_in, housing, transport, flights, diet.
  change (String.eqb "africa" "africa") with true. cbv iota.
  rewrite getitem_insert_eq, !getitem_insert_ne, !get_insert_ne by done.
  assert (contains data "lpg_kg_per_month" = false) as ->
    by by apply contains_false.
  assert (contains (<["lpg_kg_per_month" := VNum (lit 0)]> data)
            "lpg_kg_per_month" = true) as ->.
  { apply contains_true. rewrite lookup_insert_eq. eauto. }
  rewrite (getitem_Some FACTORS "lpg_per_kg" f Hf).
  repeat run_both.
  unfold with_zero_lpg, sum, values.
  cbn [fmap list_fmap snd fold_left].
  assert (lit 0 * f * lit 12 = lit 0) as -> by ring.
  do 2 f_equal. ring.
Qed.

Lemma lpg_not_read (data : gmap string value) (region : string) (v : value) :
  region ≠ "africa" →
  calculate_carbon_footprint_in GRID FACTORS
    (<["lpg_kg_per_month" := v]> data) region
  = calculate_carbon_footprint_in GRID FACTORS data region.
Proof.
  intros Hregion%String.eqb_neq.
  unfold calculate_carbon_footprint_in, housing, transport, flights, diet.
  rewrite Hregion.
  by rewrite !getitem_insert_ne, !get_insert_ne by done.
Qed.

Lemma required_field_absent (data : gmap string value) (region field : string) :
  field ∈ required_fields →
  data !! field = None →
  ∃ e, calculate_carbon_footprint_in GRID FACTORS data region = Raise e.
Proof.
  intros Hfield Hnone.
  destruct (calculate_carbon_footprint_in GRID FACTORS data region)
    as [[t bd]|e] eqn:Hrun; [exfalso|eauto].
  apply calculate_inv in Hrun as (bd1 & bd2 & bd3 & Hh & _ & Hf & _ & _).
  apply flights_inv in Hf as (hours & f & Hhours & _ & _).
  unfold required_fields in Hfield.
  apply elem_of_cons in Hfield as [->|Hfield].
  - unfold housing in Hh.
    destruct (String.eqb region "africa"); inv_run Hh; congruence.
  - apply elem_of_cons in Hfield as [->|Hfield]; [congruence|].
    by apply elem_of_nil in Hfield.
Qed.

End Absent.

(** C7, as the claim states it, fails: in the global region, a record
    without [electricity_kwh] raises [KeyError]; the same record with
    [electricity_kwh] equal to 0 gets a result. *)
Lemma absent_electricity_raises :
  no_electricity_record !! "electricity_kwh" = None
  ∧ calculate_carbon_footprint no_electricity_record "global"
    = Raise (KeyError (VStr "electricity_kwh"))
  ∧ calculate_carbon_footprint
      (<["electricity_kwh" := VNum (lit 0)]> no_electricity_record) "global"
    = Ok (lit 912.5,
          setitem "Housing: Electricity" (lit 0) global_breakdown).
Proof. split; [reflexivity | split; by_running]. Qed.

(** C7, amended. For a field absent from the record:
    - if it is one of the nine fields read with a default (natural gas,
      heating oil, propane and the weekly distances of either region),
      the engine does on the record what it does on the record with the
      field equal to 0, in every region;
    - if it is [lpg_kg_per_month], the record with the field equal to 0
      fails in the africa region exactly when the record fails, with the
      same exception, and otherwise gets the same total and the same
      breakdown with one more category, "Housing: Cooking (LPG)", of
      value 0; the other regions do not read the field;
    - if it is [electricity_kwh] or [flight_hours], the engine raises an
      exception in every region: these two fields are required. *)
Theorem absent_field (data : gmap string value) (region field : string) :
  data !! field = None →
  (field ∈ defaulted_fields →
     calculate_carbon_footprint (<[field := VNum (lit 0)]> data) region
     = calculate_carbon_footprint data region)
  ∧ (field = "lpg_kg_per_month" →
     calculate_carbon_footprint (<[field := VNum (lit 0)]> data) "africa"
     = match calculate_carbon_footprint data "africa" with
       | Ok (total, breakdown) => Ok (total, with_zero_lpg breakdown)
       | Raise e => Raise e
       end
     ∧ (region ≠ "africa" →
        calculate_carbon_footprint (<[field := VNum (lit 0)]> data) region
        = calculate_carbon_footprint data region))
  ∧ (field ∈ required_fields →
     ∃ e, calculate_carbon_footprint data region = Raise e).
Proof.
  intros Hnone. unfold calculate_carbon_footprint. repeat split.
  - intros Hfield. by apply defaulted_field_zero.
  - subst field. by apply lpg_zero with (f := lit 3.0).
  - subst field. intros Hregion. by apply lpg_not_read.
  - intros Hfield. by apply required_field_absent with (field := field).
Qed.

Lemma absent_field_witness :
  ("natural_gas_therms" ∈ defaulted_fields →
     calculate_carbon_footprint
       (<["natural_gas_therms" := VNum (lit 0)]> no_gas_record) "global"
     = calculate_carbon_footprint no_gas_record "global")
  ∧ ("natural_gas_therms" = "lpg_kg_per_month" →
     calculate_carbon_footprint
       (<["natural_gas_therms" := VNum (lit 0)]> no_gas_record) "africa"
     = match calculate_carbon_footprint no_gas_record "africa" with
       | Ok (total, breakdown) => Ok (total, with_zero_lpg breakdown)
       | Raise e => Raise e
       end
     ∧ ("global" ≠ "africa" →
        calculate_carbon_footprint
          (<["natural_gas_therms" := VNum (lit 0)]> no_gas_record) "global"
        = calculate_carbon_footprint no_gas_record "global"))
  ∧ ("natural_gas_therms" ∈ required_fields →
     ∃ e, calculate_carbon_footprint no_gas_record "global" = Raise e).
Proof.
  apply (absent_field no_gas_record "global" "natural_gas_therms").
  reflexivity.
Defined.

(** ** Region isolation *)

(** No diet maps to the key of the electricity factor. *)
Lemma diet_key_not_electricity (label diet_key : string) :
  diet_map !! label = Some diet_key → diet_key ≠ "electricity".
Proof.
  intros Hk. apply elem_of_list_to_map_2 in Hk.
  repeat (apply elem_of_cons in Hk as [[= -> ->]|Hk]; [done|]).
  by apply elem_of_nil in Hk.
Qed.

Lemma diet_agree (F F' : gmap string Qc) (data : gmap string value)
    (bd : odict) :
  (∀ k, k ≠ "electricity" → F !! k = F' !! k) →
  diet F data bd = diet F' data bd.
Proof.
  intros Hagree. unfold diet.
  destruct (getitem data "diet") as [label|]; [|done]. cbn [Py.bind].
  destruct (getitem_obj diet_map label) as [diet_key|] eqn:Hkey; [|done].
  cbn [Py.bind].
  apply getitem_obj_Ok_inv in Hkey as (l & _ & Hkey).
  apply diet_key_not_electricity in Hkey.
  unfold getitem. by rewrite (Hagree diet_key Hkey).
Qed.

(** C10. Two runs of the engine on the same record.  In the africa
    region the outcome (result or exception) is the same under two factor
    tables that differ at most in the entry "electricity"; in the global
    region (any region other than africa) the outcome is the same under
    any two grid-intensity tables. *)
Theorem region_isolation (GRID GRID' F F' : gmap string Qc)
    (data : gmap string value) :
  (∀ k, k ≠ "electricity" → F !! k = F' !! k) →
  calculate_carbon_footprint_in GRID F data "africa"
  = calculate_carbon_footprint_in GRID F' data "africa"
  ∧ ∀ region, region ≠ "africa" →
      calculate_carbon_footprint_in GRID F data region
      = calculate_carbon_footprint_in GRID' F data region.
Proof.
  intros Hagree. split.
  - assert (∀ k, k ≠ "electricity" → getitem F k = getitem F' k) as Hget.
    { intros k Hk. unfold getitem. by rewrite (Hagree k Hk). }
    unfold calculate_carbon_footprint_in, housing, transport, flights.
    change (String.eqb "africa" "africa") with true. cbv iota.
    rewrite !(Hget "lpg_per_kg"), !(Hget "car_gasoline"),
      !(Hget "motorcycle"), !(Hget "bus"), !(Hget "plane_short") by done.
    repeat run_both; by rewrite (diet_agree F F').
  - intros region Hregion%String.eqb_neq.
    unfold calculate_carbon_footprint_in, housing. by rewrite Hregion.
Qed.

Lemma region_isolation_witness :
  calculate_carbon_footprint_in COUNTRY_GRID_MIX GLOBAL_EMISSION_FACTORS
    kenya_record "africa"
  = calculate_carbon_footprint_in COUNTRY_GRID_MIX
      (<["electricity" := lit 9.75]> GLOBAL_EMISSION_FACTORS)
      kenya_record "africa"
  ∧ ∀ region, region ≠ "africa" →
      calculate_carbon_footprint_in COUNTRY_GRID_MIX GLOBAL_EMISSION_FACTORS
        kenya_record region
      = calculate_carbon_footprint_in ∅ GLOBAL_EMISSION_FACTORS
          kenya_record region.
Proof.
  apply (region_isolation COUNTRY_GRID_MIX ∅ GLOBAL_EMISSION_FACTORS
           (<["electricity" := lit 9.75]> GLOBAL_EMISSION_FACTORS)
           kenya_record).
  intros k Hk. symmetry. apply lookup_insert_ne. congruence.
Defined.

(** ** The order of the reduction plan *)

#[local] Instance desc_trans : Transitive desc.
Proof. unfold desc. intros a b c ? ?. lia. Qed.

Lemma insert_desc_perm (x : string * Z) (l : list (string * Z)) :
  insert_desc x l ≡ₚ x :: l.
Proof.
  induction l as [|y l IH]; simpl; [done|].
  destruct (y.2 <=? x.2)%Z; [done|].
  by rewrite IH, Permutation_swap.
Qed.

Lemma sort_desc_perm (l : list (string * Z)) : sort_desc l ≡ₚ l.
Proof.
  induction l as [|x l IH]; simpl; [done|].
  by rewrite insert_desc_perm, IH.
Qed.

Lemma insert_desc_sorted (x : string * Z) (l : list (string * Z)) :
  Sorted desc l → Sorted desc (insert_desc x l).
Proof.
  induction 1 as [|y l Hl IH Hhd]; simpl.
  - by repeat constructor.
  - destruct (y.2 <=? x.2)%Z eqn:E.
    + apply Z.leb_le in E. by repeat constructor.
    + apply Z.leb_gt in E. constructor; [done|].
      destruct Hhd as [|z l Hyz]; simpl.
      * constructor. unfold desc. lia.
      * destruct (z.2 <=? x.2)%Z; constructor; [unfold desc; lia|done].
Qed.

Lemma sort_desc_sorted (l : list (string * Z)) :
  StronglySorted desc (sort_desc l).
Proof.
  apply Sorted_StronglySorted; [apply _|].
  induction l as [|x l IH]; simpl; [constructor|].
  by apply insert_desc_sorted.
Qed.

(** The items of one savings value keep their order. *)
Lemma insert_desc_stable (s : Z) (x : string * Z) (l : list (string * Z)) :
  filter (λ r, r.2 = s) (insert_desc x l) = filter (λ r, r.2 = s) (x :: l).
Proof.
  induction l as [|y l IH]; simpl; [done|].
  destruct (y.2 <=? x.2)%Z eqn:E; [done|]. apply Z.leb_gt in E.
  rewrite (filter_cons _ y), IH, !(filter_cons _ x), (filter_cons _ y).
  repeat case_decide; try done. lia.
Qed.

Lemma sort_desc_stable (s : Z) (l : list (string * Z)) :
  filter (λ r, r.2 = s) (sort_desc l) = filter (λ r, r.2 = s) l.
Proof.
  induction l as [|x l IH]; simpl; [done|].
  by rewrite insert_desc_stable, !filter_cons, IH.
Qed.

(** C9. The reduction plan is the list of the recommendations emitted by
    the rules, rearranged: sorted by descending savings, recommendations
    of equal savings in the order in which the rules emitted them. *)
Theorem recommendations_sorted_stable (breakdown_dict : odict)
    (region : string) (input_data : gmap string value)
    (plan : list (string * Z)) :
  recommendations breakdown_dict region input_data = Ok plan →
  ∃ emitted,
    emitted_recommendations breakdown_dict region input_data = Ok emitted
    ∧ plan ≡ₚ emitted
    ∧ StronglySorted (λ a b, (b.2 ≤ a.2)%Z) plan
    ∧ ∀ savings,
        filter (λ r, r.2 = savings) plan
        = filter (λ r, r.2 = savings) emitted.
Proof.
  unfold recommendations. intros H.
  apply bind_Ok_inv in H as (emitted & Hemitted & [= <-]).
  exists emitted. split; [done|]. split; [apply sort_desc_perm|].
  split; [apply sort_desc_sorted|]. intros s. apply sort_desc_stable.
Qed.

Lemma heavy_emitted_run :
  emitted_recommendations heavy_breakdown "Global" global_record
  = Ok heavy_emitted.
Proof. vm_compute. reflexivity. Qed.

Lemma heavy_plan_run :
  recommendations heavy_breakdown "Global" global_record = Ok heavy_plan.
Proof. vm_compute. reflexivity. Qed.

Lemma recommendations_sorted_stable_witness :
  ∃ emitted,
    emitted_recommendations heavy_breakdown "Global" global_record
    = Ok emitted
    ∧ heavy_plan ≡ₚ emitted
    ∧ StronglySorted (λ a b, (b.2 ≤ a.2)%Z) heavy_plan
    ∧ ∀ savings,
        filter (λ r, r.2 = savings) heavy_plan
        = filter (λ r, r.2 = savings) emitted.
Proof.
  exact (recommendations_sorted_stable heavy_breakdown "Global"
           global_record heavy_plan heavy_plan_run).
Defined.

(** * Further properties of the engine and of the script *)

(** ** The engine in closed form *)

Lemma factor_electricity :
  GLOBAL_EMISSION_FACTORS !! "electricity" = Some (lit 0.5).
Proof. reflexivity. Qed.
Lemma factor_natural_gas :
  GLOBAL_EMISSION_FACTORS !! "natural_gas" = Some (lit 2.0).
Proof. reflexivity. Qed.
Lemma factor_heating_oil :
  GLOBAL_EMISSION_FACTORS !! "heating_oil" = Some (lit 2.68).
Proof. reflexivity. Qed.
Lemma factor_propane :
  GLOBAL_EMISSION_FACTORS !! "propane" = Some (lit 1.5).
Proof. reflexivity. Qed.
Lemma factor_train : GLOBAL_EMISSION_FACTORS !! "train" = Some (lit 0.06).
Proof. reflexivity. Qed.
Lemma factor_plane : GLOBAL_EMISSION_FACTORS !! "plane_short" = Some (lit 0.24).
Proof. reflexivity. Qed.

(** Every diet of [diet_map] has a factor, between that of a vegan and
    that of a meat-heavy diet. *)
Lemma diet_factor_known (label diet_key : string) :
  diet_map !! label = Some diet_key →
  ∃ f, GLOBAL_EMISSION_FACTORS !! diet_key = Some f
    ∧ (lit 1.2 ≤ f)%Qc ∧ (f ≤ lit 3.3)%Qc.
Proof.
  intros Hk. apply elem_of_list_to_map_2 in Hk.
  repeat (apply elem_of_cons in Hk as [[= -> ->]|Hk];
          [eexists; split; [reflexivity|split; done]|]).
  by apply elem_of_nil in Hk.
Qed.

Lemma diet_factor_Some (label : string) (f : Qc) :
  diet_factor label = Some f ↔
  ∃ diet_key, diet_map !! label = Some diet_key
    ∧ GLOBAL_EMISSION_FACTORS !! diet_key = Some f.
Proof.
  unfold diet_factor. destruct (diet_map !! label) as [k|]; split.
  - eauto.
  - by intros (k' & [= <-] & ?).
  - done.
  - by intros (k' & ? & ?).
Qed.

Lemma housing_global_inv GRID FACTORS data region bd0 bd :
  region ≠ "africa" →
  housing GRID FACTORS data region bd0 = Ok bd →
  ∃ kwh gas oil propane fe fg fo fp,
    data !! "electricity_kwh" = Some (VNum kwh)
    ∧ get data "natural_gas_therms" (VNum (lit 0)) = VNum gas
    ∧ get data "heating_oil_liters" (VNum (lit 0)) = VNum oil
    ∧ get data "propane_liters" (VNum (lit 0)) = VNum propane
    ∧ FACTORS !! "electricity" = Some fe
    ∧ FACTORS !! "natural_gas" = Some fg
    ∧ FACTORS !! "heating_oil" = Some fo
    ∧ FACTORS !! "propane" = Some fp
    ∧ bd = setitem "Housing: Propane" (propane * fp * lit 12)
             (setitem "Housing: Heating Oil" (oil * fo * lit 12)
                (setitem "Housing: Natural Gas" (gas * fg * lit 12)
                   (setitem "Housing: Electricity" (kwh * fe * lit 12) bd0))).
Proof.
  intros Hregion%String.eqb_neq. unfold housing. rewrite Hregion.
  intros H. inv_run H.
  do 8 eexists. repeat split; eassumption || reflexivity.
Qed.

Lemma transport_global_inv FACTORS data region bd0 bd :
  region ≠ "africa" →
  transport FACTORS data region bd0 = Ok bd →
  ∃ car bus train fc fb ft,
    get data "car_miles_week" (VNum (lit 0)) = VNum car
    ∧ get data "bus_miles_week" (VNum (lit 0)) = VNum bus
    ∧ get data "train_miles_week" (VNum (lit 0)) = VNum train
    ∧ FACTORS !! "car_gasoline" = Some fc
    ∧ FACTORS !! "bus" = Some fb
    ∧ FACTORS !! "train" = Some ft
    ∧ bd = setitem "Transport: Train" (train * ft * lit 52)
             (setitem "Transport: Bus" (bus * fb * lit 52)
                (setitem "Transport: Car" (car * fc * lit 52) bd0)).
Proof.
  intros Hregion%String.eqb_neq. unfold transport. rewrite Hregion.
  intros H. inv_run H.
  do 6 eexists. repeat split; eassumption || reflexivity.
Qed.

(** Evaluating the writes of a run on an empty breakdown. *)
Ltac eval_setitem :=
  cbn [setitem String.eqb Ascii.eqb Bool.eqb app].

Lemma calculate_global_inv data region total breakdown :
  region ≠ "africa" →
  calculate_carbon_footprint data region = Ok (total, breakdown) →
  ∃ kwh gas oil propane car bus train hours factor,
    reads_global data kwh gas oil propane car bus train hours factor
    ∧ breakdown
      = global_breakdown_of kwh gas oil propane car bus train hours factor
    ∧ total = sum (values breakdown).
Proof.
  intros Hregion H.
  apply calculate_inv in H as (bd1 & bd2 & bd3 & Hh & Ht & Hf & Hd & ->).
  apply housing_global_inv in Hh
    as (kwh & gas & oil & propane & fe & fg & fo & fp
        & Hkwh & Hgas & Hoil & Hprop & Hfe & Hfg & Hfo & Hfp & ->); [|done].
  apply transport_global_inv in Ht
    as (car & bus & train & fc & fb & ft
        & Hcar & Hbus & Htrain & Hfc & Hfb & Hft & ->); [|done].
  apply flights_inv in Hf as (hours & fpl & Hhours & Hfpl & ->).
  apply diet_inv in Hd as (label & diet_key & f & Hlabel & Hkey & Hfd & ->).
  rewrite factor_electricity in Hfe. rewrite factor_natural_gas in Hfg.
  rewrite factor_heating_oil in Hfo. rewrite factor_propane in Hfp.
  rewrite factor_car in Hfc. rewrite factor_bus in Hfb.
  rewrite factor_train in Hft. rewrite factor_plane in Hfpl.
  injection Hfe as <-. injection Hfg as <-. injection Hfo as <-.
  injection Hfp as <-. injection Hfc as <-. injection Hfb as <-.
  injection Hft as <-. injection Hfpl as <-.
  exists kwh, gas, oil, propane, car, bus, train, hours, f.
  split; [|split; [reflexivity|reflexivity]].
  repeat split; try done.
  exists label. split; [done|]. apply diet_factor_Some. eauto.
Qed.

Lemma calculate_africa_inv data total breakdown :
  calculate_carbon_footprint data "africa" = Ok (total, breakdown) →
  ∃ grid_factor kwh lpg car moto bus hours factor,
    reads_africa data grid_factor kwh lpg car moto bus hours factor
    ∧ breakdown
      = africa_breakdown_of grid_factor kwh lpg car moto bus hours factor
    ∧ total = sum (values breakdown).
Proof.
  intros H.
  apply calculate_inv in H as (bd1 & bd2 & bd3 & Hh & Ht & Hf & Hd & ->).
  apply housing_africa_inv in Hh
    as (country & g & kwh & Hcountry & Hg & Hkwh & Hlpg).
  apply transport_africa_inv in Ht
    as (car & moto & bus & fc & fm & fb
        & Hcar & Hmoto & Hbus & Hfc & Hfm & Hfb & ->).
  apply flights_inv in Hf as (hours & fpl & Hhours & Hfpl & ->).
  apply diet_inv in Hd as (label & diet_key & f & Hlabel & Hkey & Hfd & ->).
  rewrite factor_car in Hfc. rewrite factor_motorcycle in Hfm.
  rewrite factor_bus in Hfb. rewrite factor_plane in Hfpl.
  injection Hfc as <-. injection Hfm as <-. injection Hfb as <-.
  injection Hfpl as <-.
  assert (∃ label, data !! "diet" = Some (VStr label)
                   ∧ diet_factor label = Some f) as Hdiet.
  { exists label. split; [done|]. apply diet_factor_Some. eauto. }
  destruct (data !! "lpg_kg_per_month") as [v|] eqn:Hv.
  - destruct Hlpg as (kg & fl & -> & Hfl & ->).
    rewrite factor_lpg in Hfl. injection Hfl as <-.
    exists g, kwh, (Some kg), car, moto, bus, hours, f.
    split; [|split; reflexivity].
    repeat split; eauto.
  - subst bd1. exists g, kwh, None, car, moto, bus, hours, f.
    split; [|split; reflexivity].
    repeat split; eauto.
Qed.

Lemma mul_float_get (data : gmap string value) (k : string) (x f : Qc) :
  get data k (VNum (lit 0)) = VNum x →
  mul_float (get data k (VNum (lit 0))) f = Ok (x * f).
Proof. by intros ->. Qed.

Lemma mul_float_get_int (data : gmap string value) (k : string) (n : Z)
    (x f : Qc) :
  get data k (VNum (lit 0)) = VNum x →
  mul_float (mul_int (get data k (VNum (lit 0))) n) f
  = Ok (x * lit (inject_Z n) * f).
Proof. by intros ->. Qed.

Lemma calculate_global_run data region
    kwh gas oil propane car bus train hours factor :
  region ≠ "africa" →
  reads_global data kwh gas oil propane car bus train hours factor →
  calculate_carbon_footprint data region
  = Ok (sum (values (global_breakdown_of
                       kwh gas oil propane car bus train hours factor)),
        global_breakdown_of kwh gas oil propane car bus train hours factor).
Proof.
  intros Hregion%String.eqb_neq
    (Hkwh & Hgas & Hoil & Hprop & Hcar & Hbus & Htrain & Hhours
     & label & Hlabel & (diet_key & Hkey & Hf)%diet_factor_Some).
  unfold calculate_carbon_footprint, calculate_carbon_footprint_in,
    housing, transport, flights, diet.
  rewrite Hregion.
  rewrite (getitem_Some _ _ _ Hkwh), (getitem_Some _ _ _ Hhours),
    (getitem_Some _ _ _ Hlabel).
  rewrite (getitem_Some _ _ _ factor_electricity),
    (getitem_Some _ _ _ factor_natural_gas),
    (getitem_Some _ _ _ factor_heating_oil),
    (getitem_Some _ _ _ factor_propane),
    (getitem_Some _ _ _ factor_car), (getitem_Some _ _ _ factor_bus),
    (getitem_Some _ _ _ factor_train), (getitem_Some _ _ _ factor_plane).
  cbn [Py.bind mul_float mul_int getitem_obj].
  rewrite (mul_float_get _ _ _ _ Hgas), (mul_float_get _ _ _ _ Hoil),
    (mul_float_get _ _ _ _ Hprop), (mul_float_get _ _ _ _ Hcar),
    (mul_float_get _ _ _ _ Hbus), (mul_float_get _ _ _ _ Htrain).
  rewrite (getitem_Some _ _ _ Hkey). cbn [Py.bind].
  by rewrite (getitem_Some _ _ _ Hf).
Qed.

Lemma calculate_africa_run data
    grid_factor kwh lpg car moto bus hours factor :
  reads_africa data grid_factor kwh lpg car moto bus hours factor →
  calculate_carbon_footprint data "africa"
  = Ok (sum (values (africa_breakdown_of
                       grid_factor kwh lpg car moto bus hours factor)),
        africa_breakdown_of grid_factor kwh lpg car moto bus hours factor).
Proof.
  intros ((country & Hcountry & Hg) & Hkwh & Hlpg & Hcar & Hmoto & Hbus
          & Hhours & label & Hlabel & (diet_key & Hkey & Hf)%diet_factor_Some).
  unfold calculate_carbon_footprint, calculate_carbon_footprint_in,
    housing, transport, flights, diet.
  change (String.eqb "africa" "africa") with true. cbv iota.
  rewrite (getitem_Some _ _ _ Hcountry), (getitem_Some _ _ _ Hkwh),
    (getitem_Some _ _ _ Hhours), (getitem_Some _ _ _ Hlabel).
  rewrite (getitem_Some _ _ _ factor_lpg),
    (getitem_Some _ _ _ factor_car), (getitem_Some _ _ _ factor_motorcycle),
    (getitem_Some _ _ _ factor_bus), (getitem_Some _ _ _ factor_plane).
  cbn [Py.bind mul_float mul_int getitem_obj].
  rewrite (getitem_Some _ _ _ Hg). cbn [Py.bind].
  rewrite (mul_float_get_int _ _ _ _ _ Hcar),
    (mul_float_get_int _ _ _ _ _ Hmoto), (mul_float_get_int _ _ _ _ _ Hbus).
  rewrite (getitem_Some _ _ _ Hkey). cbn [Py.bind].
  rewrite (getitem_Some _ _ _ Hf). cbn [Py.bind].
  destruct lpg as [kg|]; simpl in Hlpg.
  - assert (contains data "lpg_kg_per_month" = true) as ->
      by (apply contains_true; eauto).
    by rewrite (getitem_Some _ _ _ Hlpg).
  - assert (contains data "lpg_kg_per_month" = false) as ->
      by by apply contains_false.
    done.
Qed.

(** Equations between rational expressions with literals. *)
Ltac qc_ring :=
  apply Qc_is_canon;
  unfold Qcplus, Qcmult, Qcminus, Qcopp, Q2Qc; cbn [this];
  rewrite ?Qred_correct; ring.

Lemma sum_global_breakdown kwh gas oil propane car bus train hours factor :
  sum (values (global_breakdown_of
                 kwh gas oil propane car bus train hours factor))
  = (lit 6 * kwh + lit 24 * gas + lit 32.16 * oil + lit 18 * propane
     + lit 16.12 * car + lit 5.72 * bus + lit 3.12 * train
     + lit 120 * hours + lit 365 * factor)%Qc.
Proof.
  unfold sum, values, global_breakdown_of. cbn [fmap list_fmap snd fold_left].
  qc_ring.
Qed.

Lemma sum_africa_breakdown grid_factor kwh lpg car moto bus hours factor :
  sum (values (africa_breakdown_of
                 grid_factor kwh lpg car moto bus hours factor))
  = (lit 12 * grid_factor * kwh + lit 36 * default (lit 0) lpg
     + lit 16.12 * car + lit 5.72 * moto + lit 5.72 * bus
     + lit 120 * hours + lit 365 * factor)%Qc.
Proof.
  unfold sum, values, africa_breakdown_of.
  destruct lpg as [kg|];
    cbn [fmap list_fmap snd fold_left app from_option id]; qc_ring.
Qed.

(** X1. In every region other than africa, a result of the engine comes
    from a record that holds a number for the electricity and for the
    flight hours, a number or nothing for the six fields with a default
    and a known diet; its breakdown has nine categories, in this order,
    each the quantity times its factor times 12 (housing), times 52
    (transport) or times 500 (flights), and the diet factor times 365. *)
Theorem global_closed_form (data : gmap string value) (region : string)
    (total : Qc) (breakdown : odict) :
  region ≠ "africa" →
  calculate_carbon_footprint data region = Ok (total, breakdown) →
  ∃ kwh gas oil propane car bus train hours factor,
    reads_global data kwh gas oil propane car bus train hours factor
    ∧ breakdown
      = global_breakdown_of kwh gas oil propane car bus train hours factor.
Proof.
  intros Hregion H.
  apply calculate_global_inv in H
    as (kwh & gas & oil & propane & car & bus & train & hours & factor
        & Hreads & -> & _); [|done].
  by exists kwh, gas, oil, propane, car, bus, train, hours, factor.
Qed.

Lemma global_closed_form_witness :
  ∃ kwh gas oil propane car bus train hours factor,
    reads_global global_record kwh gas oil propane car bus train hours factor
    ∧ global_breakdown
      = global_breakdown_of kwh gas oil propane car bus train hours factor.
Proof.
  apply (global_closed_form global_record "global" (lit 2712.5)).
  - discriminate.
  - exact global_run.
Defined.

(** X2. In the africa region, a result of the engine comes from a record
    with a country of the grid table, a number for the electricity and
    for the flight hours, a number or nothing for the LPG and the three
    distances, and a known diet; its breakdown has the africa categories
    in their order, the cooking category present exactly when the LPG
    field is. *)
Theorem africa_closed_form (data : gmap string value)
    (total : Qc) (breakdown : odict) :
  calculate_carbon_footprint data "africa" = Ok (total, breakdown) →
  ∃ grid_factor kwh lpg car moto bus hours factor,
    reads_africa data grid_factor kwh lpg car moto bus hours factor
    ∧ breakdown
      = africa_breakdown_of grid_factor kwh lpg car moto bus hours factor.
Proof.
  intros H.
  apply calculate_africa_inv in H
    as (g & kwh & lpg & car & moto & bus & hours & factor
        & Hreads & -> & _).
  by exists g, kwh, lpg, car, moto, bus, hours, factor.
Qed.

Lemma africa_closed_form_witness :
  ∃ grid_factor kwh lpg car moto bus hours factor,
    reads_africa kenya_record grid_factor kwh lpg car moto bus hours factor
    ∧ kenya_breakdown
      = africa_breakdown_of grid_factor kwh lpg car moto bus hours factor.
Proof.
  exact (africa_closed_form kenya_record (lit 1014) kenya_breakdown kenya_run).
Defined.

(** ** The categories of a result *)


(** X6. The categories of a result are fixed by the region: nine
    categories outside africa; in the africa region seven when the record
    has the LPG field and six, without the cooking category, when it has
    not.  The order is that of the statements of the engine and no
    category occurs twice. *)
Theorem categories_of_result (data : gmap string value) (region : string)
    (total : Qc) (breakdown : odict) :
  calculate_carbon_footprint data region = Ok (total, breakdown) →
  NoDup breakdown.*1
  ∧ (region ≠ "africa" →
     breakdown.*1
     = ["Housing: Electricity"; "Housing: Natural Gas";
        "Housing: Heating Oil"; "Housing: Propane"; "Transport: Car";
        "Transport: Bus"; "Transport: Train"; "Transport: Flights"; "Diet"])
  ∧ (region = "africa" →
     breakdown.*1
     = if contains data "lpg_kg_per_month"
       then ["Housing: Electricity"; "Housing: Cooking (LPG)";
             "Transport: Car"; "Transport: Motorcycle";
             "Transport: Bus/Minibus"; "Transport: Flights"; "Diet"]
       else ["Housing: Electricity"; "Transport: Car";
             "Transport: Motorcycle"; "Transport: Bus/Minibus";
             "Transport: Flights"; "Diet"]).
Proof.
  intros H. destruct (decide (region = "africa")) as [->|Hregion].
  - apply calculate_africa_inv in H
      as (g & kwh & lpg & car & moto & bus & hours & f
          & (_ & _ & Hlpg & _) & -> & _).
    assert (contains data "lpg_kg_per_month" = bool_decide (is_Some lpg))
      as ->.
    { unfold contains. apply bool_decide_ext. rewrite Hlpg.
      by rewrite fmap_is_Some. }
    destruct lpg as [kg|]; (split; [|split; [done|intros _; reflexivity]]);
      apply (bool_decide_unpack _); vm_compute; exact I.
  - apply calculate_global_inv in H
      as (kwh & gas & oil & propane & car & bus & train & hours & f
          & _ & -> & _); [|done].
    split; [|split; [intros _; reflexivity|done]].
    apply (bool_decide_unpack _). vm_compute. exact I.
Qed.

Lemma categories_of_result_witness :
  NoDup kenya_breakdown.*1
  ∧ ("africa" ≠ "africa" →
     kenya_breakdown.*1
     = ["Housing: Electricity"; "Housing: Natural Gas";
        "Housing: Heating Oil"; "Housing: Propane"; "Transport: Car";
        "Transport: Bus"; "Transport: Train"; "Transport: Flights"; "Diet"])
  ∧ ("africa" = "africa" →
     kenya_breakdown.*1
     = if contains kenya_record "lpg_kg_per_month"
       then ["Housing: Electricity"; "Housing: Cooking (LPG)";
             "Transport: Car"; "Transport: Motorcycle";
             "Transport: Bus/Minibus"; "Transport: Flights"; "Diet"]
       else ["Housing: Electricity"; "Transport: Car";
             "Transport: Motorcycle"; "Transport: Bus/Minibus";
             "Transport: Flights"; "Diet"]).
Proof.
  exact (categories_of_result kenya_record "africa" _ _ kenya_run).
Defined.

(** ** Regions and fields *)

(** X7. The engine knows one special region name: every other [region]
    argument, "global" as well as a misspelt or capitalised name such as
    "Africa", is computed as the global region. *)
Theorem other_region_is_global (data : gmap string value) (region : string) :
  region ≠ "africa" →
  calculate_carbon_footprint data region
  = calculate_carbon_footprint data "global".
Proof.
  intros Hregion%String.eqb_neq.
  unfold calculate_carbon_footprint, calculate_carbon_footprint_in,
    housing, transport.
  rewrite Hregion. reflexivity.
Qed.

Lemma other_region_is_global_witness :
  calculate_carbon_footprint kenya_record "Africa"
  = calculate_carbon_footprint kenya_record "global".
Proof.
  apply (other_region_is_global kenya_record "Africa"). discriminate.
Defined.

Lemma getitem_agree {V} (d d' : gmap string V) (k : string) :
  d !! k = d' !! k → getitem d k = getitem d' k.
Proof. unfold getitem. by intros ->. Qed.

Lemma get_agree {V} (d d' : gmap string V) (k : string) (dflt : V) :
  d !! k = d' !! k → get d k dflt = get d' k dflt.
Proof. unfold get. by intros ->. Qed.

Lemma contains_agree {V} (d d' : gmap string V) (k : string) :
  d !! k = d' !! k → contains d k = contains d' k.
Proof. unfold contains. by intros ->. Qed.

(** Membership in a list of field names given by its elements. *)
Ltac field_in_list := repeat (apply elem_of_cons; first [by left | right]).

(** X8. The outcome of the engine, result or exception, depends on nothing
    but the fields of its region: two records with the same entries in
    the eight fields of the africa region have the same outcome there, and
    two records with the same entries in the nine fields of the global
    region have the same outcome in every other region.  In particular
    the country is never read outside africa, and the africa region reads
    no miles, gas, oil or propane. *)
Theorem outcome_depends_on_region_fields (data data' : gmap string value)
    (region : string) :
  (∀ field,
     field ∈ (if String.eqb region "africa"
              then africa_fields else global_fields) →
     data !! field = data' !! field) →
  calculate_carbon_footprint data region
  = calculate_carbon_footprint data' region.
Proof.
  intros Hagree.
  unfold calculate_carbon_footprint, calculate_carbon_footprint_in,
    housing, transport, flights, diet.
  destruct (String.eqb region "africa").
  - rewrite (getitem_agree data data' "country"),
      !(getitem_agree data data' "electricity_kwh"),
      !(getitem_agree data data' "lpg_kg_per_month"),
      (contains_agree data data' "lpg_kg_per_month"),
      (get_agree data data' "car_km_week"),
      (get_agree data data' "moto_km_week"),
      (get_agree data data' "bus_km_week"),
      (getitem_agree data data' "flight_hours"),
      (getitem_agree data data' "diet");
      first [reflexivity | apply Hagree; unfold africa_fields; field_in_list].
  - rewrite !(getitem_agree data data' "electricity_kwh"),
      (get_agree data data' "natural_gas_therms"),
      (get_agree data data' "heating_oil_liters"),
      (get_agree data data' "propane_liters"),
      (get_agree data data' "car_miles_week"),
      (get_agree data data' "bus_miles_week"),
      (get_agree data data' "train_miles_week"),
      (getitem_agree data data' "flight_hours"),
      (getitem_agree data data' "diet");
      first [reflexivity | apply Hagree; unfold global_fields; field_in_list].
Qed.

Lemma outcome_depends_on_region_fields_witness :
  calculate_carbon_footprint global_record "global"
  = calculate_carbon_footprint
      (<["country" := VStr "Select Country"]> global_record) "global".
Proof.
  apply (outcome_depends_on_region_fields global_record
           (<["country" := VStr "Select Country"]> global_record) "global").
  intros field Hfield. change (field ∈ global_fields) in Hfield.
  symmetry. apply lookup_insert_ne. intros <-.
  unfold global_fields in Hfield. rewrite !elem_of_cons, elem_of_nil in Hfield.
  destruct Hfield as [?|[?|[?|[?|[?|[?|[?|[?|[?|[]]]]]]]]]]; discriminate.
Defined.

(** ** Exceptions *)

(** X9. In the africa region a country that is not a key of the grid
    table makes the engine raise [KeyError] on that very country, in
    the first statement, whatever the other fields hold. *)
Theorem unknown_country_raises (data : gmap string value) (country : string) :
  data !! "country" = Some (VStr country) →
  COUNTRY_GRID_MIX !! country = None →
  calculate_carbon_footprint data "africa"
  = Raise (KeyError (VStr country)).
Proof.
  intros Hcountry Hgrid.
  unfold calculate_carbon_footprint, calculate_carbon_footprint_in, housing.
  change (String.eqb "africa" "africa") with true. cbv iota.
  rewrite (getitem_Some _ _ _ Hcountry). cbn [Py.bind getitem_obj].
  unfold getitem at 1. by rewrite Hgrid.
Qed.

Lemma unknown_country_raises_witness :
  calculate_carbon_footprint
    (<["country" := VStr "Kenya"]> kenya_record) "africa"
  = Raise (KeyError (VStr "Kenya")).
Proof.
  apply (unknown_country_raises
           (<["country" := VStr "Kenya"]> kenya_record) "Kenya");
    reflexivity.
Defined.

Lemma get_insert_eq {V} (d : gmap string V) (field : string) (v dflt : V) :
  get (<[field := v]> d) field dflt = v.
Proof. unfold get. by rewrite lookup_insert_eq. Qed.

Lemma contains_insert_eq {V} (d : gmap string V) (field : string) (v : V) :
  contains (<[field := v]> d) field = true.
Proof. apply contains_true. rewrite lookup_insert_eq. eauto. Qed.

(** Reading a record with one field overwritten. *)
Ltac read_overwritten H :=
  rewrite ?getitem_insert_eq, ?get_insert_eq, ?contains_insert_eq in H |- *;
  rewrite ?getitem_insert_ne, ?get_insert_ne, ?contains_insert_ne
    in H |- * by done.

(** The run of [H] returns; the run of the goal evaluates the same
    expressions until it raises. *)
Ltac run_until_raise H :=
  cbn [Py.bind mul_float mul_int getitem_obj] in H |- *;
  first
    [ reflexivity
    | match type of H with
      | context [Py.bind ?m _] =>
          lazymatch m with
          | Py.bind _ _ => fail
          | Ok _ => fail
          | Raise _ => fail
          | _ => destruct m; [|discriminate H]
          end
      | context [if ?b then _ else _] => destruct b
      end ].

(** X10. A string in a numeric field.  If the engine returns a result on
    a record with a number in one of the numeric fields of the region,
    then on the same record with a string in that field it raises
    [TypeError]: the string reaches the multiplication by the factor. *)
Theorem string_quantity_raises (data : gmap string value)
    (region field s : string) (x : Qc) (r : Qc * odict) :
  field ∈ (if String.eqb region "africa"
           then africa_numeric_fields else global_numeric_fields) →
  calculate_carbon_footprint (<[field := VNum x]> data) region = Ok r →
  calculate_carbon_footprint (<[field := VStr s]> data) region
  = Raise TypeError.
Proof.
  unfold calculate_carbon_footprint, calculate_carbon_footprint_in,
    housing, transport, flights, diet.
  destruct (String.eqb region "africa"); intros Hfield H.
  - unfold africa_numeric_fields in Hfield.
    repeat (apply elem_of_cons in Hfield as [->|Hfield];
            [read_overwritten H; repeat run_until_raise H|]).
    by apply elem_of_nil in Hfield.
  - unfold global_numeric_fields in Hfield.
    repeat (apply elem_of_cons in Hfield as [->|Hfield];
            [read_overwritten H; repeat run_until_raise H|]).
    by apply elem_of_nil in Hfield.
Qed.

Lemma string_quantity_raises_witness :
  calculate_carbon_footprint
    (<["electricity_kwh" := VStr "a lot"]> global_record) "global"
  = Raise TypeError.
Proof.
  apply (string_quantity_raises global_record "global" "electricity_kwh"
           "a lot" (lit 300) (lit 2712.5, global_breakdown)).
  - unfold global_numeric_fields. simpl. field_in_list.
  - by_running.
Defined.

Lemma getitem_delete_eq {V} (d : gmap string V) (field : string) :
  getitem (delete field d) field = Raise (KeyError (VStr field)).
Proof. unfold getitem. by rewrite lookup_delete_eq. Qed.

Lemma getitem_delete_ne {V} (d : gmap string V) (field k : string) :
  field ≠ k → getitem (delete field d) k = getitem d k.
Proof. intros Hne. unfold getitem. by rewrite lookup_delete_ne. Qed.

Lemma get_delete_ne {V} (d : gmap string V) (field k : string) (dflt : V) :
  field ≠ k → get (delete field d) k dflt = get d k dflt.
Proof. intros Hne. unfold get. by rewrite lookup_delete_ne. Qed.

Lemma contains_delete_ne {V} (d : gmap string V) (field k : string) :
  field ≠ k → contains (delete field d) k = contains d k.
Proof. intros Hne. unfold contains. by rewrite lookup_delete_ne. Qed.

(** Reading a record with one field removed. *)
Ltac read_removed H :=
  rewrite ?getitem_delete_eq;
  rewrite ?getitem_delete_ne, ?get_delete_ne, ?contains_delete_ne by done.

(** X11. A missing required field.  If the engine returns a result on a
    record, then on the same record without one of the fields it reads by
    subscript (the electricity, the flight hours, the diet and, in the
    africa region, the country) it raises [KeyError] on the name of that
    field. *)
Theorem missing_field_raises (data : gmap string value)
    (region field : string) (r : Qc * odict) :
  field ∈ (if String.eqb region "africa"
           then africa_subscripted_fields else global_subscripted_fields) →
  calculate_carbon_footprint data region = Ok r →
  calculate_carbon_footprint (delete field data) region
  = Raise (KeyError (VStr field)).
Proof.
  unfold calculate_carbon_footprint, calculate_carbon_footprint_in,
    housing, transport, flights, diet.
  destruct (String.eqb region "africa"); intros Hfield H.
  - unfold africa_subscripted_fields in Hfield.
    repeat (apply elem_of_cons in Hfield as [->|Hfield];
            [read_removed H; repeat run_until_raise H|]).
    by apply elem_of_nil in Hfield.
  - unfold global_subscripted_fields in Hfield.
    repeat (apply elem_of_cons in Hfield as [->|Hfield];
            [read_removed H; repeat run_until_raise H|]).
    by apply elem_of_nil in Hfield.
Qed.

Lemma missing_field_raises_witness :
  calculate_carbon_footprint (delete "flight_hours" kenya_record) "africa"
  = Raise (KeyError (VStr "flight_hours")).
Proof.
  apply (missing_field_raises kenya_record "africa" "flight_hours"
           (lit 1014, kenya_breakdown)).
  - unfold africa_subscripted_fields. simpl. field_in_list.
  - exact kenya_run.
Defined.

(** ** The reduction plan of an engine result *)

(** The rule on the diet needs a diet category above 2000; without it the
    rules emit up to three recommendations and the plan is [plan_of]. *)
Lemma plan_without_diet_rule (breakdown : odict) (region : string)
    (input_data : gmap string value) :
  (category "Diet" breakdown ≤ lit 2000)%Qc →
  recommendations breakdown region input_data
  = Ok (plan_of breakdown region).
Proof.
  intros Hdiet. unfold recommendations, emitted_recommendations, plan_of.
  fold (category "Diet" breakdown). fold (category "Transport: Car" breakdown).
  fold (category "Housing: Electricity" breakdown).
  fold (category "Housing: Cooking (LPG)" breakdown).
  rewrite (bool_decide_eq_false_2 (lit 2000 < category "Diet" breakdown)%Qc)
    by by apply Qcle_not_lt.
  destruct (bool_decide (lit 2000 < category "Transport: Car" breakdown)%Qc),
    (bool_decide (lit 1500 < category "Housing: Electricity" breakdown)%Qc),
    (String.eqb (lower region) "africa"
     && bool_decide
          (lit 500 < category "Housing: Cooking (LPG)" breakdown)%Qc);
    reflexivity.
Qed.

Lemma diet_category_bounds GRID data region total breakdown :
  calculate_carbon_footprint_in GRID GLOBAL_EMISSION_FACTORS data region
    = Ok (total, breakdown) →
  (lit 438 ≤ category "Diet" breakdown)%Qc
  ∧ (category "Diet" breakdown ≤ lit 1204.5)%Qc.
Proof.
  intros H.
  apply calculate_inv in H as (bd1 & bd2 & bd3 & _ & _ & _ & Hd & _).
  apply diet_inv in Hd as (label & diet_key & f & _ & Hkey & Hf & ->).
  destruct (diet_factor_known _ _ Hkey) as (f' & Hf' & Hlo & Hhi).
  simplify_eq. unfold category. rewrite lookup_setitem_eq. simpl.
  split.
  - assert (lit 438 = lit 1.2 * lit 365)%Qc as ->
      by (apply Qc_is_canon; reflexivity).
    by apply Qcmult_le_compat_r.
  - assert (lit 1204.5 = lit 3.3 * lit 365)%Qc as ->
      by (apply Qc_is_canon; reflexivity).
    by apply Qcmult_le_compat_r.
Qed.

(** X12. On the breakdown of an engine result the diet category lies
    between 438 and 1204.5, below the threshold 2000 of the rule on the
    diet: the recommendation to eat less meat is never emitted, the rules
    raise no exception whatever the record they are given, and the plan
    is made of the electricity, car and cooking recommendations whose
    thresholds are exceeded, in this order. *)
Theorem plan_of_engine_result (data : gmap string value) (region : string)
    (total : Qc) (breakdown : odict) :
  calculate_carbon_footprint data region = Ok (total, breakdown) →
  (lit 438 ≤ category "Diet" breakdown)%Qc
  ∧ (category "Diet" breakdown ≤ lit 1204.5)%Qc
  ∧ ∀ label input_data,
      recommendations breakdown label input_data
      = Ok (plan_of breakdown label).
Proof.
  intros H. destruct (diet_category_bounds _ _ _ _ _ H) as [Hlo Hhi].
  split; [done|]. split; [done|].
  intros label input_data. apply plan_without_diet_rule.
  by etransitivity.
Qed.

Lemma plan_of_engine_result_witness :
  (lit 438 ≤ category "Diet" kenya_breakdown)%Qc
  ∧ (category "Diet" kenya_breakdown ≤ lit 1204.5)%Qc
  ∧ ∀ label input_data,
      recommendations kenya_breakdown label input_data
      = Ok (plan_of kenya_breakdown label).
Proof.
  exact (plan_of_engine_result kenya_record "africa" _ _ kenya_run).
Defined.

Lemma on_calculate_unfold (calculate_button : bool) (region : string)
    (input_data : gmap string value) :
  on_calculate calculate_button region input_data
  = if calculate_button && valid_input region input_data then
      Some match calculate_carbon_footprint input_data (lower region) with
           | Ok (total, breakdown) =>
               Ok (total, breakdown, plan_of breakdown region)
           | Raise e => Raise e
           end
    else None.
Proof.
  unfold on_calculate.
  destruct (calculate_button && valid_input region input_data); [|done].
  destruct (calculate_carbon_footprint input_data (lower region))
    as [[t bd]|e] eqn:H; [|done].
  cbn [Py.bind fst snd].
  destruct (diet_category_bounds _ _ _ _ _ H) as [_ Hhi].
  rewrite plan_without_diet_rule; [done|]. by etransitivity.
Qed.

(** X13. One run of the script below the button.  Pressed with an open
    guard, it shows the outcome of the engine: the exception of the
    engine, or its total and breakdown with the plan of the thresholds;
    the recommendation step adds no exception of its own.  Otherwise it
    shows nothing. *)
Theorem script_outcome (calculate_button : bool) (region : string)
    (input_data : gmap string value) :
  on_calculate calculate_button region input_data
  = if calculate_button && valid_input region input_data then
      Some match calculate_carbon_footprint input_data (lower region) with
           | Ok (total, breakdown) =>
               Ok (total, breakdown, plan_of breakdown region)
           | Raise e => Raise e
           end
    else None.
Proof. apply on_calculate_unfold. Qed.

Lemma on_calculate_inv b region input_data total breakdown plan :
  on_calculate b region input_data = Some (Ok (total, breakdown, plan)) →
  calculate_carbon_footprint input_data (lower region)
  = Ok (total, breakdown)
  ∧ plan = plan_of breakdown region.
Proof.
  unfold on_calculate.
  destruct (b && valid_input region input_data); [|done].
  destruct (calculate_carbon_footprint input_data (lower region))
    as [[t bd]|e] eqn:H; [|done].
  cbn [Py.bind fst snd].
  destruct (diet_category_bounds _ _ _ _ _ H) as [_ Hhi].
  rewrite plan_without_diet_rule by by etransitivity.
  intros Heq. injection Heq as -> -> <-. by split.
Qed.

(** Thresholds on categories as thresholds on quantities. *)
Lemma scaled_threshold (x a b c : Qc) :
  (0 < a)%Qc → (c * a = b)%Qc → (b < x * a)%Qc ↔ (c < x)%Qc.
Proof.
  intros Ha <-. symmetry. by apply Qcmult_lt_mono_pos_r.
Qed.

Lemma electricity_threshold (kwh : Qc) :
  (lit 1500 < kwh * lit 0.5 * lit 12)%Qc ↔ (lit 250 < kwh)%Qc.
Proof.
  assert (kwh * lit 0.5 * lit 12 = kwh * lit 6)%Qc as -> by qc_ring.
  apply scaled_threshold; [done|]. apply Qc_is_canon. reflexivity.
Qed.

Lemma grid_electricity_threshold (kwh g : Qc) :
  (lit 1500 < kwh * g * lit 12)%Qc ↔ (lit 125 < kwh * g)%Qc.
Proof.
  apply scaled_threshold; [done|]. apply Qc_is_canon. reflexivity.
Qed.

Lemma car_miles_threshold (car : Qc) :
  (lit 2000 < car * lit 0.31 * lit 52)%Qc ↔ (lit (50000 # 403) < car)%Qc.
Proof.
  assert (car * lit 0.31 * lit 52 = car * lit 16.12)%Qc as -> by qc_ring.
  apply scaled_threshold; [done|]. apply Qc_is_canon. reflexivity.
Qed.

Lemma car_km_threshold (car : Qc) :
  (lit 2000 < car * lit 52 * lit 0.31)%Qc ↔ (lit (50000 # 403) < car)%Qc.
Proof.
  assert (car * lit 52 * lit 0.31 = car * lit 16.12)%Qc as -> by qc_ring.
  apply scaled_threshold; [done|]. apply Qc_is_canon. reflexivity.
Qed.

Lemma lpg_threshold (kg : Qc) :
  (lit 500 < kg * lit 3.0 * lit 12)%Qc ↔ (lit (125 # 9) < kg)%Qc.
Proof.
  assert (kg * lit 3.0 * lit 12 = kg * lit 36)%Qc as -> by qc_ring.
  apply scaled_threshold; [done|]. apply Qc_is_canon. reflexivity.
Qed.

(** Deciding the membership of a recommendation in a plan from the
    thresholds. *)
Ltac plan_membership :=
  intros;
  unfold electricity_recommendation, car_recommendation,
    cooking_recommendation in *;
  rewrite ?elem_of_cons, ?elem_of_nil in *;
  intuition (first [discriminate | congruence | eauto]).

(** X14. A run of the script in the Global region that shows a result:
    the plan recommends efficient appliances exactly when the monthly
    electricity use is above 250 kWh, and less car travel exactly when the
    weekly distance by car is above 50000/403 miles (about 124); it never
    recommends anything else. *)
Theorem global_plan_thresholds (input_data : gmap string value)
    (total : Qc) (breakdown : odict) (plan : list (string * Z)) :
  on_calculate true "Global" input_data
    = Some (Ok (total, breakdown, plan)) →
  ∃ kwh car,
    input_data !! "electricity_kwh" = Some (VNum kwh)
    ∧ get input_data "car_miles_week" (VNum (lit 0)) = VNum car
    ∧ (electricity_recommendation ∈ plan ↔ (lit 250 < kwh)%Qc)
    ∧ (car_recommendation ∈ plan ↔ (lit (50000 # 403) < car)%Qc)
    ∧ ∀ r, r ∈ plan →
        r = electricity_recommendation ∨ r = car_recommendation.
Proof.
  intros [H ->]%on_calculate_inv.
  change (lower "Global") with "global" in H.
  apply calculate_global_inv in H
    as (kwh & gas & oil & propane & car & bus & train & hours & f
        & (Hkwh & _ & _ & _ & Hcar & _) & -> & _); [|done].
  exists kwh, car. split; [done|]. split; [done|].
  unfold plan_of. change (String.eqb (lower "Global") "africa") with false.
  cbn [andb].
  change (category "Housing: Electricity" (global_breakdown_of _ _ _ _ _ _ _ _ _))
    with (kwh * lit 0.5 * lit 12)%Qc.
  change (category "Transport: Car" (global_breakdown_of _ _ _ _ _ _ _ _ _))
    with (car * lit 0.31 * lit 52)%Qc.
  rewrite <-electricity_threshold, <-car_miles_threshold.
  destruct (bool_decide (lit 1500 < kwh * lit 0.5 * lit 12)%Qc) eqn:He;
    [apply bool_decide_eq_true in He|apply bool_decide_eq_false in He];
    (destruct (bool_decide (lit 2000 < car * lit 0.31 * lit 52)%Qc) eqn:Hc;
     [apply bool_decide_eq_true in Hc|apply bool_decide_eq_false in Hc]);
    cbn [app]; (split; [|split]); plan_membership.
Qed.

Lemma global_script_run :
  on_calculate true "Global" global_record
  = Some (Ok (lit 2712.5, global_breakdown, [electricity_recommendation])).
Proof. by_running. Qed.

Lemma global_plan_thresholds_witness :
  ∃ kwh car,
    global_record !! "electricity_kwh" = Some (VNum kwh)
    ∧ get global_record "car_miles_week" (VNum (lit 0)) = VNum car
    ∧ (electricity_recommendation ∈ [electricity_recommendation]
       ↔ (lit 250 < kwh)%Qc)
    ∧ (car_recommendation ∈ [electricity_recommendation]
       ↔ (lit (50000 # 403) < car)%Qc)
    ∧ ∀ r, r ∈ [electricity_recommendation] →
        r = electricity_recommendation ∨ r = car_recommendation.
Proof.
  exact (global_plan_thresholds global_record _ _ _ global_script_run).
Defined.

(** X15. A run of the script in the Africa region that shows a result:
    the plan recommends efficient appliances exactly when the monthly kWh
    times the grid factor of the country is above 125, less car travel
    exactly when the weekly distance by car is above 50000/403 km, and a
    more efficient way of cooking exactly when the record has an LPG use
    above 125/9 kg a month (about 13.9); it never recommends anything
    else. *)
Theorem africa_plan_thresholds (input_data : gmap string value)
    (total : Qc) (breakdown : odict) (plan : list (string * Z)) :
  on_calculate true "Africa" input_data
    = Some (Ok (total, breakdown, plan)) →
  ∃ country grid_factor kwh car,
    input_data !! "country" = Some (VStr country)
    ∧ COUNTRY_GRID_MIX !! country = Some grid_factor
    ∧ input_data !! "electricity_kwh" = Some (VNum kwh)
    ∧ get input_data "car_km_week" (VNum (lit 0)) = VNum car
    ∧ (electricity_recommendation ∈ plan
       ↔ (lit 125 < kwh * grid_factor)%Qc)
    ∧ (car_recommendation ∈ plan ↔ (lit (50000 # 403) < car)%Qc)
    ∧ (cooking_recommendation ∈ plan
       ↔ ∃ kg, input_data !! "lpg_kg_per_month" = Some (VNum kg)
           ∧ (lit (125 # 9) < kg)%Qc)
    ∧ ∀ r, r ∈ plan →
        r = electricity_recommendation ∨ r = car_recommendation
        ∨ r = cooking_recommendation.
Proof.
  intros [H ->]%on_calculate_inv.
  change (lower "Africa") with "africa" in H.
  apply calculate_africa_inv in H
    as (g & kwh & lpg & car & moto & bus & hours & f
        & ((country & Hcountry & Hg) & Hkwh & Hlpg & Hcar & _) & -> & _).
  exists country, g, kwh, car. do 4 (split; [done|]).
  unfold plan_of. change (String.eqb (lower "Africa") "africa") with true.
  cbn [andb].
  change (category "Housing: Electricity" (africa_breakdown_of _ _ _ _ _ _ _ _))
    with (kwh * g * lit 12)%Qc.
  rewrite Hlpg, <-grid_electricity_threshold, <-car_km_threshold.
  assert ((∃ kg, VNum <$> lpg = Some (VNum kg) ∧ (lit (125 # 9) < kg)%Qc)
          ↔ (lit 500 < category "Housing: Cooking (LPG)"
                         (africa_breakdown_of g kwh lpg car moto bus hours f))
            %Qc) as ->.
  { destruct lpg as [kg|]; simpl.
    - change (category "Housing: Cooking (LPG)"
                (africa_breakdown_of _ _ _ _ _ _ _ _))
        with (kg * lit 3.0 * lit 12)%Qc.
      rewrite lpg_threshold. split; [by intros (? & [= <-] & ?)|eauto].
    - change (category "Housing: Cooking (LPG)"
                (africa_breakdown_of _ _ _ _ _ _ _ _)) with (lit 0).
      split; [by intros (? & ? & ?)|done]. }
  assert (category "Transport: Car"
            (africa_breakdown_of g kwh lpg car moto bus hours f)
          = car * lit 52 * lit 0.31)%Qc as -> by by destruct lpg.
  destruct (bool_decide (lit 1500 < kwh * g * lit 12)%Qc) eqn:He;
    [apply bool_decide_eq_true in He|apply bool_decide_eq_false in He];
    (destruct (bool_decide (lit 2000 < car * lit 52 * lit 0.31)%Qc) eqn:Hc;
     [apply bool_decide_eq_true in Hc|apply bool_decide_eq_false in Hc]);
    (destruct (bool_decide
                 (lit 500 < category "Housing: Cooking (LPG)"
                    (africa_breakdown_of g kwh lpg car moto bus hours f))%Qc)
       eqn:Hl;
     [apply bool_decide_eq_true in Hl|apply bool_decide_eq_false in Hl]);
    cbn [app]; (split; [|split; [|split]]); plan_membership.
Qed.

Lemma kenya_script_run :
  on_calculate true "Africa" kenya_record
  = Some (Ok (lit 1014, kenya_breakdown, [])).
Proof. by_running. Qed.

Lemma africa_plan_thresholds_witness :
  ∃ country grid_factor kwh car,
    kenya_record !! "country" = Some (VStr country)
    ∧ COUNTRY_GRID_MIX !! country = Some grid_factor
    ∧ kenya_record !! "electricity_kwh" = Some (VNum kwh)
    ∧ get kenya_record "car_km_week" (VNum (lit 0)) = VNum car
    ∧ (electricity_recommendation ∈ @nil (string * Z)
       ↔ (lit 125 < kwh * grid_factor)%Qc)
    ∧ (car_recommendation ∈ @nil (string * Z)
       ↔ (lit (50000 # 403) < car)%Qc)
    ∧ (cooking_recommendation ∈ @nil (string * Z)
       ↔ ∃ kg, kenya_record !! "lpg_kg_per_month" = Some (VNum kg)
           ∧ (lit (125 # 9) < kg)%Qc)
    ∧ ∀ r, r ∈ @nil (string * Z) →
        r = electricity_recommendation ∨ r = car_recommendation
        ∨ r = cooking_recommendation.
Proof.
  exact (africa_plan_thresholds kenya_record _ _ _ kenya_script_run).
Defined.

(** ** The sort of the plan *)

Lemma filter_savings_head (x : string * Z) (l : list (string * Z)) :
  filter (λ r, r.2 = x.2) (x :: l) = x :: filter (λ r, r.2 = x.2) l.
Proof. by rewrite filter_cons_True. Qed.

Lemma sorted_head_max (x y : string * Z) (l : list (string * Z)) :
  StronglySorted desc (y :: l) → x ∈ y :: l → (x.2 ≤ y.2)%Z.
Proof.
  intros Hs [->|Hx]%elem_of_cons; [done|].
  apply StronglySorted_inv in Hs as [_ Hall].
  rewrite Forall_forall in Hall. by apply Hall.
Qed.

Lemma stable_sorted_unique (l1 l2 : list (string * Z)) :
  StronglySorted desc l1 → StronglySorted desc l2 →
  (∀ s, filter (λ r, r.2 = s) l1 = filter (λ r, r.2 = s) l2) →
  l1 = l2.
Proof.
  revert l2. induction l1 as [|x t1 IH]; intros [|y t2] H1 H2 Hf.
  - done.
  - specialize (Hf y.2). by rewrite filter_savings_head in Hf.
  - specialize (Hf x.2). by rewrite filter_savings_head in Hf.
  - assert (x ∈ y :: t2) as Hx.
    { pose proof (Hf x.2) as Hfx. rewrite filter_savings_head in Hfx.
      assert (x ∈ filter (λ r, r.2 = x.2) (y :: t2)) as Hin
        by (rewrite <-Hfx; apply elem_of_cons; by left).
      by apply list_elem_of_filter in Hin as [_ ?]. }
    assert (y ∈ x :: t1) as Hy.
    { pose proof (Hf y.2) as Hfy. rewrite (filter_savings_head y) in Hfy.
      assert (y ∈ filter (λ r, r.2 = y.2) (x :: t1)) as Hin
        by (rewrite Hfy; apply elem_of_cons; by left).
      by apply list_elem_of_filter in Hin as [_ ?]. }
    apply (sorted_head_max _ _ _ H2) in Hx.
    apply (sorted_head_max _ _ _ H1) in Hy.
    assert (x.2 = y.2) as Hxy by lia.
    pose proof (Hf x.2) as Hfx.
    rewrite filter_savings_head, Hxy, filter_savings_head in Hfx.
    injection Hfx as <- Hfx.
    f_equal. apply IH.
    + by apply StronglySorted_inv in H1 as [? _].
    + by apply StronglySorted_inv in H2 as [? _].
    + intros s. destruct (decide (x.2 = s)) as [<-|Hne]; [done|].
      specialize (Hf s). by rewrite !filter_cons_False in Hf.
Qed.

(** X16. The plan is the only arrangement of the emitted recommendations
    that is sorted by descending savings and keeps the emitted order among
    equal savings: every stable descending sort of the emitted list,
    Python's included, returns this list. *)
Theorem stable_sort_is_unique (emitted plan : list (string * Z)) :
  StronglySorted (λ a b, (b.2 ≤ a.2)%Z) plan →
  (∀ savings,
     filter (λ r, r.2 = savings) plan = filter (λ r, r.2 = savings) emitted) →
  plan = sort_desc emitted.
Proof.
  intros Hsorted Hstable. apply stable_sorted_unique.
  - done.
  - apply sort_desc_sorted.
  - intros s. by rewrite Hstable, sort_desc_stable.
Qed.

Lemma stable_sort_is_unique_witness : heavy_plan = sort_desc heavy_emitted.
Proof.
  apply (stable_sort_is_unique heavy_emitted heavy_plan).
  - repeat constructor. simpl. lia.
  - intros savings. unfold heavy_plan, heavy_emitted.
    rewrite !filter_cons, filter_nil. simpl.
    repeat case_decide; try done; lia.
Defined.

(** ** The comparison with an average *)

Lemma difference_in_tons_nonneg (average total : Qc) :
  (0 ≤ (average - total) / lit 1000)%Qc ↔ (total ≤ average)%Qc.
Proof.
  unfold Qcdiv. rewrite (Qcle_minus_iff total average).
  rewrite (Qcmult_le_mono_pos_r 0 (average - total) (/ lit 1000))%Qc by done.
  by rewrite Qcmult_0_l.
Qed.

(** X17. The third metric of the results.  In the Africa region the
    footprint is compared with the African average of 1000 kg when it is
    below 3000 kg and with the global average of 4800 kg otherwise, so the
    displayed difference is non-negative (at or below the average) exactly
    for a footprint of at most 1000 kg or between 3000 and 4800 kg.  In
    the Global region it is compared with 16000 kg and the difference is
    non-negative exactly up to 16000 kg. *)
Theorem comparison_sign (total_emissions : Qc) :
  ((comparison "Africa" total_emissions).1 = "Vs. African Avg"
   ↔ (total_emissions < lit 3000)%Qc)
  ∧ ((comparison "Africa" total_emissions).1 = "Vs. Global Avg"
     ↔ (lit 3000 ≤ total_emissions)%Qc)
  ∧ ((0 ≤ (comparison "Africa" total_emissions).2)%Qc
     ↔ (total_emissions ≤ lit 1000)%Qc
       ∨ (lit 3000 ≤ total_emissions)%Qc
         ∧ (total_emissions ≤ lit 4800)%Qc)
  ∧ (comparison "Global" total_emissions).1 = "Vs. US Average"
  ∧ ((0 ≤ (comparison "Global" total_emissions).2)%Qc
     ↔ (total_emissions ≤ lit 16000)%Qc).
Proof.
  unfold comparison.
  change (String.eqb (lower "Africa") "africa") with true.
  change (String.eqb (lower "Global") "africa") with false.
  cbv iota zeta.
  destruct (bool_decide (total_emissions < lit 3000)%Qc) eqn:E;
    [apply bool_decide_eq_true in E|apply bool_decide_eq_false in E];
    cbn [fst snd]; rewrite !difference_in_tons_nonneg.
  - split; [done|]. split; [|split; [|done]].
    + split; [discriminate|]. intros H. by apply Qcle_not_lt in H.
    + split; [by left|]. intros [?|[H _]]; [done|].
      by apply Qcle_not_lt in H.
  - apply Qcnot_lt_le in E. split; [|split; [done|split; [|done]]].
    + split; [discriminate|]. intros H. by apply Qclt_not_le in H.
    + split; [by right|]. intros [H1|[_ ?]]; [|done].
      exfalso. by apply (Qcle_not_lt _ _ (Qcle_trans _ _ _ E H1)).
Qed.

(** ** The forms of the script *)

Lemma lit_inject_Z_le (n m : Z) :
  (n ≤ m)%Z → (lit (inject_Z n) ≤ lit (inject_Z m))%Qc.
Proof.
  intros Hnm. unfold Qcle. simpl this. rewrite !Qred_correct.
  by rewrite <-Zle_Qle.
Qed.

Lemma Qcmult_le_compat_nonneg (a a' b b' : Qc) :
  (0 ≤ a)%Qc → (a ≤ a')%Qc → (0 ≤ b)%Qc → (b ≤ b')%Qc →
  (a * b ≤ a' * b')%Qc.
Proof.
  intros Ha Haa Hb Hbb. transitivity (a' * b)%Qc.
  - by apply Qcmult_le_compat_r.
  - apply Qcmult_le_mono_nonneg_l; [by transitivity a|done].
Qed.

(** Every country of the select box has a grid factor, at most that of
    the coal-dominated grid. *)
Lemma country_option_factor (country : string) :
  country ∈ country_options →
  ∃ g, COUNTRY_GRID_MIX !! country = Some g
    ∧ (0 ≤ g)%Qc ∧ (g ≤ lit 0.9)%Qc.
Proof.
  intros H. unfold country_options in H.
  repeat (apply elem_of_cons in H as [->|H];
          [eexists; split; [reflexivity|split; done]|]).
  by apply elem_of_nil in H.
Qed.

Lemma africa_diet_factor (label : string) :
  label ∈ africa_diets →
  ∃ f, diet_factor label = Some f ∧ (lit 1.2 ≤ f)%Qc ∧ (f ≤ lit 2.7)%Qc.
Proof.
  intros H. unfold africa_diets in H.
  repeat (apply elem_of_cons in H as [->|H];
          [eexists; split; [reflexivity|split; done]|]).
  by apply elem_of_nil in H.
Qed.

Lemma global_diet_factor (label : string) :
  label ∈ global_diets →
  ∃ f, diet_factor label = Some f ∧ (lit 1.2 ≤ f)%Qc ∧ (f ≤ lit 3.3)%Qc.
Proof.
  intros H. unfold global_diets in H.
  repeat (apply elem_of_cons in H as [->|H];
          [eexists; split; [reflexivity|split; done]|]).
  by apply elem_of_nil in H.
Qed.

(** A slider value as a number between the bounds of the slider. *)
Lemma in_range_lit (lo hi n : Z) :
  (0 ≤ lo)%Z → in_range lo hi n →
  (0 ≤ lit (inject_Z n))%Qc ∧ (lit (inject_Z n) ≤ lit (inject_Z hi))%Qc.
Proof.
  intros Hlo [H1 H2]. split.
  - apply lit_inject_Z_nonneg. lia.
  - by apply lit_inject_Z_le.
Qed.

(** Bounds of a sum of non-negative products: the sum is split into its
    terms, each term into its factors. *)
Ltac closed_le := solve [vm_compute; discriminate].

Ltac bound_factor :=
  first
    [ assumption
    | apply Qcle_refl
    | lazymatch goal with
      | |- (_ * _ ≤ _ * _)%Qc => apply Qcmult_le_compat_nonneg
      | |- (_ ≤ _ * _)%Qc => apply Qcmult_nonneg_nonneg
      end
    | closed_le ].

Ltac bound_terms :=
  repeat apply Qcplus_le_compat; repeat bound_factor.

Lemma africa_total_bounds (g kwh lpg car moto bus hours f : Qc) :
  (0 ≤ g)%Qc → (g ≤ lit 0.9)%Qc →
  (0 ≤ kwh)%Qc → (kwh ≤ lit 600)%Qc →
  (0 ≤ lpg)%Qc → (lpg ≤ lit 450)%Qc →
  (0 ≤ car)%Qc → (car ≤ lit 400)%Qc →
  (0 ≤ moto)%Qc → (moto ≤ lit 200)%Qc →
  (0 ≤ bus)%Qc → (bus ≤ lit 300)%Qc →
  (0 ≤ hours)%Qc → (hours ≤ lit 50)%Qc →
  (lit 1.2 ≤ f)%Qc → (f ≤ lit 2.7)%Qc →
  (lit 438
   ≤ lit 12 * g * kwh + lit 36 * lpg + lit 16.12 * car + lit 5.72 * moto
     + lit 5.72 * bus + lit 120 * hours + lit 365 * f)%Qc
  ∧ (lit 12 * g * kwh + lit 36 * lpg + lit 16.12 * car + lit 5.72 * moto
     + lit 5.72 * bus + lit 120 * hours + lit 365 * f
     ≤ lit 38973.5)%Qc.
Proof.
  intros. assert (0 ≤ f)%Qc by by transitivity (lit 1.2). split.
  - transitivity (lit 12 * 0 * 0 + lit 36 * 0 + lit 16.12 * 0 + lit 5.72 * 0
                  + lit 5.72 * 0 + lit 120 * 0 + lit 365 * lit 1.2)%Qc;
      [closed_le|]. bound_terms.
  - transitivity (lit 12 * lit 0.9 * lit 600 + lit 36 * lit 450
                  + lit 16.12 * lit 400 + lit 5.72 * lit 200
                  + lit 5.72 * lit 300 + lit 120 * lit 50
                  + lit 365 * lit 2.7)%Qc; [|closed_le]. bound_terms.
Qed.

Lemma global_total_bounds
    (kwh gas oil propane car bus train hours f : Qc) :
  (0 ≤ kwh)%Qc → (kwh ≤ lit 2000)%Qc →
  (0 ≤ gas)%Qc → (gas ≤ lit 200)%Qc →
  (0 ≤ oil)%Qc → (oil ≤ lit 500)%Qc →
  (0 ≤ propane)%Qc → (propane ≤ lit 500)%Qc →
  (0 ≤ car)%Qc → (car ≤ lit 500)%Qc →
  (0 ≤ bus)%Qc → (bus ≤ lit 500)%Qc →
  (0 ≤ train)%Qc → (train ≤ lit 500)%Qc →
  (0 ≤ hours)%Qc → (hours ≤ lit 100)%Qc →
  (lit 1.2 ≤ f)%Qc → (f ≤ lit 3.3)%Qc →
  (lit 438
   ≤ lit 6 * kwh + lit 24 * gas + lit 32.16 * oil + lit 18 * propane
     + lit 16.12 * car + lit 5.72 * bus + lit 3.12 * train
     + lit 120 * hours + lit 365 * f)%Qc
  ∧ (lit 6 * kwh + lit 24 * gas + lit 32.16 * oil + lit 18 * propane
     + lit 16.12 * car + lit 5.72 * bus + lit 3.12 * train
     + lit 120 * hours + lit 365 * f
     ≤ lit 67564.5)%Qc.
Proof.
  intros. assert (0 ≤ f)%Qc by by transitivity (lit 1.2). split.
  - transitivity (lit 6 * 0 + lit 24 * 0 + lit 32.16 * 0 + lit 18 * 0
                  + lit 16.12 * 0 + lit 5.72 * 0 + lit 3.12 * 0
                  + lit 120 * 0 + lit 365 * lit 1.2)%Qc; [closed_le|].
    bound_terms.
  - transitivity (lit 6 * lit 2000 + lit 24 * lit 200 + lit 32.16 * lit 500
                  + lit 18 * lit 500 + lit 16.12 * lit 500
                  + lit 5.72 * lit 500 + lit 3.12 * lit 500
                  + lit 120 * lit 100 + lit 365 * lit 3.3)%Qc; [|closed_le].
    bound_terms.
Qed.

Lemma cylinder_size_bounds (size : Z) :
  size ∈ cylinder_sizes → in_range 0 45 size.
Proof.
  intros H. unfold cylinder_sizes in H.
  repeat (apply elem_of_cons in H as [->|H]; [unfold in_range; lia|]).
  by apply elem_of_nil in H.
Qed.

Lemma lpg_use_bounds (size steps : Z) :
  size ∈ cylinder_sizes → in_range 0 20 steps →
  (0 ≤ lit (inject_Z size) * (lit (inject_Z steps) * lit 0.5))%Qc
  ∧ (lit (inject_Z size) * (lit (inject_Z steps) * lit 0.5) ≤ lit 450)%Qc.
Proof.
  intros Hsize%cylinder_size_bounds Hsteps.
  destruct (in_range_lit 0 45 size) as [? ?]; [done|done|].
  destruct (in_range_lit 0 20 steps) as [? ?]; [done|done|].
  split.
  - repeat apply Qcmult_nonneg_nonneg; done.
  - transitivity (lit 45 * (lit 20 * lit 0.5))%Qc; [|closed_le].
    repeat apply Qcmult_le_compat_nonneg; try done.
    by apply Qcmult_nonneg_nonneg.
Qed.

(** X18. The Africa form never makes the script fail.  For every state
    the widgets can be in: with the placeholder country nothing is
    computed; with any other country the press of the button shows a
    result, with seven categories, the plan of the thresholds and a total
    between 438 and 38973.5 kg. *)
Theorem africa_form_outcome (w : africa_widgets) :
  africa_widgets_ok w →
  (aw_country w = "Select Country" →
     ∀ calculate_button,
       on_calculate calculate_button "Africa" (africa_input_data w) = None)
  ∧ (aw_country w ≠ "Select Country" →
     ∃ total breakdown,
       on_calculate true "Africa" (africa_input_data w)
       = Some (Ok (total, breakdown, plan_of breakdown "Africa"))
       ∧ length breakdown = 7%nat
       ∧ (lit 438 ≤ total)%Qc ∧ (total ≤ lit 38973.5)%Qc).
Proof.
  intros (Hcountry & Hkwh & Hsize & (steps & Hsteps & Hqty) & Hcar & Hmoto
          & Hbus & Hhours & Hdiet).
  assert (africa_input_data w !! "country" = Some (VStr (aw_country w)))
    as Hlookup by reflexivity.
  split.
  - intros Hsentinel b. rewrite on_calculate_unfold.
    unfold valid_input. rewrite Hlookup, Hsentinel. by destruct b.
  - intros Hreal. rewrite on_calculate_unfold.
    assert (valid_input "Africa" (africa_input_data w) = true) as ->.
    { unfold valid_input. rewrite Hlookup.
      rewrite bool_decide_eq_false_2; [done|]. by intros [= ?]. }
    change (lower "Africa") with "africa". cbn [andb].
    destruct (country_option_factor _ Hcountry) as (g & Hg & Hg0 & Hg1).
    destruct (africa_diet_factor _ Hdiet) as (f & Hf & Hf0 & Hf1).
    rewrite (calculate_africa_run (africa_input_data w) g
               (lit (inject_Z (aw_electricity_kwh w)))
               (Some (lit (inject_Z (aw_cylinder_size w))
                      * aw_cylinder_quantity w)%Qc)
               (lit (inject_Z (aw_car_km_week w)))
               (lit (inject_Z (aw_moto_km_week w)))
               (lit (inject_Z (aw_bus_km_week w)))
               (lit (inject_Z (aw_flight_hours w))) f).
    + eexists _, _. split; [reflexivity|]. split; [reflexivity|].
      rewrite sum_africa_breakdown. cbn [from_option id].
      destruct (in_range_lit _ _ _ (Z.le_refl 0) Hkwh).
      destruct (in_range_lit _ _ _ (Z.le_refl 0) Hcar).
      destruct (in_range_lit _ _ _ (Z.le_refl 0) Hmoto).
      destruct (in_range_lit _ _ _ (Z.le_refl 0) Hbus).
      destruct (in_range_lit _ _ _ (Z.le_refl 0) Hhours).
      rewrite Hqty. destruct (lpg_use_bounds _ _ Hsize Hsteps).
      by apply africa_total_bounds.
    + split; [by exists (aw_country w)|].
      repeat split. by exists (aw_diet w).
Qed.

Lemma africa_form_outcome_witness :
  (aw_country kenya_widgets = "Select Country" →
     ∀ calculate_button,
       on_calculate calculate_button "Africa" (africa_input_data kenya_widgets)
       = None)
  ∧ (aw_country kenya_widgets ≠ "Select Country" →
     ∃ total breakdown,
       on_calculate true "Africa" (africa_input_data kenya_widgets)
       = Some (Ok (total, breakdown, plan_of breakdown "Africa"))
       ∧ length breakdown = 7%nat
       ∧ (lit 438 ≤ total)%Qc ∧ (total ≤ lit 38973.5)%Qc).
Proof.
  apply (africa_form_outcome kenya_widgets).
  unfold africa_widgets_ok, in_range. simpl.
  split; [unfold country_options; field_in_list|].
  split; [lia|]. split; [unfold cylinder_sizes; field_in_list|].
  split; [exists 2%Z; split; [lia|apply Qc_is_canon; reflexivity]|].
  do 4 (split; [lia|]). unfold africa_diets. field_in_list.
Defined.

(** X19. The Global form never makes the script fail: for every state
    the widgets can be in, the press of the button shows a result, with
    nine categories, the plan of the thresholds and a total between 438
    and 67564.5 kg. *)
Theorem global_form_outcome (w : global_widgets) :
  global_widgets_ok w →
  ∃ total breakdown,
    on_calculate true "Global" (global_input_data w)
    = Some (Ok (total, breakdown, plan_of breakdown "Global"))
    ∧ length breakdown = 9%nat
    ∧ (lit 438 ≤ total)%Qc ∧ (total ≤ lit 67564.5)%Qc.
Proof.
  intros (Hkwh & Hgas & Hoil & Hprop & Hcar & Hhours & Hbus & Htrain & Hdiet).
  rewrite on_calculate_unfold.
  change (valid_input "Global" (global_input_data w)) with true.
  change (lower "Global") with "global". cbn [andb].
  destruct (global_diet_factor _ Hdiet) as (f & Hf & Hf0 & Hf1).
  rewrite (calculate_global_run (global_input_data w) "global"
             (lit (inject_Z (gw_electricity_kwh w)))
             (lit (inject_Z (gw_natural_gas_therms w)))
             (lit (inject_Z (gw_heating_oil_liters w)))
             (lit (inject_Z (gw_propane_liters w)))
             (lit (inject_Z (gw_car_miles_week w)))
             (lit (inject_Z (gw_bus_miles_week w)))
             (lit (inject_Z (gw_train_miles_week w)))
             (lit (inject_Z (gw_flight_hours w))) f).
  - eexists _, _. split; [reflexivity|]. split; [reflexivity|].
    rewrite sum_global_breakdown.
    destruct (in_range_lit _ _ _ (Z.le_refl 0) Hkwh).
    destruct (in_range_lit _ _ _ (Z.le_refl 0) Hgas).
    destruct (in_range_lit _ _ _ (Z.le_refl 0) Hoil).
    destruct (in_range_lit _ _ _ (Z.le_refl 0) Hprop).
    destruct (in_range_lit _ _ _ (Z.le_refl 0) Hcar).
    destruct (in_range_lit _ _ _ (Z.le_refl 0) Hbus).
    destruct (in_range_lit _ _ _ (Z.le_refl 0) Htrain).
    destruct (in_range_lit _ _ _ (Z.le_refl 0) Hhours).
    by apply global_total_bounds.
  - discriminate.
  - repeat split. by exists (gw_diet w).
Qed.

Lemma global_form_outcome_witness :
  ∃ total breakdown,
    on_calculate true "Global" (global_input_data default_global_widgets)
    = Some (Ok (total, breakdown, plan_of breakdown "Global"))
    ∧ length breakdown = 9%nat
    ∧ (lit 438 ≤ total)%Qc ∧ (total ≤ lit 67564.5)%Qc.
Proof.
  apply (global_form_outcome default_global_widgets).
  unfold global_widgets_ok, in_range. simpl.
  do 8 (split; [lia|]). unfold global_diets. field_in_list.
Defined.

(** ** The message of a low footprint *)

Lemma shows_low_footprint_nil (plan : list (string * Z)) :
  shows_low_footprint plan = true ↔ plan = [].
Proof. by destruct plan. Qed.

Lemma optional_recommendation_nil (c x : Qc) (r : string * Z)
    (rest : list (string * Z)) :
  ((if bool_decide (c < x)%Qc then [r] else []) ++ rest)%list = []
  ↔ (x ≤ c)%Qc ∧ rest = [].
Proof.
  case_bool_decide as Hlt; simpl; split.
  - discriminate.
  - intros [Hle _]. by apply Qcle_not_lt in Hle.
  - intros ->. split; [by apply Qcnot_lt_le|done].
  - by intros [_ ->].
Qed.

Lemma cooking_recommendation_nil (region : string) (c x : Qc)
    (r : string * Z) :
  (if String.eqb (lower region) "africa" && bool_decide (c < x)%Qc
   then [r] else []) = []
  ↔ (lower region = "africa" → (x ≤ c)%Qc).
Proof.
  destruct (String.eqb (lower region) "africa") eqn:Hregion;
    [apply String.eqb_eq in Hregion|apply String.eqb_neq in Hregion];
    cbn [andb].
  - case_bool_decide as Hlt; split.
    + discriminate.
    + intros Hle. by apply Qcle_not_lt in Hle.
    + intros _ _. by apply Qcnot_lt_le.
    + done.
  - split; [|done]. by intros _ ?.
Qed.

(** X20. A run of the script that shows a result shows the message of an
    already low footprint, in place of a plan, exactly when no threshold
    is exceeded: the electricity category is at most 1500, the car
    category at most 2000 and, in the Africa region, the cooking category
    at most 500. *)
Theorem low_footprint_message (region : string)
    (input_data : gmap string value) (total : Qc) (breakdown : odict)
    (plan : list (string * Z)) :
  on_calculate true region input_data = Some (Ok (total, breakdown, plan)) →
  shows_low_footprint plan = true ↔
  (category "Housing: Electricity" breakdown ≤ lit 1500)%Qc
  ∧ (category "Transport: Car" breakdown ≤ lit 2000)%Qc
  ∧ (lower region = "africa" →
     (category "Housing: Cooking (LPG)" breakdown ≤ lit 500)%Qc).
Proof.
  intros [_ ->]%on_calculate_inv.
  rewrite shows_low_footprint_nil. unfold plan_of.
  by rewrite !optional_recommendation_nil, cooking_recommendation_nil.
Qed.

Lemma low_footprint_message_witness :
  shows_low_footprint (@nil (string * Z)) = true ↔
  (category "Housing: Electricity" kenya_breakdown ≤ lit 1500)%Qc
  ∧ (category "Transport: Car" kenya_breakdown ≤ lit 2000)%Qc
  ∧ (lower "Africa" = "africa" →
     (category "Housing: Cooking (LPG)" kenya_breakdown ≤ lit 500)%Qc).
Proof.
  exact (low_footprint_message "Africa" kenya_record _ _ _ kenya_script_run).
Defined.

(** ** Accepted records, overflow and sign on the numbers of the interpreter *)

Lemma b64_getitem_Ok_inv {V} (d : gmap string V) (k : string) (v : V) :
  B64.getitem d k = B64.Ok v → d !! k = Some v.
Proof. unfold B64.getitem. destruct (d !! k); congruence. Qed.

Lemma b64_getitem_Some {V} (d : gmap string V) (k : string) (v : V) :
  d !! k = Some v → B64.getitem d k = B64.Ok v.
Proof. unfold B64.getitem. by intros ->. Qed.

Lemma b64_getitem_obj_Ok_inv {V} (d : gmap string V) (o : B64.value) (v : V) :
  B64.getitem_obj d o = B64.Ok v → ∃ k, o = B64.VStr k ∧ d !! k = Some v.
Proof.
  destruct o as [n|x|k]; simpl; [discriminate|discriminate|].
  intros H%b64_getitem_Ok_inv. eauto.
Qed.

Lemma b64_float_of_int_Ok (n : Z) (x : spec_float) :
  B64.float_of_int n = B64.Ok x ↔ B64.in_float_range n ∧ x = B64.of_Z n.
Proof.
  unfold B64.float_of_int, B64.in_float_range.
  destruct (B64.is_finite (B64.of_Z n)); split.
  - by intros [= <-].
  - by intros [_ ->].
  - discriminate.
  - by intros [? _].
Qed.

Lemma b64_float_of_int_raise (n : Z) :
  ¬ B64.in_float_range n → B64.float_of_int n = B64.Raise B64.OverflowError.
Proof.
  unfold B64.float_of_int, B64.in_float_range.
  by destruct (B64.is_finite (B64.of_Z n)).
Qed.

Lemma b64_float_mul_int_run (x : spec_float) (k : Z) :
  B64.in_float_range k →
  B64.float_mul_int x k = B64.Ok (B64.fmul x (B64.of_Z k)).
Proof.
  intros Hk. unfold B64.float_mul_int.
  by rewrite (proj2 (b64_float_of_int_Ok k _) (conj Hk eq_refl)).
Qed.

Lemma b64_mul_float_Ok (v : B64.value) (f x : spec_float) :
  B64.mul_float v f = B64.Ok x → B64.number v.
Proof.
  destruct v as [n|y|s]; simpl; [|done|discriminate].
  intros (y & Hy & _)%b64_bind_Ok_inv. by apply b64_float_of_int_Ok in Hy as [? _].
Qed.

Lemma b64_mul_float_run (v : B64.value) (f : spec_float) :
  B64.number v → ∃ x, B64.mul_float v f = B64.Ok x.
Proof.
  destruct v as [n|y|s]; simpl; [|by eauto|done].
  intros Hn. rewrite (proj2 (b64_float_of_int_Ok n _) (conj Hn eq_refl)).
  simpl. eauto.
Qed.

Lemma b64_mul_int_Ok (v km : B64.value) (k : Z) :
  B64.mul_int v k = B64.Ok km → B64.number km → B64.scaled_number k v.
Proof.
  destruct v as [n|y|s]; simpl.
  - by intros [= <-].
  - done.
  - by intros [= <-].
Qed.

Lemma b64_mul_int_run (v : B64.value) (k : Z) :
  B64.in_float_range k → B64.scaled_number k v →
  ∃ km, B64.mul_int v k = B64.Ok km ∧ B64.number km.
Proof.
  intros Hk. destruct v as [n|y|s]; simpl; [by eauto| |done].
  intros _. rewrite (b64_float_mul_int_run _ _ Hk). simpl. by eexists.
Qed.

Lemma in_float_range_12 : B64.in_float_range 12.
Proof. reflexivity. Qed.
Lemma in_float_range_52 : B64.in_float_range 52.
Proof. reflexivity. Qed.
Lemma in_float_range_365 : B64.in_float_range 365.
Proof. reflexivity. Qed.
Lemma in_float_range_500 : B64.in_float_range 500.
Proof. reflexivity. Qed.
Lemma number_zero : B64.number (B64.VInt 0).
Proof. reflexivity. Qed.
Lemma scaled_number_zero (k : Z) : B64.scaled_number k (B64.VInt 0).
Proof. reflexivity. Qed.

(** Every key the engine looks up in the factor table is there. *)
Lemma b64_factor (k : string) :
  k ∈ ["electricity"; "natural_gas"; "heating_oil"; "propane"; "car_gasoline";
       "motorcycle"; "bus"; "train"; "plane_short"; "lpg_per_kg"] →
  ∃ f, B64.getitem B64.GLOBAL_EMISSION_FACTORS k = B64.Ok f.
Proof.
  intros Hk. repeat (apply elem_of_cons in Hk as [->|Hk]; [by eexists|]).
  by apply elem_of_nil in Hk.
Qed.

Lemma b64_diet_factor (label diet_key : string) :
  diet_map !! label = Some diet_key →
  ∃ f, B64.getitem B64.GLOBAL_EMISSION_FACTORS diet_key = B64.Ok f.
Proof.
  intros Hk. apply elem_of_list_to_map_2 in Hk.
  repeat (apply elem_of_cons in Hk as [[= -> ->]|Hk]; [by eexists|]).
  by apply elem_of_nil in Hk.
Qed.

Lemma b64_contains_true {V} (d : gmap string V) (k : string) (v : V) :
  d !! k = Some v → B64.contains d k = true.
Proof. intros H. unfold B64.contains. apply bool_decide_eq_true. eauto. Qed.

Lemma b64_contains_false {V} (d : gmap string V) (k : string) :
  d !! k = None → B64.contains d k = false.
Proof.
  intros H. unfold B64.contains. apply bool_decide_eq_false. rewrite H.
  by intros [? ?].
Qed.

(** Inverting a successful run, one statement at a time. *)
Ltac b64_inv H :=
  repeat match type of H with
  | B64.bind _ _ = B64.Ok _ =>
      let a := fresh "a" in
      let Ha := fresh "Hstep" in
      apply b64_bind_Ok_inv in H as (a & Ha & H)
  | (let _ := _ in _) = B64.Ok _ => cbv zeta in H
  end;
  repeat match goal with
  | E : B64.getitem _ _ = B64.Ok _ |- _ => apply b64_getitem_Ok_inv in E
  | E : B64.getitem_obj _ _ = B64.Ok _ |- _ =>
      apply b64_getitem_obj_Ok_inv in E as (? & -> & E)
  | E : B64.mul_float _ _ = B64.Ok _ |- _ => apply b64_mul_float_Ok in E
  end;
  repeat match goal with
  | E : B64.mul_int ?v ?k = B64.Ok ?km, N : B64.number ?km |- _ =>
      apply (b64_mul_int_Ok _ _ _ E) in N; clear E
  end.

(** Running the engine on a record that has what a statement needs. *)
Ltac b64_run :=
  repeat first
    [ progress cbn [B64.bind]
    | match goal with
      | |- context [B64.getitem B64.GLOBAL_EMISSION_FACTORS ?k] =>
          let E := fresh in
          destruct (b64_factor k) as [? E];
          [ solve [repeat constructor]
          | rewrite E; clear E ]
      | |- context [B64.float_mul_int ?x ?k] =>
          rewrite (b64_float_mul_int_run x k) by reflexivity
      | |- context [B64.mul_float ?v ?f] =>
          let E := fresh in
          destruct (b64_mul_float_run v f) as [? E];
          [ assumption | rewrite E; clear E ]
      | |- context [B64.mul_int ?v ?k] =>
          let E := fresh in
          destruct (b64_mul_int_run v k) as (? & E & ?);
          [ reflexivity | assumption | rewrite E; clear E ]
      end ].

Lemma b64_housing_global data region bd0 :
  region ≠ "africa" →
  (∃ bd, B64.housing data region bd0 = B64.Ok bd) ↔
  (∃ kwh, data !! "electricity_kwh" = Some kwh ∧ B64.number kwh)
  ∧ B64.number (B64.get data "natural_gas_therms" (B64.VInt 0))
  ∧ B64.number (B64.get data "heating_oil_liters" (B64.VInt 0))
  ∧ B64.number (B64.get data "propane_liters" (B64.VInt 0)).
Proof.
  intros Hregion%String.eqb_neq. unfold B64.housing. rewrite Hregion. split.
  - intros [bd H]. b64_inv H. eauto 10.
  - intros ((kwh & Hkwh & Hn) & Hg & Ho & Hp).
    rewrite (b64_getitem_Some _ _ _ Hkwh). b64_run. eauto.
Qed.

Lemma b64_housing_africa data bd0 :
  (∃ bd, B64.housing data "africa" bd0 = B64.Ok bd) ↔
  B64.known_country data
  ∧ (∃ kwh, data !! "electricity_kwh" = Some kwh ∧ B64.number kwh)
  ∧ (∀ kg, data !! "lpg_kg_per_month" = Some kg → B64.number kg).
Proof.
  unfold B64.housing. change (String.eqb "africa" "africa") with true.
  cbv iota. split.
  - intros [bd H].
    apply b64_bind_Ok_inv in H as (country & Hc%b64_getitem_Ok_inv & H).
    apply b64_bind_Ok_inv in H
      as (g & (c & -> & Hg)%b64_getitem_obj_Ok_inv & H).
    apply b64_bind_Ok_inv in H as (kwh & Hkwh%b64_getitem_Ok_inv & H).
    apply b64_bind_Ok_inv in H as (e & He%b64_mul_float_Ok & H).
    apply b64_bind_Ok_inv in H as (e' & _ & H). cbv zeta in H.
    split; [by exists c; eauto|]. split; [by eauto|].
    intros kg Hkg. rewrite (b64_contains_true _ _ _ Hkg) in H.
    b64_inv H. by simplify_eq.
  - intros ((c & Hc & [g Hg]) & (kwh & Hkwh & Hn) & Hlpg).
    rewrite (b64_getitem_Some _ _ _ Hc). cbn [B64.bind B64.getitem_obj].
    rewrite (b64_getitem_Some _ _ _ Hg), (b64_getitem_Some _ _ _ Hkwh).
    b64_run. cbv zeta.
    destruct (data !! "lpg_kg_per_month") as [kg|] eqn:Hkg.
    + rewrite (b64_contains_true _ _ _ Hkg), (b64_getitem_Some _ _ _ Hkg).
      pose proof (Hlpg kg eq_refl). b64_run. eauto.
    + rewrite (b64_contains_false _ _ Hkg). eauto.
Qed.

Lemma b64_transport_global data region bd0 :
  region ≠ "africa" →
  (∃ bd, B64.transport data region bd0 = B64.Ok bd) ↔
  B64.number (B64.get data "car_miles_week" (B64.VInt 0))
  ∧ B64.number (B64.get data "bus_miles_week" (B64.VInt 0))
  ∧ B64.number (B64.get data "train_miles_week" (B64.VInt 0)).
Proof.
  intros Hregion%String.eqb_neq. unfold B64.transport. rewrite Hregion. split.
  - intros [bd H]. b64_inv H. eauto.
  - intros (Hc & Hb & Ht). b64_run. eauto.
Qed.

Lemma b64_transport_africa data bd0 :
  (∃ bd, B64.transport data "africa" bd0 = B64.Ok bd) ↔
  B64.scaled_number 52 (B64.get data "car_km_week" (B64.VInt 0))
  ∧ B64.scaled_number 52 (B64.get data "moto_km_week" (B64.VInt 0))
  ∧ B64.scaled_number 52 (B64.get data "bus_km_week" (B64.VInt 0)).
Proof.
  unfold B64.transport. change (String.eqb "africa" "africa") with true.
  cbv iota. split.
  - intros [bd H]. b64_inv H. eauto.
  - intros (Hc & Hm & Hb). b64_run. eauto.
Qed.

Lemma b64_flights data bd0 :
  (∃ bd, B64.flights data bd0 = B64.Ok bd) ↔
  ∃ hours, data !! "flight_hours" = Some hours ∧ B64.scaled_number 500 hours.
Proof.
  unfold B64.flights. split.
  - intros [bd H]. b64_inv H. eauto.
  - intros (hours & Hh & Hn). rewrite (b64_getitem_Some _ _ _ Hh).
    b64_run. eauto.
Qed.

Lemma b64_diet data bd0 :
  (∃ bd, B64.diet data bd0 = B64.Ok bd) ↔ B64.known_diet data.
Proof.
  unfold B64.diet, B64.known_diet. split.
  - intros [bd H]. b64_inv H. eauto.
  - intros (label & Hl & [k Hk]). rewrite (b64_getitem_Some _ _ _ Hl).
    cbn [B64.bind B64.getitem_obj]. rewrite (b64_getitem_Some _ _ _ Hk).
    cbn [B64.bind]. destruct (b64_diet_factor _ _ Hk) as [f ->].
    b64_run. eauto.
Qed.

Lemma b64_calculate_Ok data region :
  (∃ r, B64.calculate_carbon_footprint data region = B64.Ok r) ↔
  (∃ bd, B64.housing data region [] = B64.Ok bd)
  ∧ (∀ bd0, ∃ bd, B64.transport data region bd0 = B64.Ok bd)
  ∧ (∀ bd0, ∃ bd, B64.flights data bd0 = B64.Ok bd)
  ∧ (∀ bd0, ∃ bd, B64.diet data bd0 = B64.Ok bd).
Proof.
  split.
  - intros [[total bd] H].
    apply b64_calculate_inv in H as (bd1 & bd2 & bd3 & Hh & Ht & Hf & Hd & _).
    split; [by eauto|].
    destruct (decide (region = "africa")) as [->|Hregion].
    + split; [intros bd0; apply b64_transport_africa;
              apply (b64_transport_africa data bd1); eauto|].
      split; [intros bd0; apply b64_flights;
              apply (b64_flights data bd2); eauto|].
      intros bd0. apply b64_diet. apply (b64_diet data bd3). eauto.
    + split; [intros bd0; apply b64_transport_global; [done|];
              apply (b64_transport_global data region bd1); eauto|].
      split; [intros bd0; apply b64_flights;
              apply (b64_flights data bd2); eauto|].
      intros bd0. apply b64_diet. apply (b64_diet data bd3). eauto.
  - intros ([bd1 Hh] & Ht & Hf & Hd).
    destruct (Ht bd1) as [bd2 Ht']. destruct (Hf bd2) as [bd3 Hf'].
    destruct (Hd bd3) as [bd4 Hd'].
    unfold B64.calculate_carbon_footprint. cbv zeta.
    rewrite Hh. cbn [B64.bind]. rewrite Ht'. cbn [B64.bind].
    rewrite Hf'. cbn [B64.bind]. rewrite Hd'. cbn [B64.bind]. eauto.
Qed.

Lemma b64_accepted (data : gmap string B64.value) :
  ((∃ r, B64.calculate_carbon_footprint data "africa" = B64.Ok r)
     ↔ B64.accepted_africa data)
  ∧ (∀ region, region ≠ "africa" →
       (∃ r, B64.calculate_carbon_footprint data region = B64.Ok r)
       ↔ B64.accepted_global data).
Proof.
  split; [|intros region Hregion]; rewrite b64_calculate_Ok.
  - rewrite b64_housing_africa. unfold B64.accepted_africa. split.
    + intros (Hh & Ht & Hf & Hd).
      specialize (Ht []). specialize (Hf []). specialize (Hd []).
      apply b64_transport_africa in Ht. apply b64_flights in Hf.
      apply b64_diet in Hd. tauto.
    + intros (Hc & Hk & Hl & Hcar & Hm & Hb & Hf & Hd).
      split; [done|].
      split; [intros bd0; by apply b64_transport_africa|].
      split; [intros bd0; by apply b64_flights|].
      intros bd0. by apply b64_diet.
  - rewrite (b64_housing_global data region [] Hregion).
    unfold B64.accepted_global. split.
    + intros (Hh & Ht & Hf & Hd).
      specialize (Ht []). specialize (Hf []). specialize (Hd []).
      apply b64_transport_global in Ht; [|done]. apply b64_flights in Hf.
      apply b64_diet in Hd. tauto.
    + intros (Hk & Hg & Ho & Hp & Hcar & Hb & Ht & Hf & Hd).
      split; [done|].
      split; [intros bd0; by apply b64_transport_global|].
      split; [intros bd0; by apply b64_flights|].
      intros bd0. by apply b64_diet.
Qed.

(** X5. On the numbers of the interpreter, the engine returns a result
    exactly on the accepted records: a float or an int within the floats
    in the electricity field, the same or nothing in the fields read with
    a default (in the africa region also in the LPG field), where the int
    of a weekly distance of the africa region is taken times 52 and the
    int of the flight hours times 500, a diet among the six labels of the
    diet table and, in the africa region, a country that is a key of the
    grid table.  On every other record it raises an exception. *)
Theorem accepted_records (data : gmap string B64.value) :
  ((∃ r, B64.calculate_carbon_footprint data "africa" = B64.Ok r)
     ↔ B64.accepted_africa data)
  ∧ (∀ region, region ≠ "africa" →
       (∃ r, B64.calculate_carbon_footprint data region = B64.Ok r)
       ↔ B64.accepted_global data).
Proof. exact (b64_accepted data). Qed.

Lemma accepted_records_witness :
  ((∃ r, B64.calculate_carbon_footprint B64.kenya_record "africa" = B64.Ok r)
     ↔ B64.accepted_africa B64.kenya_record)
  ∧ ((∃ r, B64.calculate_carbon_footprint B64.kenya_record "global"
           = B64.Ok r)
       ↔ B64.accepted_global B64.kenya_record).
Proof.
  split.
  - exact (proj1 (accepted_records B64.kenya_record)).
  - apply (proj2 (accepted_records B64.kenya_record) "global"). discriminate.
Defined.

(** X21. An int beyond the floats in the electricity field makes the
    engine raise [OverflowError], in the africa region when the country is
    a key of the grid table and in every other region: the first product
    of the engine converts the int. *)
Theorem int_beyond_floats_raises (data : gmap string B64.value)
    (region : string) (n : Z) :
  data !! "electricity_kwh" = Some (B64.VInt n) →
  ¬ B64.in_float_range n →
  region ≠ "africa" ∨ B64.known_country data →
  B64.calculate_carbon_footprint data region = B64.Raise B64.OverflowError.
Proof.
  intros Hkwh Hn Hregion.
  unfold B64.calculate_carbon_footprint, B64.housing. cbv zeta.
  destruct (String.eqb region "africa") eqn:E.
  - destruct Hregion as [Hregion|(c & Hc & [g Hg])];
      [by apply String.eqb_eq in E|].
    rewrite (b64_getitem_Some _ _ _ Hc). cbn [B64.bind B64.getitem_obj].
    rewrite (b64_getitem_Some _ _ _ Hg), (b64_getitem_Some _ _ _ Hkwh).
    cbn [B64.bind B64.mul_float]. by rewrite (b64_float_of_int_raise _ Hn).
  - rewrite (b64_getitem_Some _ _ _ Hkwh). b64_run.
    cbn [B64.bind B64.mul_float]. by rewrite (b64_float_of_int_raise _ Hn).
Qed.

Lemma int_beyond_floats_raises_witness :
  B64.calculate_carbon_footprint B64.huge_record "africa"
  = B64.Raise B64.OverflowError.
Proof.
  apply (int_beyond_floats_raises B64.huge_record "africa" (10 ^ 400)).
  - reflexivity.
  - intros H. vm_compute in H. discriminate.
  - right. exists "Kenya (Geothermal/Hydro)". split; [reflexivity|].
    by eexists.
Defined.

(** The conversion of an int overflows with that of its opposite. *)
Lemma binary_round_finite (sx sx' : bool) (mx : positive) (ex : Z) :
  B64.is_finite (binary_round B64.prec B64.emax sx mx ex)
  = B64.is_finite (binary_round B64.prec B64.emax sx' mx ex).
Proof.
  unfold binary_round.
  destruct (shl_align mx ex _) as [mz ez].
  unfold binary_round_aux.
  destruct (shr_fexp _ _ _ _ _) as [mrs e'].
  destruct (shr_fexp _ _ _ _ _) as [mrs' e''].
  destruct (shr_m mrs') as [|m|m]; [done| |done].
  by destruct (Z.leb _ _).
Qed.

Lemma in_float_range_opp (n : Z) :
  B64.in_float_range (- n) ↔ B64.in_float_range n.
Proof.
  unfold B64.in_float_range, B64.of_Z.
  destruct n as [|p|p]; simpl; [done| |];
    by rewrite (binary_round_finite true false).
Qed.

Lemma number_neg (v : B64.value) : B64.number v → B64.number (B64.neg v).
Proof. destruct v as [n|x|s]; simpl; [|done|done]. apply in_float_range_opp. Qed.

Lemma scaled_number_neg (k : Z) (v : B64.value) :
  B64.scaled_number k v → B64.scaled_number k (B64.neg v).
Proof.
  destruct v as [n|x|s]; simpl; [|done|done].
  rewrite Z.mul_opp_l. apply in_float_range_opp.
Qed.

Section Negated.

Variable data : gmap string B64.value.
Variable field : string.
Variable v : B64.value.
Hypothesis Hfield : data !! field = Some v.

Variable P : B64.value → Prop.
Hypothesis P_neg : ∀ x, P x → P (B64.neg x).

Lemma negated_required (k : string) :
  (∃ x, data !! k = Some x ∧ P x) →
  ∃ x, <[field := B64.neg v]> data !! k = Some x ∧ P x.
Proof.
  intros (x & Hx & HP). destruct (decide (field = k)) as [->|Hne].
  - rewrite lookup_insert_eq. simplify_eq. eauto.
  - rewrite lookup_insert_ne by done. eauto.
Qed.

Lemma negated_defaulted (k : string) (d : B64.value) :
  P (B64.get data k d) → P (B64.get (<[field := B64.neg v]> data) k d).
Proof.
  unfold B64.get. destruct (decide (field = k)) as [->|Hne].
  - rewrite lookup_insert_eq, Hfield. simpl. apply P_neg.
  - by rewrite lookup_insert_ne.
Qed.

Lemma negated_optional (k : string) :
  (∀ x, data !! k = Some x → P x) →
  ∀ x, <[field := B64.neg v]> data !! k = Some x → P x.
Proof.
  intros H x. destruct (decide (field = k)) as [->|Hne].
  - rewrite lookup_insert_eq. intros [= <-]. by apply P_neg, H.
  - rewrite lookup_insert_ne by done. apply H.
Qed.

End Negated.

Lemma negated_string (data : gmap string B64.value) (field k s : string)
    (v : B64.value) :
  data !! field = Some v → data !! k = Some (B64.VStr s) →
  <[field := B64.neg v]> data !! k = Some (B64.VStr s).
Proof.
  intros Hfield Hk. destruct (decide (field = k)) as [->|Hne].
  - rewrite lookup_insert_eq. by simplify_eq.
  - by rewrite lookup_insert_ne.
Qed.

(** X22. On the numbers of the interpreter as well the engine checks no
    sign: on a record on which it returns a result, replacing the value
    of any field by its opposite (a string is left as it is) gives a
    record on which it returns a result. *)
Theorem opposite_accepted (data : gmap string B64.value) (region field : string)
    (v : B64.value) (r : spec_float * B64.odict) :
  B64.calculate_carbon_footprint data region = B64.Ok r →
  data !! field = Some v →
  ∃ r', B64.calculate_carbon_footprint (<[field := B64.neg v]> data) region
        = B64.Ok r'.
Proof.
  intros Hrun Hfield.
  assert (∃ r, B64.calculate_carbon_footprint data region = B64.Ok r) as Hok
    by eauto.
  destruct (b64_accepted data) as [Hafrica Hglobal].
  destruct (b64_accepted (<[field := B64.neg v]> data))
    as [Hafrica' Hglobal'].
  destruct (decide (region = "africa")) as [->|Hregion].
  - apply Hafrica'. apply Hafrica in Hok
      as ((c & Hc & Hg) & Hk & Hl & Hcar & Hm & Hb & Hf & (l & Hd & Hdk)).
    split; [exists c; split; [by apply negated_string|done]|].
    split; [by apply negated_required; [|apply number_neg|]|].
    split; [by apply negated_optional; [|apply number_neg|]|].
    split; [by apply negated_defaulted; [|apply scaled_number_neg|]|].
    split; [by apply negated_defaulted; [|apply scaled_number_neg|]|].
    split; [by apply negated_defaulted; [|apply scaled_number_neg|]|].
    split; [by apply negated_required; [|apply scaled_number_neg|]|].
    exists l. split; [by apply negated_string|done].
  - apply (Hglobal' region Hregion). apply (Hglobal region Hregion) in Hok
      as (Hk & Hg & Ho & Hp & Hcar & Hb & Ht & Hf & (l & Hd & Hdk)).
    split; [by apply negated_required; [|apply number_neg|]|].
    do 6 (split; [by apply negated_defaulted; [|apply number_neg|]|]).
    split; [by apply negated_required; [|apply scaled_number_neg|]|].
    exists l. split; [by apply negated_string|done].
Qed.

Lemma opposite_accepted_witness :
  ∃ r', B64.calculate_carbon_footprint
          (<["electricity_kwh" := B64.neg (B64.VInt 100)]> B64.kenya_record)
          "africa"
        = B64.Ok r'.
Proof.
  apply (opposite_accepted B64.kenya_record "africa" "electricity_kwh"
           (B64.VInt 100) _ b64_kenya_run).
  reflexivity.
Defined.

(** ** The engine in closed form on the numbers of the interpreter *)

Lemma b64_mul_float_as_float (v : B64.value) (f r : spec_float) :
  B64.mul_float v f = B64.Ok r ↔
  ∃ x, B64.as_float v = Some x ∧ r = B64.fmul x f.
Proof.
  destruct v as [n|y|s]; simpl.
  - unfold B64.float_of_int. destruct (B64.is_finite (B64.of_Z n)); simpl.
    + split; [intros [= <-]; eauto | by intros (x & [= <-] & ->)].
    + split; [discriminate | by intros (x & ? & _)].
  - split; [intros [= <-]; eauto | by intros (x & [= <-] & ->)].
  - split; [discriminate | by intros (x & ? & _)].
Qed.

Lemma b64_mul_int_scaled (v km : B64.value) (k : Z) :
  B64.in_float_range k →
  B64.mul_int v k = B64.Ok km → B64.as_float km = B64.scaled_float k v.
Proof.
  intros Hk. destruct v as [n|y|s]; simpl.
  - by intros [= <-].
  - rewrite (b64_float_mul_int_run _ _ Hk). simpl. by intros [= <-].
  - by intros [= <-].
Qed.

Lemma b64_mul_int_total (v : B64.value) (k : Z) :
  B64.in_float_range k → ∃ km, B64.mul_int v k = B64.Ok km.
Proof.
  intros Hk. destruct v as [n|y|s]; simpl; [by eauto| |by eauto].
  rewrite (b64_float_mul_int_run _ _ Hk). simpl. eauto.
Qed.

(** [(v * k) * f], the two products of a weekly distance of the africa
    region and of the flight hours. *)
Lemma b64_scaled_product (v : B64.value) (k : Z) (f r : spec_float) :
  B64.in_float_range k →
  B64.bind (B64.mul_int v k) (λ km, B64.mul_float km f) = B64.Ok r ↔
  ∃ x, B64.scaled_float k v = Some x ∧ r = B64.fmul x f.
Proof.
  intros Hk. destruct (b64_mul_int_total v k Hk) as [km Hkm].
  rewrite Hkm. cbn [B64.bind]. rewrite b64_mul_float_as_float.
  by rewrite (b64_mul_int_scaled _ _ _ Hk Hkm).
Qed.


(** One statement [breakdown[k] = v * f * n] of the housing and
    transport of the global region. *)
Lemma b64_product_12 (v : B64.value) (f r : spec_float) (n : Z) :
  B64.in_float_range n →
  B64.bind (B64.mul_float v f) (λ e, B64.float_mul_int e n) = B64.Ok r ↔
  ∃ x, B64.as_float v = Some x
    ∧ r = B64.fmul (B64.fmul x f) (B64.of_Z n).
Proof.
  intros Hn. split.
  - intros (e & (x & Hx & ->)%b64_mul_float_as_float & H)%b64_bind_Ok_inv.
    rewrite (b64_float_mul_int_run _ _ Hn) in H. injection H as <-. eauto.
  - intros (x & Hx & ->).
    rewrite (proj2 (b64_mul_float_as_float v f _)) by eauto.
    cbn [B64.bind]. by rewrite (b64_float_mul_int_run _ _ Hn).
Qed.



(** Evaluating the writes of a run on an empty breakdown. *)
Ltac b64_eval_setitem :=
  cbn [B64.setitem String.eqb Ascii.eqb Bool.eqb app].










